(** * pdocs: a shallow embedding of the documentation checker

    The development follows the TypeScript sources file by file:
    [Js] holds the fragment of JavaScript values that [yaml.load] can
    produce, [Path] and [Fs] the part of node's [path] and [fs] modules
    the program calls, [Utils] is [src/utils.ts], [CheckCmd] is
    [src/commands/check.ts], [ListCmd] is the first half of the
    listings of [src/commands/list.ts] and [ListOutput] the whole of
    that file, [InfoCmd] is [src/commands/info.ts], [TemplateCmd] is
    [src/commands/template.ts], [Cli] the [check] action of
    [src/cli.ts] and [Commands] its [list], [info] and [template]
    actions.

    Conventions of the model: a path is absolute and POSIX, given by its
    components; the file system is a tree of regular files and
    directories; JavaScript numbers are the integers; a string is held
    as the bytes of its UTF-8 text, and counted, cut and ordered by
    UTF-16 code units; each call of [console.log] appends its text to
    the output of a computation; [process.exit(n)] is the value [n] a
    command returns; the parser of [js-yaml], the collation of
    [localeCompare], the case mappings of strings, the text of a
    number and [JSON.stringify] are parameters. *)

From Stdlib Require Import String Ascii List Bool Arith ZArith Lia.
From Stdlib Require Import DecimalString Permutation.
From Stdlib Require Import Sorted.
From Stdlib Require DecimalNat DecimalFacts.
From Equations Require Import Equations.
From Equations.Prop Require Import Logic.
Import ListNotations.
Open Scope string_scope.

(* ===================================================================== *)
(** ** JavaScript values *)
(* ===================================================================== *)

Module Js.

(** What [yaml.load] returns with the default schema, minus floats and
    timestamps: numbers are the integers, and a string is the bytes of
    its UTF-8 text. *)
#[warnings="-register-all"]
Inductive value : Type :=
| VUndefined
| VNull
| VBool (b : bool)
| VNum (n : Z)
| VStr (s : string)
| VArr (items : list value)
| VObj (props : list (string * value)).

(** Exceptions the modelled calls can raise. An error of the file
    system carries the call that failed, in the words of its message:
    [open '/a/b'], [read], [scandir '/a']. *)
Inductive exn : Type :=
| TypeError
| YAMLException
| ENOENT (call : string)
| EISDIR (call : string)
| ENOTDIR (call : string).

(** [String(e)] for an error of the file system, the only errors the
    two [catch] clauses that print their exception can meet; for the
    other two the name of the class stands for the text. *)
Definition exn_text (e : exn) : string :=
  match e with
  | TypeError => "TypeError"
  | YAMLException => "YAMLException"
  | ENOENT call => "Error: ENOENT: no such file or directory, " ++ call
  | EISDIR call => "Error: EISDIR: illegal operation on a directory, " ++ call
  | ENOTDIR call => "Error: ENOTDIR: not a directory, " ++ call
  end.

Inductive outcome (A : Type) : Type :=
| Ret (a : A)
| Throw (e : exn).
Arguments Ret {A} a.
Arguments Throw {A} e.

Definition obind {A B} (m : outcome A) (k : A -> outcome B) : outcome B :=
  match m with
  | Ret a => k a
  | Throw e => Throw e
  end.

(** [!v] *)
Definition falsy (v : value) : bool :=
  match v with
  | VUndefined | VNull => true
  | VBool b => negb b
  | VNum n => Z.eqb n 0
  | VStr s => String.eqb s ""
  | VArr _ | VObj _ => false
  end.

Definition truthy (v : value) : bool := negb (falsy v).

(** [String(n)] for a natural number. *)
Definition string_of_nat (n : nat) : string :=
  NilEmpty.string_of_uint (Nat.to_uint n).

Definition is_digit (c : ascii) : bool :=
  let n := nat_of_ascii c in Nat.leb 48 n && Nat.leb n 57.

Definition digit_val (c : ascii) : nat := nat_of_ascii c - 48.

Fixpoint all_digits (s : string) : bool :=
  match s with
  | EmptyString => true
  | String c s' => is_digit c && all_digits s'
  end.

Fixpoint digits_val (acc : nat) (s : string) : nat :=
  match s with
  | EmptyString => acc
  | String c s' => digits_val (10 * acc + digit_val c) s'
  end.

(** A property key that is a canonical array index: ["0"], ["17"],
    never ["007"]. *)
Definition array_index (key : string) : option nat :=
  if all_digits key && negb (String.eqb key "") then
    let n := digits_val 0 key in
    if String.eqb (string_of_nat n) key then Some n else None
  else None.

Fixpoint assoc {A} (key : string) (l : list (string * A)) : option A :=
  match l with
  | [] => None
  | (k, v) :: rest => if String.eqb k key then Some v else assoc key rest
  end.

(** The code points of a UTF-8 text; [need] bytes of the code point
    whose leading bits are [acc] are still to come. *)
Fixpoint code_points_from (need : nat) (acc : N) (s : string) : list N :=
  match s with
  | EmptyString => []
  | String c rest =>
      let b := N_of_ascii c in
      match need with
      | O =>
          if (b <? 192)%N then b :: code_points_from 0 0 rest
          else if (b <? 224)%N then code_points_from 1 (b - 192) rest
          else if (b <? 240)%N then code_points_from 2 (b - 224) rest
          else code_points_from 3 (b - 240) rest
      | S O => (64 * acc + b mod 64)%N :: code_points_from 0 0 rest
      | S k => code_points_from k (64 * acc + b mod 64)%N rest
      end
  end.

Definition code_points (s : string) : list N := code_points_from 0 0 s.

(** The UTF-16 code units of a code point: two, a surrogate pair, from
    U+10000 on. *)
Definition units_of (cp : N) : list N :=
  if (cp <? 65536)%N then [cp]
  else [(55296 + (cp - 65536) / 1024)%N; (56320 + (cp - 65536) mod 1024)%N].

Definition code_units (s : string) : list N :=
  flat_map units_of (code_points s).

(** [s.length] *)
Definition length16 (s : string) : nat := List.length (code_units s).

(** [!(b < a)] for two strings: [<] compares the code units one by
    one. *)
Fixpoint units_leb (a b : list N) : bool :=
  match a, b with
  | [], _ => true
  | _ :: _, [] => false
  | x :: a', y :: b' => (x <? y)%N || ((x =? y)%N && units_leb a' b')
  end.

(** The UTF-8 text of a code point. *)
Definition utf8 (cp : N) : string :=
  let byte (n : N) := ascii_of_N n in
  let tail (n : N) := byte (128 + n mod 64)%N in
  if (cp <? 128)%N then String (byte cp) ""
  else if (cp <? 2048)%N then
    String (byte (192 + cp / 64)%N) (String (tail cp) "")
  else if (cp <? 65536)%N then
    String (byte (224 + cp / 4096)%N)
           (String (tail (cp / 64)%N) (String (tail cp) ""))
  else
    String (byte (240 + cp / 262144)%N)
           (String (tail (cp / 4096)%N)
                   (String (tail (cp / 64)%N) (String (tail cp) ""))).

(** U+FFFD. Half of a surrogate pair has no UTF-8 text: node writes
    U+FFFD for it, which is one code unit as well. *)
Definition replacement : string := utf8 65533.

(** The text of the first [n] code units of the code points [cps]. *)
Fixpoint take_units (n : nat) (cps : list N) {struct cps} : string :=
  match cps with
  | [] => ""
  | cp :: rest =>
      match n with
      | O => ""
      | S n' =>
          if (cp <? 65536)%N then utf8 cp ++ take_units n' rest
          else match n' with
               | O => replacement
               | S n'' => utf8 cp ++ take_units n'' rest
               end
      end
  end.

(** [s.substring(0, n)] *)
Definition substring0 (n : nat) (s : string) : string :=
  take_units n (code_points s).

(** [s[0]], [s[1]], ...: the code units of [s], each as a string. *)
Definition chars (s : string) : list string :=
  flat_map (fun cp => if (cp <? 65536)%N then [utf8 cp]
                      else [replacement; replacement])
           (code_points s).

(** [obj[key]]: own properties only. The properties every object
    inherits are functions (or the prototype object itself), which the
    accessors of [Utils] map to their default like [undefined]. *)
Definition get (obj : value) (key : string) : outcome value :=
  match obj with
  | VUndefined | VNull => Throw TypeError
  | VBool _ | VNum _ => Ret VUndefined
  | VStr s =>
      if String.eqb key "length" then Ret (VNum (Z.of_nat (length16 s)))
      else match array_index key with
           | Some i =>
               match nth_error (chars s) i with
               | Some c => Ret (VStr c)
               | None => Ret VUndefined
               end
           | None => Ret VUndefined
           end
  | VArr items =>
      if String.eqb key "length" then Ret (VNum (Z.of_nat (List.length items)))
      else match array_index key with
           | Some i => Ret (nth i items VUndefined)
           | None => Ret VUndefined
           end
  | VObj props =>
      match assoc key props with
      | Some v => Ret v
      | None => Ret VUndefined
      end
  end.

(** [typeof v === 'object' && v !== null] *)
Definition is_object (v : value) : bool :=
  match v with
  | VArr _ | VObj _ => true
  | _ => false
  end.

(** [Object.keys(v).length] for a value that is neither [null] nor
    [undefined]. *)
Definition keys_length (v : value) : outcome nat :=
  match v with
  | VUndefined | VNull => Throw TypeError
  | VBool _ | VNum _ => Ret 0
  | VStr s => Ret (length16 s)
  | VArr items => Ret (List.length items)
  | VObj props => Ret (List.length props)
  end.

(** The white space and the line terminators of one byte. *)
Definition is_space (c : ascii) : bool :=
  let n := nat_of_ascii c in
  Nat.eqb n 32 || (Nat.leb 9 n && Nat.leb n 13).

(** Those of more than one byte: U+00A0, U+1680, U+2000 to U+200A,
    U+2028, U+2029, U+202F, U+205F, U+3000 and U+FEFF. *)
Definition wide_spaces : list string :=
  map utf8 [160; 5760; 8192; 8193; 8194; 8195; 8196; 8197; 8198; 8199;
            8200; 8201; 8202; 8232; 8233; 8239; 8287; 12288; 65279]%N.

(** [s] without its prefix [p]. *)
Fixpoint without_prefix (p s : string) : option string :=
  match p with
  | EmptyString => Some s
  | String a p' =>
      match s with
      | String b s' => if Ascii.eqb a b then without_prefix p' s' else None
      | EmptyString => None
      end
  end.

(** [s] without the first of [spaces] it begins with. *)
Fixpoint without_space (spaces : list string) (s : string) : option string :=
  match spaces with
  | [] => None
  | space :: others =>
      match without_prefix space s with
      | Some rest => Some rest
      | None => without_space others s
      end
  end.

(** [s] from its first character that is no white space, looked for in
    the first [n] bytes. *)
Fixpoint skip_spaces_in (n : nat) (s : string) : string :=
  match n with
  | O => s
  | S n' =>
      match s with
      | EmptyString => EmptyString
      | String c s' =>
          if is_space c then skip_spaces_in n' s'
          else match without_space wide_spaces s with
               | Some rest => skip_spaces_in n' rest
               | None => s
               end
      end
  end.

Definition skip_spaces (s : string) : string :=
  skip_spaces_in (String.length s) s.

(** The digits at the front of [s], most significant first. *)
Fixpoint leading_digits (s : string) : list nat :=
  match s with
  | String c s' => if is_digit c then digit_val c :: leading_digits s' else []
  | EmptyString => []
  end.

Definition digits_to_Z (ds : list nat) : Z :=
  fold_left (fun acc d => (10 * acc + Z.of_nat d)%Z) ds 0%Z.

(** The double nearest to an integer, a tie going to the even
    significand: an integer of at most 53 bits is a double. (From
    [2^1024] on the double is [Infinity], which the numbers of this
    model do not have.) *)
Definition to_double (n : Z) : Z :=
  let a := Z.abs n in
  let sh := (Z.log2 a - 52)%Z in
  if (sh <=? 0)%Z then n
  else
    let q := Z.shiftr a sh in
    let r := (a - Z.shiftl q sh)%Z in
    let half := Z.shiftl 1 (sh - 1) in
    let q' := if (half <? r)%Z || ((r =? half)%Z && Z.odd q)
              then (q + 1)%Z else q in
    (Z.sgn n * Z.shiftl q' sh)%Z.

(** [parseInt(s, 10)]; [None] is [NaN]. *)
Definition parseInt (s : string) : option Z :=
  let t := skip_spaces s in
  let '(neg, body) :=
    match t with
    | String "-" r => (true, r)
    | String "+" r => (false, r)
    | _ => (false, t)
    end in
  match leading_digits body with
  | [] => None
  | ds =>
      Some (to_double (if neg then (- digits_to_Z ds)%Z else digits_to_Z ds))
  end.

(** [s.includes(sub)] *)
Fixpoint includes (s sub : string) : bool :=
  prefix sub s ||
  match s with
  | String _ s' => includes s' sub
  | EmptyString => false
  end.

(** [s.endsWith(suffix)] *)
Definition endsWith (s suffix : string) : bool :=
  let n := String.length s in
  let m := String.length suffix in
  Nat.leb m n && String.eqb (substring (n - m) m s) suffix.

(** [s.repeat(n)] *)
Fixpoint repeat_str (s : string) (n : nat) : string :=
  match n with
  | O => ""
  | S n' => s ++ repeat_str s n'
  end.

Section Arrays.
Context {A : Type}.

(** [arr.some(f)], where the callback may throw. *)
Fixpoint some (f : A -> outcome bool) (l : list A) : outcome bool :=
  match l with
  | [] => Ret false
  | x :: rest =>
      obind (f x) (fun b => if b then Ret true else some f rest)
  end.

(** [arr.map(f)], where the callback may throw. *)
Fixpoint mapO {B} (f : A -> outcome B) (l : list A) : outcome (list B) :=
  match l with
  | [] => Ret []
  | x :: rest =>
      obind (f x) (fun y => obind (mapO f rest) (fun ys => Ret (y :: ys)))
  end.

Variable le : A -> A -> bool.

Fixpoint insert_sorted (x : A) (l : list A) : list A :=
  match l with
  | [] => [x]
  | y :: rest => if le x y then x :: l else y :: insert_sorted x rest
  end.

(** [arr.sort(cmp)] as a stable insertion sort. *)
Definition sort (l : list A) : list A :=
  fold_right insert_sorted [] l.
End Arrays.

End Js.

Export Js.
Notation "x <-? m ;; k" := (Js.obind m (fun x => k))
  (at level 61, m at next level, right associativity).

(* ===================================================================== *)
(** ** Paths and the file system *)
(* ===================================================================== *)

Module Path.

(** An absolute, normalised POSIX path is its list of components; the
    root ['/'] is the empty list. *)
Definition path : Type := list string.

Definition root : path := [].

Definition join (p : path) (name : string) : path := (p ++ [name])%list.

Definition dirname (p : path) : path := removelast p.

(** The text of a path, as it appears in messages. *)
Definition to_string (p : path) : string :=
  match p with
  | [] => "/"
  | _ => String.concat "" (map (fun c => "/" ++ c) p)
  end.

Definition basename (p : path) : string := last p "".

(** [basename(p, ext)]: the extension is cut only when it is a proper
    suffix of the last component. *)
Definition basename_ext (p : path) (ext : string) : string :=
  let b := basename p in
  if Js.endsWith b ext && negb (String.eqb b ext)
  then substring 0 (String.length b - String.length ext) b
  else b.

Definition path_eqb (p q : path) : bool :=
  if list_eq_dec string_dec p q then true else false.

End Path.

Export Path.

Module Fs.

(** Regular files and directories. *)
#[warnings="-register-all"]
Inductive node : Type :=
| File (content : string)
| Dir (entries : list (string * node)).

Fixpoint lookup (n : node) (p : path) : option node :=
  match p with
  | [] => Some n
  | name :: rest =>
      match n with
      | Dir entries =>
          match Js.assoc name entries with
          | Some child => lookup child rest
          | None => None
          end
      | File _ => None
      end
  end.

Definition existsSync (fs : node) (p : path) : bool :=
  match lookup fs p with
  | Some _ => true
  | None => false
  end.

(** [statSync(p).isDirectory()], called only where [existsSync(p)]
    holds. *)
Definition isDirectory (fs : node) (p : path) : bool :=
  match lookup fs p with
  | Some (Dir _) => true
  | _ => false
  end.

(** The failing call, as the message of the error words it. *)
Definition call_on (syscall : string) (p : path) : string :=
  syscall ++ " '" ++ Path.to_string p ++ "'".

Definition readFileSync (fs : node) (p : path) : outcome string :=
  match lookup fs p with
  | Some (File content) => Ret content
  | Some (Dir _) => Throw (EISDIR "read")
  | None => Throw (ENOENT (call_on "open" p))
  end.

Record dirent : Type := { name : string; isFile : bool }.

Definition dirent_of (e : string * node) : dirent :=
  {| name := fst e;
     isFile := match snd e with File _ => true | Dir _ => false end |}.

(** [readdirSync(p, { withFileTypes: true })] *)
Definition readdirSync (fs : node) (p : path) : outcome (list dirent) :=
  match lookup fs p with
  | Some (Dir entries) => Ret (map dirent_of entries)
  | Some (File _) => Throw (ENOTDIR (call_on "scandir" p))
  | None => Throw (ENOENT (call_on "scandir" p))
  end.

Fixpoint set_entry (nm : string) (child : node) (es : list (string * node))
  : list (string * node) :=
  match es with
  | [] => [(nm, child)]
  | (k, v) :: rest =>
      if String.eqb k nm then (k, child) :: rest
      else (k, v) :: set_entry nm child rest
  end.

(** The tree [n] with the file at [p] created or replaced; it fails
    when the parent is not a directory or [p] is one, with an error
    that names [call]. *)
Fixpoint write_at (call : string) (n : node) (p : path) (content : string)
  : outcome node :=
  match p with
  | [] =>
      match n with
      | File _ => Ret (File content)
      | Dir _ => Throw (EISDIR call)
      end
  | nm :: rest =>
      match n with
      | File _ => Throw (ENOTDIR call)
      | Dir entries =>
          match Js.assoc nm entries, rest with
          | Some child, _ =>
              child' <-? write_at call child rest content ;;
              Ret (Dir (set_entry nm child' entries))
          | None, [] => Ret (Dir (set_entry nm (File content) entries))
          | None, _ :: _ => Throw (ENOENT call)
          end
      end
  end.

(** [writeFileSync(p, content)] *)
Definition writeFileSync (n : node) (p : path) (content : string)
  : outcome node :=
  write_at (call_on "open" p) n p content.

End Fs.

Export Fs.

(* ===================================================================== *)
(** ** src/utils.ts *)
(* ===================================================================== *)

(** The [js-yaml] parser is a collaborator: [yaml_load content] is the
    parsed document, or the exception [yaml.load] raises. *)
Class YamlLoader : Type := yaml_load : string -> outcome value.

Module Utils.

Local Notation "x 'eqn:' p" := (exist _ x p) (only parsing, at level 20).

(** The body of the [while] loop of [findDocsDir], from the directory
    [currentDir] on. *)
Equations? findDocsDir_from (fs : node) (currentDir : path) : option path
  by wf (List.length currentDir) lt :=
  findDocsDir_from fs currentDir with inspect (path_eqb currentDir root) => {
    | true eqn: _ := None
    | false eqn: below_root :=
        let docsPath := join currentDir "docs" in
        if existsSync fs docsPath && isDirectory fs docsPath then Some docsPath
        else
          let parentDir := dirname currentDir in
          if path_eqb parentDir currentDir then None
          else findDocsDir_from fs parentDir }.
Proof.
  subst parentDir. unfold dirname.
  destruct currentDir as [|c cs _] using rev_ind.
  - discriminate.
  - rewrite removelast_last, length_app. simpl. lia.
Qed.

(** [findDocsDir()], with [process.cwd()] made a parameter. *)
Definition findDocsDir (fs : node) (cwd : path) : option path :=
  findDocsDir_from fs cwd.

Definition is_yaml_entry (e : dirent) : bool :=
  isFile e && (Js.endsWith (name e) ".yaml" || Js.endsWith (name e) ".yml").

(** The order of [sort()] without a comparison function: that of the
    code units of the two texts. *)
Definition path_leb (p q : path) : bool :=
  Js.units_leb (Js.code_units (Path.to_string p))
               (Js.code_units (Path.to_string q)).

Definition findYamlFiles (fs : node) (dir : path) : list path :=
  if negb (existsSync fs dir) then []
  else
    match readdirSync fs dir with
    | Ret entries =>
        Js.sort path_leb
          (map (fun e => join dir (name e)) (filter is_yaml_entry entries))
    | Throw _ => []
    end.

Section WithYaml.
Context `{YamlLoader}.

Definition loadYaml (fs : node) (filePath : path) : value :=
  match readFileSync fs filePath with
  | Ret content =>
      match yaml_load content with
      | Ret parsed => parsed
      | Throw _ => VNull
      end
  | Throw _ => VNull
  end.
End WithYaml.

Definition getString (obj : value) (key : string) : outcome string :=
  v <-? Js.get obj key ;;
  match v with
  | VStr s => Ret s
  | _ => Ret ""
  end.

Definition getNestedString (obj : value) (parent child : string)
  : outcome string :=
  parentObj <-? Js.get obj parent ;;
  if Js.is_object parentObj then
    v <-? Js.get parentObj child ;;
    match v with
    | VStr s => Ret s
    | _ => Ret ""
    end
  else Ret "".

Definition getArray (obj : value) (key : string) : outcome (list value) :=
  v <-? Js.get obj key ;;
  match v with
  | VArr items => Ret items
  | _ => Ret []
  end.

Definition getNumber (obj : value) (key : string) : outcome Z :=
  v <-? Js.get obj key ;;
  match v with
  | VNum n => Ret n
  | VStr s =>
      match Js.parseInt s with
      | Some n => Ret n
      | None => Ret 0%Z
      end
  | _ => Ret 0%Z
  end.

(** What [ensureClaudeDoc] leaves behind: the file system and the lines
    it printed. [templatePath] is
    [join(__dirname, '..', '..', 'templates', 'CLAUDE.template.md')]. *)
Definition ensureClaudeDoc (templatePath : path) (fs : node) (docsDir : path)
  : node * list string :=
  let claudePath := join docsDir "CLAUDE.md" in
  if existsSync fs claudePath then (fs, [])
  else if negb (existsSync fs templatePath) then
    (fs, ["Warning: CLAUDE.template.md not found, skipping auto-install"])
  else
    match (templateContent <-? readFileSync fs templatePath ;;
           writeFileSync fs claudePath templateContent) with
    | Ret fs' => (fs', ["✓ Installed CLAUDE.md in docs/ directory"])
    | Throw error =>
        (fs, ["Warning: Failed to install CLAUDE.md: " ++ Js.exn_text error])
    end.

End Utils.

Export Utils.

(* ===================================================================== *)
(** ** src/commands/check.ts *)
(* ===================================================================== *)

Module CheckCmd.

Record CheckResult : Type :=
  { totalChecks : nat; totalErrors : nat; totalWarnings : nat }.

(** The module-level [result] as the module initialiser leaves it when
    the process starts. *)
Definition result0 : CheckResult :=
  {| totalChecks := 0; totalErrors := 0; totalWarnings := 0 |}.

(** A computation of the checker reads and updates [result], calls
    [console.log] with the texts it leaves in order, and returns or
    throws. *)
Definition M (A : Type) : Type :=
  CheckResult -> outcome A * CheckResult * list string.

Definition ret {A} (a : A) : M A := fun r => (Ret a, r, []).

Definition bind {A B} (m : M A) (k : A -> M B) : M B :=
  fun r =>
    match m r with
    | (Ret a, r1, out1) =>
        let '(b, r2, out2) := k a r1 in (b, r2, (out1 ++ out2)%list)
    | (Throw e, r1, out1) => (Throw e, r1, out1)
    end.

Definition lift {A} (o : outcome A) : M A := fun r => (o, r, []).

Definition console_log (line : string) : M unit :=
  fun r => (Ret tt, r, [line]).

Definition modify (f : CheckResult -> CheckResult) : M unit :=
  fun r => (Ret tt, f r, []).

(** Reading the module-level [result]. *)
Definition read : M CheckResult := fun r => (Ret r, r, []).

Definition when (b : bool) (m : M unit) : M unit :=
  if b then m else ret tt.

Declare Scope check_scope.
Delimit Scope check_scope with check.
Notation "x <- m ;; k" := (bind m (fun x => k))
  (at level 61, m at next level, right associativity) : check_scope.
Notation "m ;; k" := (bind m (fun _ => k))
  (at level 61, right associativity) : check_scope.
Local Open Scope check_scope.

(** [arr.forEach(cb)] *)
Fixpoint forEach {A} (cb : A -> M unit) (l : list A) : M unit :=
  match l with
  | [] => ret tt
  | x :: rest => cb x ;; forEach cb rest
  end.

(** [arr.forEach(cb)] for a callback that updates local variables of
    the enclosing function, kept in [s]. *)
Fixpoint forEachAcc {A S} (cb : A -> S -> M S) (l : list A) (s : S) : M S :=
  match l with
  | [] => ret s
  | x :: rest => s' <- cb x s ;; forEachAcc cb rest s'
  end.

Definition nl : string := String "010"%char EmptyString.

(** The two-character string made of two double quotes. *)
Definition quotes : string := String "034"%char (String "034"%char EmptyString).

Definition incrChecks (r : CheckResult) : CheckResult :=
  {| totalChecks := S (totalChecks r);
     totalErrors := totalErrors r;
     totalWarnings := totalWarnings r |}.

Definition incrErrors (r : CheckResult) : CheckResult :=
  {| totalChecks := totalChecks r;
     totalErrors := S (totalErrors r);
     totalWarnings := totalWarnings r |}.

Definition incrWarnings (r : CheckResult) : CheckResult :=
  {| totalChecks := totalChecks r;
     totalErrors := totalErrors r;
     totalWarnings := S (totalWarnings r) |}.

Definition logCheck (message : string) (verbose : bool) : M unit :=
  modify incrChecks ;;
  when verbose (console_log ("[CHECK] " ++ message)).

Definition logPass (message : string) (verbose : bool) : M unit :=
  when verbose (console_log ("[PASS] " ++ message)).

Definition logWarn (message : string) : M unit :=
  modify incrWarnings ;;
  console_log ("[WARN] " ++ message).

(** A string used as a condition: [''] is false. *)
Definition nonempty (s : string) : bool := negb (String.eqb s "").

Definition logError (message : string) (hint : option string) : M unit :=
  modify incrErrors ;;
  console_log ("[ERROR] " ++ message) ;;
  match hint with
  | Some h => when (nonempty h) (console_log ("        💡 " ++ h))
  | None => ret tt
  end.

Definition logInfo (message : string) (verbose : bool) : M unit :=
  when verbose (console_log ("[INFO] " ++ message)).

Definition checkFileExists (fs : node) (file : path) (label : string)
    (verbose : bool) (templateType : option string) : M bool :=
  logCheck ("Checking for " ++ label) verbose ;;
  if existsSync fs file then
    logPass (label ++ " found") verbose ;;
    ret true
  else
    let hint :=
      match templateType with
      | Some t =>
          if nonempty t then Some ("Get template with: pdocs template " ++ t)
          else None
      | None => None
      end in
    logError (label ++ " missing: " ++ Path.to_string file) hint ;;
    ret false.

Section WithYaml.
Context `{YamlLoader}.

Definition checkYamlField (fs : node) (file : path) (field label : string)
  : M bool :=
  if negb (existsSync fs file) then ret false
  else
    let data := loadYaml fs file in
    if Js.falsy data then ret false
    else
      value <- lift (getString data field) ;;
      if negb (nonempty value) || String.eqb value quotes then
        logWarn (label ++ ": '" ++ field ++ "' is empty in " ++ basename file) ;;
        ret false
      else ret true.

Definition checkPrd (fs : node) (docsDir : path) (verbose : bool) : M unit :=
  let prdFile := join docsDir "product-requirements.yaml" in
  console_log (nl ++ "━━━ Product Requirements Document ━━━") ;;
  found <- checkFileExists fs prdFile "Product Requirements Document"
             verbose (Some "product-requirements") ;;
  if negb found then ret tt
  else
    checkYamlField fs prdFile "project_name" "PRD" ;;
    checkYamlField fs prdFile "summary" "PRD" ;;
    checkYamlField fs prdFile "goal" "PRD" ;;
    let data := loadYaml fs prdFile in
    if Js.truthy data then
      features <- lift (getArray data "features") ;;
      logInfo ("Features defined in PRD: "
               ++ Js.string_of_nat (List.length features)) verbose ;;
      when (Nat.eqb (List.length features) 0)
           (logWarn "No features defined in PRD")
    else ret tt.

(** The callback of [flowFiles.forEach] in [checkUserFlows]. *)
Definition flowStep (fs : node) (verbose : bool) (flowFile : path) : M unit :=
  let flowName := basename_ext flowFile ".yaml" in
  logCheck ("Checking flow: " ++ flowName) verbose ;;
  let data := loadYaml fs flowFile in
  if Js.truthy data then
    primaryFlows <- lift (getArray data "primary_flows") ;;
    when (Nat.eqb (List.length primaryFlows) 0)
         (logWarn ("No flows defined in " ++ flowName))
  else ret tt.

Definition checkUserFlows (fs : node) (docsDir : path) (verbose : bool)
  : M unit :=
  let flowsDir := join docsDir "user-flows" in
  console_log (nl ++ "━━━ User Flows ━━━") ;;
  if negb (existsSync fs flowsDir) then
    logError ("User flows directory missing: " ++ Path.to_string flowsDir)
             (Some "Get template with: pdocs template user-flow")
  else
    let flowFiles := findYamlFiles fs flowsDir in
    logInfo ("User flow files found: "
             ++ Js.string_of_nat (List.length flowFiles)) verbose ;;
    if Nat.eqb (List.length flowFiles) 0 then
      logWarn "No user flow files found"
    else forEach (flowStep fs verbose) flowFiles.

(** [completeCount] and [incompleteCount] of the two tallying loops. *)
Definition tally : Type := (nat * nat)%type.

Definition count_status (status : string) (t : tally) : tally :=
  if String.eqb status "complete" then (S (fst t), snd t)
  else (fst t, S (snd t)).

(** The callback of [storyFiles.forEach] in [checkUserStories]. *)
Definition storyStep (fs : node) (storyFile : path) (t : tally) : M tally :=
  let data := loadYaml fs storyFile in
  if Js.falsy data then ret t
  else
    storyId <- lift (getString data "story_id") ;;
    status <- lift (getString data "status") ;;
    let t' := count_status status t in
    asA <- lift (getNestedString data "user_story" "as_a") ;;
    when (negb (nonempty asA) || String.eqb asA quotes
          || Js.includes asA "[type")
         (logWarn ("Story " ++ storyId
                   ++ " has incomplete user story definition")) ;;
    ret t'.

Definition checkUserStories (fs : node) (docsDir : path) (verbose : bool)
  : M unit :=
  let storiesDir := join docsDir "user-stories" in
  console_log (nl ++ "━━━ User Stories ━━━") ;;
  if negb (existsSync fs storiesDir) then
    logError ("User stories directory missing: " ++ Path.to_string storiesDir)
             (Some "Get template with: pdocs template user-story")
  else
    let storyFiles := findYamlFiles fs storiesDir in
    logInfo ("User story files found: "
             ++ Js.string_of_nat (List.length storyFiles)) verbose ;;
    if Nat.eqb (List.length storyFiles) 0 then
      logWarn "No user story files found"
    else
      t <- forEachAcc (storyStep fs) storyFiles (0, 0) ;;
      logInfo ("Complete stories: " ++ Js.string_of_nat (fst t)) verbose ;;
      logInfo ("Incomplete stories: " ++ Js.string_of_nat (snd t)) verbose.

(** The callback of [featureFiles.forEach] in [checkFeatureSpecs]. *)
Definition featureStep (fs : node) (featureFile : path) (t : tally)
  : M tally :=
  let data := loadYaml fs featureFile in
  if Js.falsy data then ret t
  else
    featureId <- lift (getString data "feature_id") ;;
    status <- lift (getString data "status") ;;
    let t' := count_status status t in
    checkYamlField fs featureFile "summary" ("Feature " ++ featureId) ;;
    ret t'.

Definition checkFeatureSpecs (fs : node) (docsDir : path) (verbose : bool)
  : M unit :=
  let featuresDir := join docsDir "feature-specs" in
  console_log (nl ++ "━━━ Feature Specifications ━━━") ;;
  if negb (existsSync fs featuresDir) then
    logError ("Feature specs directory missing: "
              ++ Path.to_string featuresDir)
             (Some "Get template with: pdocs template feature-spec")
  else
    let featureFiles := findYamlFiles fs featuresDir in
    logInfo ("Feature spec files found: "
             ++ Js.string_of_nat (List.length featureFiles)) verbose ;;
    if Nat.eqb (List.length featureFiles) 0 then
      logWarn "No feature spec files found"
    else
      t <- forEachAcc (featureStep fs) featureFiles (0, 0) ;;
      logInfo ("Complete features: " ++ Js.string_of_nat (fst t)) verbose ;;
      logInfo ("Incomplete features: " ++ Js.string_of_nat (snd t)) verbose.

Definition checkSystemDesign (fs : node) (docsDir : path) (verbose : bool)
  : M unit :=
  let systemFile := join docsDir "system-design.yaml" in
  console_log (nl ++ "━━━ System Design ━━━") ;;
  found <- checkFileExists fs systemFile "System Design" verbose
             (Some "system-design") ;;
  if negb found then ret tt
  else
    checkYamlField fs systemFile "goal" "System Design" ;;
    let data := loadYaml fs systemFile in
    if Js.truthy data then
      techStack <- lift (getString data "tech_stack") ;;
      when (negb (nonempty techStack))
           (logWarn "No tech stack defined in system design")
    else ret tt.

Definition checkApiContracts (fs : node) (docsDir : path) (verbose : bool)
  : M unit :=
  let apiFile := join docsDir "api-contracts.yaml" in
  console_log (nl ++ "━━━ API Contracts ━━━") ;;
  found <- checkFileExists fs apiFile "API Contracts" verbose
             (Some "api-contracts") ;;
  if negb found then ret tt
  else
    let data := loadYaml fs apiFile in
    if Js.truthy data then
      paths <- lift (Js.get data "paths") ;;
      endpointCount <- lift (if Js.truthy paths then Js.keys_length paths
                             else Ret 0) ;;
      logInfo ("API endpoints defined: " ++ Js.string_of_nat endpointCount)
              verbose ;;
      when (Nat.eqb endpointCount 0) (logWarn "No API endpoints defined")
    else ret tt.

Definition checkDataPlan (fs : node) (docsDir : path) (verbose : bool)
  : M unit :=
  let dataFile := join docsDir "data-plan.yaml" in
  console_log (nl ++ "━━━ Data Plan ━━━") ;;
  found <- checkFileExists fs dataFile "Data Plan" verbose
             (Some "data-plan") ;;
  if negb found then ret tt
  else
    let data := loadYaml fs dataFile in
    if Js.truthy data then
      dataSources <- lift (getArray data "data_sources") ;;
      when (Nat.ltb 0 (List.length dataSources))
           (logInfo ("Data sources defined: "
                     ++ Js.string_of_nat (List.length dataSources)) verbose)
    else ret tt.

Definition checkDesignSpec (fs : node) (docsDir : path) (verbose : bool)
  : M unit :=
  let designFile := join docsDir "design-spec.yaml" in
  console_log (nl ++ "━━━ Design Specification ━━━") ;;
  found <- checkFileExists fs designFile "Design Specification" verbose
             (Some "design-spec") ;;
  if negb found then ret tt
  else
    checkYamlField fs designFile "design_goals" "Design Spec" ;;
    ret tt.

(** The callback of [features.map] in [checkCrossReferences]. *)
Definition featureIdOf (f : value) : outcome string :=
  if Js.is_object f then getString f "id" else Ret "".

(** The callback of [featureFiles.some]. *)
Definition declaresFeature (fs : node) (featureId : string) (file : path)
  : outcome bool :=
  let data := loadYaml fs file in
  if Js.falsy data then Ret false
  else
    fileFeatureId <-? getString data "feature_id" ;;
    Ret (String.eqb fileFeatureId featureId).

(** The callback of [featureIds.forEach]. *)
Definition specStep (fs : node) (featureFiles : list path) (verbose : bool)
    (featureId : string) : M unit :=
  logCheck ("Checking if " ++ featureId ++ " has specification") verbose ;;
  hasSpec <- lift (Js.some (declaresFeature fs featureId) featureFiles) ;;
  if negb hasSpec then
    logWarn ("Feature " ++ featureId ++ " (in PRD) has no specification file")
  else
    logPass ("Feature " ++ featureId ++ " has specification") verbose.

(** [featureIds.includes(featureRef)] *)
Definition includes_id (featureIds : list string) (featureRef : string)
  : bool :=
  existsb (String.eqb featureRef) featureIds.

(** The callback of [storyFiles.forEach] in [checkCrossReferences]. *)
Definition storyRefStep (fs : node) (featureIds : list string)
    (storyFile : path) : M unit :=
  let data := loadYaml fs storyFile in
  if Js.falsy data then ret tt
  else
    storyId <- lift (getString data "story_id") ;;
    featureRef <- lift (getString data "feature_id") ;;
    when (nonempty featureRef && negb (String.eqb featureRef "F-##")
          && negb (includes_id featureIds featureRef))
         (logWarn ("Story " ++ storyId ++ " references unknown feature: "
                   ++ featureRef)).

Definition checkCrossReferences (fs : node) (docsDir : path)
    (checkLinks verbose : bool) : M unit :=
  if negb checkLinks then ret tt
  else
    console_log (nl ++ "━━━ Cross-Reference Validation ━━━") ;;
    let prdFile := join docsDir "product-requirements.yaml" in
    let prdData := loadYaml fs prdFile in
    if Js.falsy prdData then logWarn "No PRD file to cross-reference"
    else
      features <- lift (getArray prdData "features") ;;
      ids <- lift (Js.mapO featureIdOf features) ;;
      let featureIds := filter nonempty ids in
      if Nat.eqb (List.length featureIds) 0 then
        logWarn "No features in PRD to cross-reference"
      else
        let featuresDir := join docsDir "feature-specs" in
        (if existsSync fs featuresDir then
           let featureFiles := findYamlFiles fs featuresDir in
           forEach (specStep fs featureFiles verbose) featureIds
         else ret tt) ;;
        let storiesDir := join docsDir "user-stories" in
        if existsSync fs storiesDir then
          let storyFiles := findYamlFiles fs storiesDir in
          forEach (storyRefStep fs featureIds) storyFiles
        else ret tt.
End WithYaml.

Definition rule : string := Js.repeat_str "━" 50.

(** [generateSummary()]: prints the totals and returns the exit code. *)
Definition generateSummary : M nat :=
  console_log (nl ++ rule) ;;
  console_log "Summary" ;;
  console_log rule ;;
  r <- read ;;
  console_log (nl ++ "Checks performed: " ++ Js.string_of_nat (totalChecks r)) ;;
  (if Nat.eqb (totalErrors r) 0 then console_log "Errors: 0 ✓"
   else console_log ("Errors: " ++ Js.string_of_nat (totalErrors r))) ;;
  (if Nat.eqb (totalWarnings r) 0 then console_log "Warnings: 0 ✓"
   else console_log ("Warnings: " ++ Js.string_of_nat (totalWarnings r))) ;;
  console_log "" ;;
  if Nat.eqb (totalErrors r) 0 && Nat.eqb (totalWarnings r) 0 then
    console_log "✓ All checks passed!" ;;
    ret 0
  else if Nat.eqb (totalErrors r) 0 then
    console_log "⚠ All checks passed with warnings" ;;
    ret 0
  else
    console_log "✗ Some checks failed" ;;
    console_log "" ;;
    console_log "💡 Complete project documentation is essential for effective development." ;;
    console_log "   Get started with templates: pdocs template <type>" ;;
    console_log "   Available types: product-requirements, system-design, api-contracts," ;;
    console_log "                    data-plan, design-spec, user-flow, user-story, feature-spec" ;;
    ret 1.

Record options : Type :=
  { verbose : bool; checkLinks : bool; format : string }.

Section WithYaml.
Context `{YamlLoader}.

(** [check(docsDir, options)]; the value returned is the argument of
    the [process.exit] call that ends it. *)
Definition check (fs : node) (docsDir : path) (opts : options) : M nat :=
  console_log rule ;;
  console_log "Project Documentation Check" ;;
  console_log rule ;;
  console_log ("Documentation directory: " ++ Path.to_string docsDir) ;;
  console_log "" ;;
  if negb (existsSync fs docsDir) then
    logError ("Documentation directory not found: " ++ Path.to_string docsDir)
             None ;;
    ret 1
  else
    checkPrd fs docsDir (verbose opts) ;;
    checkUserFlows fs docsDir (verbose opts) ;;
    checkUserStories fs docsDir (verbose opts) ;;
    checkFeatureSpecs fs docsDir (verbose opts) ;;
    checkSystemDesign fs docsDir (verbose opts) ;;
    checkApiContracts fs docsDir (verbose opts) ;;
    checkDataPlan fs docsDir (verbose opts) ;;
    checkDesignSpec fs docsDir (verbose opts) ;;
    checkCrossReferences fs docsDir (checkLinks opts) (verbose opts) ;;
    generateSummary.
End WithYaml.

End CheckCmd.

Export CheckCmd.

(* ===================================================================== *)
(** ** src/commands/list.ts *)
(* ===================================================================== *)

(** [String.prototype.localeCompare] depends on the host's collation
    data; the sorts of [list] take it as a collaborator. *)
Class Collator : Type := localeCompare : string -> string -> Z.

Module FeatureData.
Record t : Type :=
  { file : path;
    feature_id : string;
    title : string;
    status : string;
    summary : string;
    progress : Z }.
End FeatureData.

Module StoryData.
Record t : Type :=
  { file : path;
    story_id : string;
    title : string;
    feature_id : string;
    status : string }.
End StoryData.

Module ListCmd.

(** [a || b] on strings. *)
Definition or_else (a b : string) : string :=
  if CheckCmd.nonempty a then a else b.

(** [s.replace(/^p/, '')] for a literal [p]. *)
Definition strip_prefix (p s : string) : string :=
  if prefix p s then substring (String.length p)
                               (String.length s - String.length p) s
  else s.

(** [arr.filter(x => x !== null)] *)
Fixpoint non_null {A} (l : list (option A)) : list A :=
  match l with
  | [] => []
  | Some x :: rest => x :: non_null rest
  | None :: rest => non_null rest
  end.

Record featureOptions : Type :=
  { showAll : bool; format : string; filterStatus : string; sortBy : string }.

Record storyOptions : Type :=
  { s_showAll : bool; s_format : string; s_filterStatus : string;
    s_filterFeature : string }.

Section WithYaml.
Context `{YamlLoader}.

Definition parseFeature (fs : node) (file : path)
  : outcome (option FeatureData.t) :=
  let data := loadYaml fs file in
  if Js.falsy data then Ret None
  else
    feature_id <-? getString data "feature_id" ;;
    title0 <-? getString data "title" ;;
    let title := or_else title0 (basename_ext file ".yaml") in
    let title := strip_prefix "Technical Specification - " title in
    status0 <-? getString data "status" ;;
    let status := or_else status0 "incomplete" in
    summary <-? getString data "summary" ;;
    implStatus <-? Js.get data "implementation_status" ;;
    progress <-? (if Js.truthy implStatus
                  then getNumber implStatus "progress" else Ret 0%Z) ;;
    Ret (Some {| FeatureData.file := file;
                 FeatureData.feature_id := feature_id;
                 FeatureData.title := title;
                 FeatureData.status := status;
                 FeatureData.summary := summary;
                 FeatureData.progress := progress |}).

Definition parseStory (fs : node) (file : path)
  : outcome (option StoryData.t) :=
  let data := loadYaml fs file in
  if Js.falsy data then Ret None
  else
    story_id <-? getString data "story_id" ;;
    title0 <-? getString data "title" ;;
    let title := or_else title0 (basename_ext file ".yaml") in
    feature_id <-? getString data "feature_id" ;;
    status0 <-? getString data "status" ;;
    let status := or_else status0 "incomplete" in
    Ret (Some {| StoryData.file := file;
                 StoryData.story_id := story_id;
                 StoryData.title := title;
                 StoryData.feature_id := feature_id;
                 StoryData.status := status |}).

Context `{Collator}.

Definition by_locale {A} (key : A -> string) (a b : A) : bool :=
  Z.leb (localeCompare (key a) (key b)) 0.

(** [listFeatures] up to the point where it prints: the value of
    [features] handed to the formatter, which is empty when the
    function returns early for want of files. *)
Definition listFeatures (fs : node) (docsDir : path) (options : featureOptions)
  : outcome (list FeatureData.t) :=
  let featuresDir := join docsDir "feature-specs" in
  let files := findYamlFiles fs featuresDir in
  if Nat.eqb (List.length files) 0 then Ret []
  else
    parsed <-? Js.mapO (parseFeature fs) files ;;
    let features := non_null parsed in
    let features :=
      if negb (showAll options) then
        filter (fun f => negb (String.eqb (FeatureData.status f) "complete"))
               features
      else features in
    let features :=
      if CheckCmd.nonempty (filterStatus options) then
        filter (fun f => String.eqb (FeatureData.status f)
                                    (filterStatus options)) features
      else features in
    let features :=
      if String.eqb (sortBy options) "title" then
        Js.sort (by_locale FeatureData.title) features
      else if String.eqb (sortBy options) "status" then
        Js.sort (by_locale FeatureData.status) features
      else features in
    Ret features.

(** [listStories] up to the point where it prints. *)
Definition listStories (fs : node) (docsDir : path) (options : storyOptions)
  : outcome (list StoryData.t) :=
  let storiesDir := join docsDir "user-stories" in
  let files := findYamlFiles fs storiesDir in
  if Nat.eqb (List.length files) 0 then Ret []
  else
    parsed <-? Js.mapO (parseStory fs) files ;;
    let stories := non_null parsed in
    let stories :=
      if negb (s_showAll options) then
        filter (fun s => negb (String.eqb (StoryData.status s) "complete"))
               stories
      else stories in
    let stories :=
      if CheckCmd.nonempty (s_filterStatus options) then
        filter (fun s => String.eqb (StoryData.status s)
                                    (s_filterStatus options)) stories
      else stories in
    let stories :=
      if CheckCmd.nonempty (s_filterFeature options) then
        filter (fun s => String.eqb (StoryData.feature_id s)
                                    (s_filterFeature options)) stories
      else stories in
    Ret stories.
End WithYaml.

End ListCmd.

(* ===================================================================== *)
(** ** src/cli.ts: the [check] command *)
(* ===================================================================== *)

Module Cli.

(** What one run of the process leaves behind. *)
Record run : Type :=
  { exitCode : nat;
    counters : CheckResult;
    stdout : list string;
    disk : node }.

Section WithYaml.
Context `{YamlLoader}.

(** One [pdocs check] process: the module initialiser of [check.ts]
    sets [result], then the action of the [check] command runs. An
    exception nobody catches ends a node process with status 1. *)
Definition checkCommand (templatePath cwd : path) (opts : CheckCmd.options)
    (fs : node) : run :=
  match findDocsDir fs cwd with
  | None =>
      {| exitCode := 1;
         counters := result0;
         stdout :=
           ["Error: Could not find docs/ directory";
            "Please run this command from a project directory containing a docs/ folder"];
         disk := fs |}
  | Some docsDir =>
      let '(fs', out1) := ensureClaudeDoc templatePath fs docsDir in
      let '(res, r, out2) := check fs' docsDir opts result0 in
      {| exitCode := match res with Ret code => code | Throw _ => 1 end;
         counters := r;
         stdout := (out1 ++ out2)%list;
         disk := fs' |}
  end.
End WithYaml.

End Cli.

Export Cli.

(* ===================================================================== *)
(** ** Commands that only print *)
(* ===================================================================== *)

(** [list], [info] and [template] keep no counters: they print lines
    and end by returning, by [process.exit], or with an exception that
    nobody catches. *)
Module Process.

(** Where a computation stands: it goes on with a value, it has called
    [process.exit], or an exception is on its way up. *)
Inductive step (A : Type) : Type :=
| Value (a : A)
| Exit (code : nat)
| Raise (e : exn).
Arguments Value {A} a.
Arguments Exit {A} code.
Arguments Raise {A} e.

(** A computation with the texts it has given to [console.log], one
    for each call. *)
Definition P (A : Type) : Type := (step A * list string)%type.

Definition ret {A} (a : A) : P A := (Value a, []).

Definition bind {A B} (m : P A) (k : A -> P B) : P B :=
  match m with
  | (Value a, out1) => let '(s, out2) := k a in (s, (out1 ++ out2)%list)
  | (Exit code, out1) => (Exit code, out1)
  | (Raise e, out1) => (Raise e, out1)
  end.

Definition console_log (line : string) : P unit := (Value tt, [line]).

(** [process.exit(code)] *)
Definition exit {A} (code : nat) : P A := (Exit code, []).

Definition lift {A} (o : outcome A) : P A :=
  match o with
  | Ret a => (Value a, [])
  | Throw e => (Raise e, [])
  end.

Declare Scope process_scope.
Delimit Scope process_scope with process.
Notation "x <- m ;; k" := (bind m (fun x => k))
  (at level 61, m at next level, right associativity) : process_scope.
Notation "m ;; k" := (bind m (fun _ => k))
  (at level 61, right associativity) : process_scope.
Local Open Scope process_scope.

(** [arr.forEach(cb)] *)
Fixpoint forEach {A} (cb : A -> P unit) (l : list A) : P unit :=
  match l with
  | [] => ret tt
  | x :: rest => cb x ;; forEach cb rest
  end.

(** [arr.forEach(cb)] for a callback that updates local variables of
    the enclosing function, kept in [s]. *)
Fixpoint forEachAcc {A S} (cb : A -> S -> P S) (l : list A) (s : S) : P S :=
  match l with
  | [] => ret s
  | x :: rest => s' <- cb x s ;; forEachAcc cb rest s'
  end.

(** The status of a process whose last action is the computation: 0
    when it returns, the argument of [process.exit], 1 for an exception
    nobody catches. *)
Definition status {A} (m : P A) : nat :=
  match fst m with
  | Value _ => 0
  | Exit code => code
  | Raise _ => 1
  end.

End Process.

(** [String.prototype.toUpperCase] and [toLowerCase] follow the Unicode
    case mappings; the listings take them as collaborators. *)
Class CaseMapping : Type :=
  { toUpperCase : string -> string;
    toLowerCase : string -> string }.

(** [JSON.stringify] on the flat records the listings print. *)
Class JsonStringifier : Type := JSON_stringify : value -> string.

(** [String(n)] for a number: the shortest digits that read back as
    the same double, a collaborator as well. *)
Class NumberText : Type := Number_toString : Z -> string.

Module JsText.

(** [s.padEnd(n)] *)
Definition padEnd (s : string) (n : nat) : string :=
  s ++ Js.repeat_str " " (n - Js.length16 s).

(** [s.padStart(n)] *)
Definition padStart (s : string) (n : nat) : string :=
  Js.repeat_str " " (n - Js.length16 s) ++ s.

Section WithNumbers.
Context `{NumberText}.

(** [String(v)]. A mapping is [[object Object]], the text
    [Object.prototype.toString] gives it, unless it has a property
    [toString] of its own: no value of a document can be called, the
    inherited [valueOf] returns the mapping itself, and the conversion
    ends in a [TypeError]. An array is the texts of its items joined by
    commas, [null] and [undefined] items giving the empty text. *)
Fixpoint to_String (v : value) : outcome string :=
  match v with
  | VUndefined => Ret "undefined"
  | VNull => Ret "null"
  | VBool true => Ret "true"
  | VBool false => Ret "false"
  | VNum n => Ret (Number_toString n)
  | VStr s => Ret s
  | VArr items =>
      texts <-? (fix each (l : list value) : outcome (list string) :=
                   match l with
                   | [] => Ret []
                   | x :: rest =>
                       text <-? match x with
                                | VUndefined | VNull => Ret ""
                                | _ => to_String x
                                end ;;
                       others <-? each rest ;;
                       Ret (text :: others)
                   end) items ;;
      Ret (String.concat "," texts)
  | VObj props =>
      match Js.assoc "toString" props with
      | Some _ => Throw TypeError
      | None => Ret "[object Object]"
      end
  end.
End WithNumbers.

(** The index keys ["0"], ["1"], ... paired with the items. *)
Definition indexed (items : list value) : list (string * value) :=
  combine (map Js.string_of_nat (seq 0 (List.length items))) items.

(** [Object.entries(v)]. The properties of a mapping are those of
    [props], which lists them in property order. *)
Definition entries (v : value) : outcome (list (string * value)) :=
  match v with
  | VUndefined | VNull => Throw TypeError
  | VBool _ | VNum _ => Ret []
  | VStr s => Ret (indexed (map VStr (Js.chars s)))
  | VArr items => Ret (indexed items)
  | VObj props => Ret props
  end.

(** The character [U+0022]. *)
Definition dquote : string := String "034"%char EmptyString.

End JsText.

(* ===================================================================== *)
(** ** src/commands/list.ts: formatters, APIs, flows and the dispatcher *)
(* ===================================================================== *)

Module ApiEndpoint.
Record t : Type :=
  { method : string;
    path : string;
    summary : string }.
End ApiEndpoint.

Module FlowData.
Record t : Type :=
  { file : path;
    title : string;
    key_personas : list string;
    primary_count : nat;
    secondary_count : nat;
    total_flows : nat }.
End FlowData.

(** The options object commander hands to the [list] action; an option
    that was not given is [undefined]. *)
Module ListArgs.
Record t : Type :=
  { all : bool;
    format : option string;
    status : option string;
    sort : option string;
    method : option string;
    path : option string;
    baseUrl : option string;
    feature : option string;
    persona : option string }.
End ListArgs.

Module ListOutput.
Import Process JsText.
Local Open Scope process_scope.

Record apiOptions : Type :=
  { a_format : string; filterMethod : string; filterPath : string;
    a_baseUrl : string }.

Record flowOptions : Type :=
  { f_format : string; filterPersona : string }.

(** [(x as string) || d] *)
Definition or_default (x : option string) (d : string) : string :=
  match x with
  | Some s => if CheckCmd.nonempty s then s else d
  | None => d
  end.

Definition rule (n : nat) : string := Js.repeat_str "━" n.

Definition statusIcon (status : string) : string :=
  if String.eqb status "complete" then "✓"
  else if String.eqb status "in-progress" then "●"
  else "○".

Section WithCollaborators.
Context `{YamlLoader} `{Collator} `{CaseMapping} `{JsonStringifier}
        `{NumberText}.

(** The record [listFeatures] prints for a feature in the [json]
    format. *)
Definition featureJson (f : FeatureData.t) : string :=
  JSON_stringify
    (VObj [("feature_id", VStr (FeatureData.feature_id f));
           ("title", VStr (FeatureData.title f));
           ("status", VStr (FeatureData.status f));
           ("progress", VNum (FeatureData.progress f));
           ("summary", VStr (FeatureData.summary f));
           ("file", VStr (Path.to_string (FeatureData.file f)))]).

(** The row of its table. *)
Definition featureRow (f : FeatureData.t) : string :=
  padEnd (FeatureData.feature_id f) 10 ++ " "
  ++ padEnd (Js.substring0 40 (FeatureData.title f)) 40 ++ " "
  ++ padStart (Number_toString (FeatureData.progress f)) 3
  ++ "%      " ++ statusIcon (FeatureData.status f) ++ " "
  ++ FeatureData.status f.

(** [listFeatures], the whole of it: [ListCmd.listFeatures] is its
    first half, which this one runs when there are files. *)
Definition listFeatures (fs : node) (docsDir : path)
    (options : ListCmd.featureOptions) : P unit :=
  let featuresDir := join docsDir "feature-specs" in
  let files := findYamlFiles fs featuresDir in
  if Nat.eqb (List.length files) 0 then
    console_log ("No feature files found in " ++ Path.to_string featuresDir)
  else
    features <- lift (ListCmd.listFeatures fs docsDir options) ;;
    if String.eqb (ListCmd.format options) "stats" then
      let total := List.length features in
      let complete :=
        List.length (filter (fun f => String.eqb (FeatureData.status f)
                                                 "complete") features) in
      let inProgress :=
        List.length (filter (fun f => String.eqb (FeatureData.status f)
                                                 "in-progress") features) in
      let incomplete :=
        List.length (filter (fun f => String.eqb (FeatureData.status f)
                                                 "incomplete") features) in
      console_log (rule 50) ;;
      console_log "Feature Specifications Statistics" ;;
      console_log (rule 50) ;;
      console_log "" ;;
      console_log ("Total Features: " ++ Js.string_of_nat total) ;;
      console_log ("  Complete: " ++ Js.string_of_nat complete) ;;
      console_log ("  In Progress: " ++ Js.string_of_nat inProgress) ;;
      console_log ("  Incomplete: " ++ Js.string_of_nat incomplete) ;;
      console_log "" ;;
      (if Nat.ltb 0 total then
         let completePct := (complete * 100) / total in
         let progressPct := ((complete + inProgress) * 100) / total in
         console_log "Progress:" ;;
         console_log ("  Complete: " ++ Js.string_of_nat completePct ++ "%") ;;
         console_log ("  Started: " ++ Js.string_of_nat progressPct ++ "%")
       else ret tt) ;;
      console_log ""
    else if String.eqb (ListCmd.format options) "json" then
      forEach (fun f => console_log (featureJson f)) features
    else
      console_log ("Feature Specifications in " ++ Path.to_string featuresDir) ;;
      console_log (rule 80) ;;
      console_log (padEnd "ID" 10 ++ " " ++ padEnd "Title" 40 ++ " "
                   ++ padEnd "Progress" 10 ++ " Status") ;;
      console_log (rule 80) ;;
      forEach (fun f => console_log (featureRow f)) features ;;
      console_log (rule 80) ;;
      console_log ("Found " ++ Js.string_of_nat (List.length features)
                   ++ " matching features").

(** The body of the inner loop of [parseApiEndpoints]. *)
Definition endpointOf (path : string) (entry : string * value)
  : outcome ApiEndpoint.t :=
  let '(method, details) := entry in
  summary <-? getString details "summary" ;;
  Ret {| ApiEndpoint.method := toUpperCase method;
         ApiEndpoint.path := path;
         ApiEndpoint.summary := ListCmd.or_else summary "No description" |}.

(** The body of the outer loop of [parseApiEndpoints]. *)
Definition endpointsOf (entry : string * value)
  : outcome (list ApiEndpoint.t) :=
  let '(path, methods) := entry in
  methodEntries <-? entries methods ;;
  Js.mapO (endpointOf path) methodEntries.

Definition parseApiEndpoints (data : value) : outcome (list ApiEndpoint.t) :=
  paths <-? Js.get data "paths" ;;
  if Js.falsy paths then Ret []
  else
    pathEntries <-? entries paths ;;
    groups <-? Js.mapO endpointsOf pathEntries ;;
    Ret (List.concat groups).

Definition listApis (fs : node) (docsDir : path) (options : apiOptions)
  : P unit :=
  let apiFile := join docsDir "api-contracts.yaml" in
  let data := loadYaml fs apiFile in
  if Js.falsy data then
    console_log ("Error: File '" ++ Path.to_string apiFile ++ "' not found") ;;
    exit 1
  else
    info <- lift (Js.get data "info") ;;
    title <- lift (if Js.truthy info then getString info "title"
                   else Ret "API") ;;
    version <- lift (if Js.truthy info then getString info "version"
                     else Ret "1.0.0") ;;
    endpoints <- lift (parseApiEndpoints data) ;;
    let endpoints :=
      if CheckCmd.nonempty (filterMethod options) then
        filter (fun ep => String.eqb (ApiEndpoint.method ep)
                                     (toUpperCase (filterMethod options)))
               endpoints
      else endpoints in
    let endpoints :=
      if CheckCmd.nonempty (filterPath options) then
        filter (fun ep => Js.includes (ApiEndpoint.path ep)
                                      (filterPath options)) endpoints
      else endpoints in
    if String.eqb (a_format options) "json" then
      forEach (fun ep =>
                 console_log
                   (JSON_stringify
                      (VObj [("method", VStr (ApiEndpoint.method ep));
                             ("path", VStr (ApiEndpoint.path ep));
                             ("summary", VStr (ApiEndpoint.summary ep))])))
              endpoints
    else if String.eqb (a_format options) "curl" then
      forEach (fun ep =>
                 let method := ApiEndpoint.method ep in
                 (if String.eqb method "GET" || String.eqb method "DELETE" then
                    console_log ("curl -X " ++ method ++ " " ++ dquote
                                 ++ a_baseUrl options ++ ApiEndpoint.path ep
                                 ++ dquote)
                  else
                    console_log ("curl -X " ++ method ++ " " ++ dquote
                                 ++ a_baseUrl options ++ ApiEndpoint.path ep
                                 ++ dquote ++ " \") ;;
                    console_log ("  -H " ++ dquote
                                 ++ "Content-Type: application/json"
                                 ++ dquote ++ " \") ;;
                    console_log ("  -d '{" ++ dquote ++ "key" ++ dquote ++ ": "
                                 ++ dquote ++ "value" ++ dquote ++ "}'")) ;;
                 console_log "")
              endpoints
    else if String.eqb (a_format options) "markdown" then
      console_log ("# " ++ title ++ " v" ++ version ++ CheckCmd.nl) ;;
      forEach (fun ep =>
                 console_log ("### " ++ ApiEndpoint.method ep ++ " `"
                              ++ ApiEndpoint.path ep ++ "`") ;;
                 console_log (ApiEndpoint.summary ep) ;;
                 console_log "")
              endpoints
    else
      console_log (rule 80) ;;
      console_log (title ++ " v" ++ version) ;;
      console_log (rule 80) ;;
      console_log "" ;;
      forEach (fun ep =>
                 let methodPadded := padEnd (ApiEndpoint.method ep) 6 in
                 console_log (methodPadded ++ " "
                              ++ padEnd (ApiEndpoint.path ep) 40 ++ " "
                              ++ Js.substring0 60 (ApiEndpoint.summary ep)))
              endpoints ;;
      console_log "" ;;
      console_log (rule 80) ;;
      console_log ("Found " ++ Js.string_of_nat (List.length endpoints)
                   ++ " endpoint(s)").

(** The record [listStories] prints for a story in the [json] format. *)
Definition storyJson (s : StoryData.t) : string :=
  JSON_stringify
    (VObj [("story_id", VStr (StoryData.story_id s));
           ("title", VStr (StoryData.title s));
           ("feature_id", VStr (StoryData.feature_id s));
           ("status", VStr (StoryData.status s));
           ("file", VStr (Path.to_string (StoryData.file s)))]).

(** The row of its table. *)
Definition storyRow (s : StoryData.t) : string :=
  padEnd (StoryData.story_id s) 12 ++ " "
  ++ padEnd (StoryData.feature_id s) 10 ++ " "
  ++ padEnd (Js.substring0 40 (StoryData.title s)) 40 ++ " "
  ++ statusIcon (StoryData.status s) ++ " "
  ++ StoryData.status s.

(** [listStories], the whole of it. *)
Definition listStories (fs : node) (docsDir : path)
    (options : ListCmd.storyOptions) : P unit :=
  let storiesDir := join docsDir "user-stories" in
  let files := findYamlFiles fs storiesDir in
  if Nat.eqb (List.length files) 0 then
    console_log ("No story files found in " ++ Path.to_string storiesDir)
  else
    stories <- lift (ListCmd.listStories fs docsDir options) ;;
    if String.eqb (ListCmd.s_format options) "json" then
      forEach (fun s => console_log (storyJson s)) stories
    else if String.eqb (ListCmd.s_format options) "ids" then
      forEach (fun s => console_log (StoryData.story_id s)) stories
    else
      console_log ("User Stories in " ++ Path.to_string storiesDir) ;;
      console_log (rule 70) ;;
      console_log (padEnd "ID" 12 ++ " " ++ padEnd "Feature" 10 ++ " "
                   ++ padEnd "Title" 40 ++ " Status") ;;
      console_log (rule 70) ;;
      forEach (fun s => console_log (storyRow s)) stories ;;
      console_log (rule 70) ;;
      console_log ("Found " ++ Js.string_of_nat (List.length stories)
                   ++ " matching stories").

Definition parseFlow (fs : node) (file : path) : outcome (option FlowData.t) :=
  let data := loadYaml fs file in
  if Js.falsy data then Ret None
  else
    title0 <-? getString data "title" ;;
    let title := ListCmd.or_else title0 (basename_ext file ".yaml") in
    let title :=
      if String.eqb title "User Flows" then basename_ext file ".yaml"
      else title in
    personas <-? getArray data "key_personas" ;;
    key_personas <-? Js.mapO to_String personas ;;
    primaryFlows <-? getArray data "primary_flows" ;;
    secondaryFlows <-? getArray data "secondary_flows" ;;
    Ret (Some {| FlowData.file := file;
                 FlowData.title := title;
                 FlowData.key_personas := key_personas;
                 FlowData.primary_count := List.length primaryFlows;
                 FlowData.secondary_count := List.length secondaryFlows;
                 FlowData.total_flows :=
                   List.length primaryFlows + List.length secondaryFlows |}).

Definition listFlows (fs : node) (docsDir : path) (options : flowOptions)
  : P unit :=
  let flowsDir := join docsDir "user-flows" in
  let files := findYamlFiles fs flowsDir in
  if Nat.eqb (List.length files) 0 then
    console_log ("No flow files found in " ++ Path.to_string flowsDir)
  else
    parsed <- lift (Js.mapO (parseFlow fs) files) ;;
    let flows := ListCmd.non_null parsed in
    let flows :=
      if CheckCmd.nonempty (filterPersona options) then
        filter (fun f =>
                  existsb (fun p => Js.includes
                                      (toLowerCase p)
                                      (toLowerCase (filterPersona options)))
                          (FlowData.key_personas f))
               flows
      else flows in
    if String.eqb (f_format options) "json" then
      forEach (fun f =>
                 console_log
                   (JSON_stringify
                      (VObj [("title", VStr (FlowData.title f));
                             ("primary_flows",
                              VNum (Z.of_nat (FlowData.primary_count f)));
                             ("secondary_flows",
                              VNum (Z.of_nat (FlowData.secondary_count f)));
                             ("personas",
                              VStr (String.concat ","
                                      (FlowData.key_personas f)));
                             ("file",
                              VStr (Path.to_string (FlowData.file f)))])))
              flows
    else
      console_log ("User Flows in " ++ Path.to_string flowsDir) ;;
      console_log (rule 65) ;;
      forEach (fun f =>
                 console_log
                   (padEnd (Js.substring0 40 (FlowData.title f)) 40 ++ " "
                    ++ padStart (Js.string_of_nat (FlowData.total_flows f)) 2
                    ++ " flows | "
                    ++ Js.string_of_nat (List.length (FlowData.key_personas f))
                    ++ " personas"))
              flows ;;
      console_log (rule 65) ;;
      console_log ("Found " ++ Js.string_of_nat (List.length flows)
                   ++ " flow file(s)").

(** [list(docsDir, type, options)] *)
Definition list (fs : node) (docsDir : path) (type : string)
    (options : ListArgs.t) : P unit :=
  if String.eqb type "features" then
    listFeatures fs docsDir
      {| ListCmd.showAll := ListArgs.all options;
         ListCmd.format := or_default (ListArgs.format options) "summary";
         ListCmd.filterStatus := or_default (ListArgs.status options) "";
         ListCmd.sortBy := or_default (ListArgs.sort options) "id" |}
  else if String.eqb type "apis" then
    listApis fs docsDir
      {| a_format := or_default (ListArgs.format options) "summary";
         filterMethod := or_default (ListArgs.method options) "";
         filterPath := or_default (ListArgs.path options) "";
         a_baseUrl := or_default (ListArgs.baseUrl options)
                                 "http://localhost:3000" |}
  else if String.eqb type "stories" then
    listStories fs docsDir
      {| ListCmd.s_showAll := ListArgs.all options;
         ListCmd.s_format := or_default (ListArgs.format options) "summary";
         ListCmd.s_filterStatus := or_default (ListArgs.status options) "";
         ListCmd.s_filterFeature := or_default (ListArgs.feature options) "" |}
  else if String.eqb type "flows" then
    listFlows fs docsDir
      {| f_format := or_default (ListArgs.format options) "summary";
         filterPersona := or_default (ListArgs.persona options) "" |}
  else
    console_log ("Unknown list type: " ++ type) ;;
    console_log "Available types: features, apis, stories, flows" ;;
    exit 1.
End WithCollaborators.

End ListOutput.

(* ===================================================================== *)
(** ** src/commands/info.ts *)
(* ===================================================================== *)

Module InfoCmd.
Import Process.
Local Open Scope process_scope.

(** [completeCount], [inProgressCount] and [incompleteCount]. *)
Record counts : Type :=
  { completeCount : nat; inProgressCount : nat; incompleteCount : nat }.

Definition count_status (status : string) (c : counts) : counts :=
  if String.eqb status "complete" then
    {| completeCount := S (completeCount c);
       inProgressCount := inProgressCount c;
       incompleteCount := incompleteCount c |}
  else if String.eqb status "in-progress" then
    {| completeCount := completeCount c;
       inProgressCount := S (inProgressCount c);
       incompleteCount := incompleteCount c |}
  else
    {| completeCount := completeCount c;
       inProgressCount := inProgressCount c;
       incompleteCount := S (incompleteCount c) |}.

Definition zero : counts :=
  {| completeCount := 0; inProgressCount := 0; incompleteCount := 0 |}.

Section WithYaml.
Context `{YamlLoader}.

(** The callback of the two tallying loops. *)
Definition statusStep (fs : node) (file : path) (c : counts) : P counts :=
  let data := loadYaml fs file in
  if Js.truthy data then
    status <- lift (getString data "status") ;;
    ret (count_status status c)
  else ret c.

(** The block [info] prints for the feature specs and for the stories. *)
Definition tallyBlock (fs : node) (dir : path) (heading : string) : P unit :=
  if existsSync fs dir then
    let files := findYamlFiles fs dir in
    c <- forEachAcc (statusStep fs) files zero ;;
    console_log heading ;;
    console_log ("  Total: " ++ Js.string_of_nat (List.length files)) ;;
    console_log ("  Complete: " ++ Js.string_of_nat (completeCount c)) ;;
    console_log ("  In Progress: " ++ Js.string_of_nat (inProgressCount c)) ;;
    console_log ("  Incomplete: " ++ Js.string_of_nat (incompleteCount c)) ;;
    console_log ""
  else ret tt.

Definition info (fs : node) (docsDir : path) : P unit :=
  console_log CheckCmd.rule ;;
  console_log "Project Documentation Info" ;;
  console_log CheckCmd.rule ;;
  console_log "" ;;
  (if negb (existsSync fs docsDir) then
     console_log ("✗ Documentation directory not found: "
                  ++ Path.to_string docsDir) ;;
     exit 1
   else ret tt) ;;
  console_log ("Documentation directory: " ++ Path.to_string docsDir) ;;
  console_log "" ;;
  let prdFile := join docsDir "product-requirements.yaml" in
  (if existsSync fs prdFile then
     let prdData := loadYaml fs prdFile in
     if Js.truthy prdData then
       projectName <- lift (getString prdData "project_name") ;;
       features <- lift (getArray prdData "features") ;;
       console_log "Project:" ;;
       console_log ("  Name: " ++ ListCmd.or_else projectName "Not set") ;;
       console_log ("  Features (PRD): "
                    ++ Js.string_of_nat (List.length features)) ;;
       console_log ""
     else ret tt
   else
     console_log "⚠ No product-requirements.yaml found" ;;
     console_log "") ;;
  tallyBlock fs (join docsDir "feature-specs") "Feature Specifications:" ;;
  tallyBlock fs (join docsDir "user-stories") "User Stories:" ;;
  let flowsDir := join docsDir "user-flows" in
  (if existsSync fs flowsDir then
     let flowFiles := findYamlFiles fs flowsDir in
     console_log "User Flows:" ;;
     console_log ("  Total: " ++ Js.string_of_nat (List.length flowFiles)) ;;
     console_log ""
   else ret tt) ;;
  let apiDir := join docsDir "api-contracts" in
  (if existsSync fs apiDir then
     let apiFiles := findYamlFiles fs apiDir in
     console_log "API Contracts:" ;;
     console_log ("  Endpoints: " ++ Js.string_of_nat (List.length apiFiles)) ;;
     console_log ""
   else ret tt) ;;
  let systemFile := join docsDir "system-design.yaml" in
  (if existsSync fs systemFile then
     let systemData := loadYaml fs systemFile in
     if Js.truthy systemData then
       components <- lift (getArray systemData "core_components") ;;
       console_log "System Design:" ;;
       console_log ("  Components: "
                    ++ Js.string_of_nat (List.length components)) ;;
       console_log ""
     else ret tt
   else ret tt) ;;
  console_log CheckCmd.rule.
End WithYaml.

End InfoCmd.

(* ===================================================================== *)
(** ** src/commands/template.ts *)
(* ===================================================================== *)

Module TemplateCmd.
Import Process.
Local Open Scope process_scope.

Definition TEMPLATE_MAP : list (string * string) :=
  [ ("product-requirements", "product-requirements.yaml");
    ("system-design", "system-design.yaml");
    ("api-contract", "api-contract.yaml");
    ("design-spec", "design-spec.yaml");
    ("user-flow", "user-flow.yaml");
    ("user-story", "user-story.yaml");
    ("feature-spec", "feature-spec.yaml");
    ("requirements", "requirements.yaml");
    ("investigation-topic", "investigation-topic.yaml");
    ("plan", "plan.yaml");
    ("epic-plan", "epic-plan.yaml");
    ("claude", "CLAUDE-template.md") ].

(** What [template] prints after the first line for a type it does not
    know. *)
Definition usage : list string :=
  [ "";
    "Valid template types:";
    "  Root documents:";
    "    product-requirements    Product Requirements Document";
    "    system-design           System Design Document";
    "    api-contract            API Contract Document";
    "    design-spec             Design Specification";
    "";
    "  Multi-file documents:";
    "    user-flow               User Flow Template";
    "    user-story              User Story Template";
    "    feature-spec            Feature Specification Template";
    "    requirements            Feature Requirements Template";
    "";
    "  Planning & Investigation:";
    "    investigation-topic     Investigation/Context Template";
    "    plan                    Implementation Plan Template";
    "    epic-plan               Epic Plan Template";
    "";
    "  Meta:";
    "    claude                  CLAUDE.md Quick Reference" ].

(** [template(type)]; [templatesDir] is
    [join(__dirname, '..', '..', 'templates')]. *)
Definition template (templatesDir : path) (fs : node) (type : string)
  : P unit :=
  let validTypes := map fst TEMPLATE_MAP in
  (if negb (existsb (String.eqb type) validTypes) then
     console_log ("Error: Invalid template type '" ++ type ++ "'") ;;
     forEach console_log usage ;;
     exit 1
   else ret tt) ;;
  fileName <- lift (match Js.assoc type TEMPLATE_MAP with
                    | Some fileName => Ret fileName
                    | None => Throw TypeError
                    end) ;;
  let templatePath := join templatesDir fileName in
  (if negb (existsSync fs templatePath) then
     console_log ("Error: Template file not found: "
                  ++ Path.to_string templatePath) ;;
     console_log "This may indicate an installation issue." ;;
     exit 1
   else ret tt) ;;
  match readFileSync fs templatePath with
  | Ret content => console_log content
  | Throw error =>
      console_log ("Error: Failed to read template file: "
                   ++ Js.exn_text error) ;;
      exit 1
  end.

End TemplateCmd.

(* ===================================================================== *)
(** ** src/cli.ts: the [list], [info] and [template] commands *)
(* ===================================================================== *)

Module Commands.
Import Process.

(** What one run of the process leaves behind. *)
Record run : Type :=
  { status : nat;
    stdout : list string;
    disk : node }.

(** What every action but that of [template] starts with: the root is
    looked for, and [CLAUDE.md] installed under it. *)
Definition underDocs (templatePath cwd : path) (fs : node)
    (action : node -> path -> P unit) : run :=
  match findDocsDir fs cwd with
  | None =>
      {| status := 1;
         stdout :=
           ["Error: Could not find docs/ directory";
            "Please run this command from a project directory containing a docs/ folder"];
         disk := fs |}
  | Some docsDir =>
      let '(fs', out1) := ensureClaudeDoc templatePath fs docsDir in
      let m := action fs' docsDir in
      {| status := Process.status m;
         stdout := (out1 ++ snd m)%list;
         disk := fs' |}
  end.

Definition validTypes : list string := ["features"; "apis"; "stories"; "flows"].

Section WithCollaborators.
Context `{YamlLoader} `{Collator} `{CaseMapping} `{JsonStringifier}
        `{NumberText}.

(** The action of [pdocs list <type>]. *)
Definition listCommand (templatePath cwd : path) (type : string)
    (options : ListArgs.t) (fs : node) : run :=
  underDocs templatePath cwd fs
    (fun fs' docsDir =>
       if negb (existsb (String.eqb type) validTypes) then
         bind (console_log ("Error: Invalid list type '" ++ type ++ "'"))
           (fun _ =>
         bind (console_log ("Valid types: " ++ String.concat ", " validTypes))
           (fun _ => exit 1))
       else ListOutput.list fs' docsDir type options).

(** The action of [pdocs info]. *)
Definition infoCommand (templatePath cwd : path) (fs : node) : run :=
  underDocs templatePath cwd fs InfoCmd.info.
End WithCollaborators.

(** The action of [pdocs template <type>]: it neither looks for the
    root nor installs anything. *)
Definition templateCommand (templatesDir : path) (type : string) (fs : node)
  : run :=
  let m := TemplateCmd.template templatesDir fs type in
  {| status := Process.status m; stdout := snd m; disk := fs |}.

End Commands.

(* ===================================================================== *)
(** ** A small project on disk *)
(* ===================================================================== *)

Module Demo.

Definition prd_text : string :=
  "{project_name: Foo, summary: bar, goal: baz, features: [{id: F-01}, {id: F-02}]}".
Definition prd_empty_text : string :=
  "{project_name: Foo, summary: bar, goal: baz, features: []}".
Definition prd_quoted_text : string :=
  "{project_name: Foo, summary: '" ++ CheckCmd.quotes ++ "', goal: baz, features: [{id: F-01}]}".
Definition prd_single_text : string :=
  "{project_name: Foo, summary: bar, goal: baz, features: [{id: F-01}]}".
Definition prd_blank_text : string :=
  "{project_name: Foo, summary: '', goal: baz, features: [{id: F-01}]}".
Definition spec_text : string :=
  "{feature_id: F-01, status: complete, summary: done}".
Definition spec2_text : string :=
  "{feature_id: F-02, status: in-progress, summary: half}".
Definition spec3_text : string :=
  "{feature_id: F-03, summary: todo}".
Definition story_text : string :=
  "{story_id: US-101, feature_id: F-01, status: complete, user_story: {as_a: admin}}".
Definition story_dangling_text : string :=
  "{story_id: US-102, feature_id: F-99, status: incomplete, user_story: {as_a: admin}}".
Definition story_quoted_text : string :=
  "{story_id: US-103, feature_id: F-01, user_story: {as_a: '" ++ CheckCmd.quotes ++ "'}}".
Definition flow_text : string := "{primary_flows: [signup]}".
Definition design_text : string := "{goal: serve, tech_stack: node}".
Definition api_text : string := "{paths: {/login: {post: {summary: Log in}}}}".
Definition plan_text : string := "{data_sources: [db]}".
Definition look_text : string := "{design_goals: calm}".
Definition broken_text : string := "{summary: [".

Definition prd_of (ids : list string) (summary : string) : value :=
  VObj [("project_name", VStr "Foo"); ("summary", VStr summary);
        ("goal", VStr "baz");
        ("features", VArr (map (fun i => VObj [("id", VStr i)]) ids))].

Definition documents : list (string * value) :=
  [ (prd_text, prd_of ["F-01"; "F-02"] "bar");
    (prd_empty_text, prd_of [] "bar");
    (prd_quoted_text, prd_of ["F-01"] CheckCmd.quotes);
    (prd_single_text, prd_of ["F-01"] "bar");
    (prd_blank_text, prd_of ["F-01"] "");
    (spec_text, VObj [("feature_id", VStr "F-01"); ("status", VStr "complete");
                      ("summary", VStr "done")]);
    (spec2_text, VObj [("feature_id", VStr "F-02");
                       ("status", VStr "in-progress");
                       ("summary", VStr "half")]);
    (spec3_text, VObj [("feature_id", VStr "F-03"); ("summary", VStr "todo")]);
    (story_text, VObj [("story_id", VStr "US-101"); ("feature_id", VStr "F-01");
                       ("status", VStr "complete");
                       ("user_story", VObj [("as_a", VStr "admin")])]);
    (story_dangling_text,
      VObj [("story_id", VStr "US-102"); ("feature_id", VStr "F-99");
            ("status", VStr "incomplete");
            ("user_story", VObj [("as_a", VStr "admin")])]);
    (story_quoted_text,
      VObj [("story_id", VStr "US-103"); ("feature_id", VStr "F-01");
            ("user_story", VObj [("as_a", VStr CheckCmd.quotes)])]);
    (flow_text, VObj [("primary_flows", VArr [VStr "signup"])]);
    (design_text, VObj [("goal", VStr "serve"); ("tech_stack", VStr "node")]);
    (api_text,
      VObj [("paths",
             VObj [("/login",
                    VObj [("post", VObj [("summary", VStr "Log in")])])])]);
    (plan_text, VObj [("data_sources", VArr [VStr "db"])]);
    (look_text, VObj [("design_goals", VStr "calm")]) ].

(** A loader that knows the documents above and rejects any other text. *)
Definition loader : YamlLoader :=
  fun content =>
    match Js.assoc content documents with
    | Some v => Ret v
    | None => Throw YAMLException
    end.

(** [docs/] with the given PRD, feature specs and stories, the other
    categories being filled in. *)
Definition docs_with (prd : string) (specs stories : list (string * node))
  : node :=
  Dir [ ("product-requirements.yaml", File prd);
        ("user-flows", Dir [("main.yaml", File flow_text)]);
        ("user-stories", Dir stories);
        ("feature-specs", Dir specs);
        ("system-design.yaml", File design_text);
        ("api-contracts.yaml", File api_text);
        ("data-plan.yaml", File plan_text);
        ("design-spec.yaml", File look_text) ].

(** [/home/proj] holds [docs] and three levels of sources; [/opt/pdocs]
    holds the installed tool with its template. *)
Definition disk_with (docs : node) : node :=
  Dir [ ("home",
         Dir [("proj",
               Dir [("docs", docs);
                    ("src", Dir [("app", Dir [("ui", Dir [])])])])]);
        ("opt",
         Dir [("pdocs",
               Dir [("templates",
                     Dir [("CLAUDE.template.md", File "# Quick reference")])])]);
        ("tmp", Dir []) ].

Definition docsDir : path := ["home"; "proj"; "docs"].
Definition cwd : path := ["home"; "proj"; "src"; "app"; "ui"].
Definition templatePath : path :=
  ["opt"; "pdocs"; "templates"; "CLAUDE.template.md"].

(** F-01 and F-02 declared, only F-01 specified, one story on F-01. *)
Definition disk : node :=
  disk_with (docs_with prd_text [("login.yaml", File spec_text)]
                                [("us-101.yaml", File story_text)]).

(** Every category filled in and consistent: F-01 declared, specified
    and referred to. *)
Definition disk_clean : node :=
  disk_with (docs_with prd_single_text [("login.yaml", File spec_text)]
                                       [("us-101.yaml", File story_text)]).

(** The same with an empty [summary] in the PRD. *)
Definition disk_blank_summary : node :=
  disk_with (docs_with prd_blank_text [("login.yaml", File spec_text)]
                                      [("us-101.yaml", File story_text)]).

(** The same with a second story that refers to the unknown F-99. *)
Definition disk_dangling : node :=
  disk_with (docs_with prd_text [("login.yaml", File spec_text)]
                                [("us-101.yaml", File story_text);
                                 ("us-102.yaml", File story_dangling_text)]).

(** A PRD without features and a story that refers to F-99. *)
Definition disk_no_features : node :=
  disk_with (docs_with prd_empty_text [("login.yaml", File spec_text)]
                                      [("us-102.yaml", File story_dangling_text)]).

(** A feature spec that is not YAML. *)
Definition disk_broken : node :=
  disk_with (docs_with prd_text [("login.yaml", File broken_text)] []).

Definition broken_file : path :=
  ["home"; "proj"; "docs"; "feature-specs"; "login.yaml"].

(** A root whose [CLAUDE.md] was written by hand. *)
Definition disk_documented : node :=
  disk_with (Dir [("CLAUDE.md", File "# Notes of the team");
                  ("product-requirements.yaml", File prd_text)]).

(** Three feature specs: complete, in progress, and without a status. *)
Definition disk_three : node :=
  disk_with (docs_with prd_text [("a.yaml", File spec_text);
                                 ("b.yaml", File spec2_text);
                                 ("c.yaml", File spec3_text)]
                                [("us-101.yaml", File story_text)]).

(** The PRD's summary and a story's [as_a] hold two double quotes. *)
Definition disk_quoted : node :=
  disk_with (docs_with prd_quoted_text [("login.yaml", File spec_text)]
                                       [("us-103.yaml", File story_quoted_text)]).

Definition quiet : CheckCmd.options :=
  {| CheckCmd.verbose := false; CheckCmd.checkLinks := true;
     CheckCmd.format := "summary" |}.

Definition chatty : CheckCmd.options :=
  {| CheckCmd.verbose := true; CheckCmd.checkLinks := true;
     CheckCmd.format := "summary" |}.

(** A collation that compares code units. *)
Definition collator : Collator :=
  fun a b => match String.compare a b with
             | Lt => (-1)%Z
             | Eq => 0%Z
             | Gt => 1%Z
             end.

(** Every required place is there and no file is YAML; the stories
    directory is empty. *)
Definition garbage_docs : node :=
  Dir [ ("product-requirements.yaml", File broken_text);
        ("user-flows", Dir [("main.yaml", File broken_text)]);
        ("user-stories", Dir []);
        ("feature-specs", Dir [("login.yaml", File broken_text)]);
        ("system-design.yaml", File broken_text);
        ("api-contracts.yaml", File broken_text);
        ("data-plan.yaml", File broken_text);
        ("design-spec.yaml", File broken_text) ].

Definition disk_garbage : node := disk_with garbage_docs.


(** The case mappings on the letters of ASCII. *)
Definition upper_char (c : ascii) : ascii :=
  let n := nat_of_ascii c in
  if Nat.leb 97 n && Nat.leb n 122 then ascii_of_nat (n - 32) else c.

Definition lower_char (c : ascii) : ascii :=
  let n := nat_of_ascii c in
  if Nat.leb 65 n && Nat.leb n 90 then ascii_of_nat (n + 32) else c.

Fixpoint map_string (f : ascii -> ascii) (s : string) : string :=
  match s with
  | EmptyString => EmptyString
  | String c s' => String (f c) (map_string f s')
  end.

Definition cases : CaseMapping :=
  {| toUpperCase := map_string upper_char;
     toLowerCase := map_string lower_char |}.

(** The text of an integer in decimal digits. *)
Definition numbers : NumberText :=
  fun n =>
    if Z.ltb n 0 then "-" ++ Js.string_of_nat (Z.to_nat (- n))
    else Js.string_of_nat (Z.to_nat n).

(** A [JSON.stringify] for flat records of strings and numbers whose
    texts need no escape. *)
Definition json : JsonStringifier :=
  fun v =>
    match v with
    | VObj props =>
        "{" ++ String.concat ","
                 (map (fun kv =>
                         JsText.dquote ++ fst kv ++ JsText.dquote ++ ":"
                         ++ match snd kv with
                            | VStr s => JsText.dquote ++ s ++ JsText.dquote
                            | VNum n => numbers n
                            | _ => "null"
                            end) props)
        ++ "}"
    | _ => "null"
    end.

(** No option given on the command line. *)
Definition no_args : ListArgs.t :=
  {| ListArgs.all := false; ListArgs.format := None; ListArgs.status := None;
     ListArgs.sort := None; ListArgs.method := None; ListArgs.path := None;
     ListArgs.baseUrl := None; ListArgs.feature := None;
     ListArgs.persona := None |}.

(** The installed tool with two of its templates. *)
Definition templatesDir : path := ["opt"; "pdocs"; "templates"].

Definition disk_templates : node :=
  Dir [("opt",
        Dir [("pdocs",
              Dir [("templates",
                    Dir [("CLAUDE-template.md", File "# Quick reference");
                         ("user-story.yaml", File "story_id: US-###")])])])].

(** An API contract in which [/logout] lists no operation. *)
Definition api_hollow_text : string :=
  "{paths: {/login: {post: {summary: Log in}}, /logout: }}".

(** A flow whose persona is a mapping with a key [toString]. *)
Definition flow_odd_text : string :=
  "{key_personas: [{toString: admin}]}".

Definition more_documents : list (string * value) :=
  [ (api_hollow_text,
      VObj [("paths",
             VObj [("/login",
                    VObj [("post", VObj [("summary", VStr "Log in")])]);
                   ("/logout", VNull)])]);
    (flow_odd_text,
      VObj [("key_personas", VArr [VObj [("toString", VStr "admin")]])]) ].

Definition loader2 : YamlLoader :=
  fun content =>
    match Js.assoc content more_documents with
    | Some v => Ret v
    | None => loader content
    end.

Definition disk_hollow_api : node :=
  disk_with
    (Dir [ ("product-requirements.yaml", File prd_single_text);
           ("user-flows", Dir [("main.yaml", File flow_text)]);
           ("user-stories", Dir [("us-101.yaml", File story_text)]);
           ("feature-specs", Dir [("login.yaml", File spec_text)]);
           ("system-design.yaml", File design_text);
           ("api-contracts.yaml", File api_hollow_text);
           ("data-plan.yaml", File plan_text);
           ("design-spec.yaml", File look_text) ]).

Definition disk_odd_flow : node :=
  disk_with
    (Dir [ ("product-requirements.yaml", File prd_single_text);
           ("user-flows", Dir [("main.yaml", File flow_odd_text)]) ]).

(** Two files whose names begin with U+FF5E and with U+1F600: the
    second is a surrogate pair, whose first code unit is the smaller. *)
Definition wide_names : list (string * node) :=
  [("～.yaml", File ""); ("😀.yaml", File "")].

Definition disk_wide : node := Dir [("notes", Dir wide_names)].

(** [list apis] without options. *)
Definition api_defaults : ListOutput.apiOptions :=
  {| ListOutput.a_format := "summary"; ListOutput.filterMethod := "";
     ListOutput.filterPath := "";
     ListOutput.a_baseUrl := "http://localhost:3000" |}.

End Demo.

(* ===================================================================== *)
(** ** Vocabulary of the statements *)
(* ===================================================================== *)

(** A file fails to parse when it cannot be read or the parser rejects
    its text. *)
Definition fails_to_parse `{YamlLoader} (fs : node) (file : path) : Prop :=
  match readFileSync fs file with
  | Ret content => exists e, yaml_load content = Throw e
  | Throw _ => True
  end.

(** [line] begins with [p]. *)
Fixpoint starts_with (p line : string) {struct p} : bool :=
  match p with
  | EmptyString => true
  | String a p' =>
      match line with
      | EmptyString => false
      | String b line' => Ascii.eqb a b && starts_with p' line'
      end
  end.

(** The line [logWarn] prints for a message. *)
Definition warning (message : string) : string := "[WARN] " ++ message.

Definition is_warning (line : string) : bool := starts_with "[WARN] " line.
Definition is_error (line : string) : bool := starts_with "[ERROR] " line.

(** The lines only a verbose run prints: those of [logCheck], [logPass]
    and [logInfo]. *)
Definition verbose_only (line : string) : bool :=
  starts_with "[CHECK] " line || starts_with "[PASS] " line
  || starts_with "[INFO] " line.

Definition always_printed (line : string) : bool := negb (verbose_only line).

(** [m] returns normally, whatever the counters are when it starts. *)
Definition returns {A} (m : M A) : Prop :=
  forall r, exists a r' out, m r = (Ret a, r', out).

(** [m] returns normally, with a value and counters that satisfy [Q]. *)
Definition ensures {A} (m : M A) (Q : A -> CheckResult -> Prop) : Prop :=
  forall r, exists a r' out, m r = (Ret a, r', out) /\ Q a r'.

(** The directory [d] has a child [docs] that is a directory. *)
Definition has_docs (fs : node) (d : path) : bool :=
  isDirectory fs (join d "docs").

(** The records of a category: what its files parse to, in the order of
    the files, a file that does not load contributing nothing. *)
Definition records_of {A} (parse : path -> outcome (option A))
    (files : list path) : list A :=
  flat_map (fun file => match parse file with
                        | Ret (Some record) => [record]
                        | _ => []
                        end) files.

Definition feature_records `{YamlLoader} (fs : node) (docsDir : path)
  : list FeatureData.t :=
  records_of (ListCmd.parseFeature fs)
             (findYamlFiles fs (join docsDir "feature-specs")).

Definition story_records `{YamlLoader} (fs : node) (docsDir : path)
  : list StoryData.t :=
  records_of (ListCmd.parseStory fs)
             (findYamlFiles fs (join docsDir "user-stories")).

Definition feature_not_complete (f : FeatureData.t) : bool :=
  negb (String.eqb (FeatureData.status f) "complete").

Definition story_not_complete (s : StoryData.t) : bool :=
  negb (String.eqb (StoryData.status s) "complete").

(** The feature identifiers the PRD declares: the non-empty [id]s of the
    entries of its [features] list. *)
Definition prd_feature_ids `{YamlLoader} (fs : node) (docsDir : path)
  : list string :=
  match getArray (loadYaml fs (join docsDir "product-requirements.yaml"))
                 "features" with
  | Ret features =>
      match Js.mapO featureIdOf features with
      | Ret ids => filter CheckCmd.nonempty ids
      | Throw _ => []
      end
  | Throw _ => []
  end.

(** The [feature_id] and the [story_id] a story file declares; [""] when
    it declares none. *)
Definition declared_feature `{YamlLoader} (fs : node) (storyFile : path)
  : string :=
  match getString (loadYaml fs storyFile) "feature_id" with
  | Ret s => s
  | Throw _ => ""
  end.

Definition declared_story `{YamlLoader} (fs : node) (storyFile : path)
  : string :=
  match getString (loadYaml fs storyFile) "story_id" with
  | Ret s => s
  | Throw _ => ""
  end.

(** A story dangles when it declares a feature that is not empty, is not
    the placeholder, and is not one of [featureIds]. *)
Definition dangling `{YamlLoader} (fs : node) (featureIds : list string)
    (storyFile : path) : bool :=
  CheckCmd.nonempty (declared_feature fs storyFile)
  && negb (String.eqb (declared_feature fs storyFile) "F-##")
  && negb (includes_id featureIds (declared_feature fs storyFile)).

Definition dangling_warning `{YamlLoader} (fs : node) (storyFile : path)
  : string :=
  warning ("Story " ++ declared_story fs storyFile
           ++ " references unknown feature: " ++ declared_feature fs storyFile).

(** The dangling-reference warnings of the stories directory, one for
    each dangling story, in the order of the files. *)
Definition story_warnings `{YamlLoader} (fs : node) (docsDir : path)
    (featureIds : list string) : list string :=
  flat_map (fun storyFile =>
              if dangling fs featureIds storyFile
              then [dangling_warning fs storyFile] else [])
           (findYamlFiles fs (join docsDir "user-stories")).

Definition is_dangling_warning (line : string) : bool :=
  starts_with "[WARN] Story " line.

(** Some feature-spec file declares [featureId]. *)
Definition has_specification `{YamlLoader} (fs : node) (docsDir : path)
    (featureId : string) : bool :=
  match Js.some (declaresFeature fs featureId)
                (findYamlFiles fs (join docsDir "feature-specs")) with
  | Ret b => b
  | Throw _ => false
  end.

Definition missing_spec_warning (featureId : string) : string :=
  warning ("Feature " ++ featureId ++ " (in PRD) has no specification file").

(** The lines the cross-reference check prints for one feature
    identifier. *)
Definition spec_lines `{YamlLoader} (fs : node) (docsDir : path)
    (verbose : bool) (featureId : string) : list string :=
  List.app
    (if verbose
     then ["[CHECK] Checking if " ++ featureId ++ " has specification"]
     else [])
    (if has_specification fs docsDir featureId
     then (if verbose
           then ["[PASS] Feature " ++ featureId ++ " has specification"]
           else [])
     else [missing_spec_warning featureId]).

Definition spec_output `{YamlLoader} (fs : node) (docsDir : path)
    (verbose : bool) (featureIds : list string) : list string :=
  if existsSync fs (join docsDir "feature-specs")
  then flat_map (spec_lines fs docsDir verbose) featureIds
  else [].

(** The counters after [n] more warnings. *)
Definition add_warnings (n : nat) (r : CheckResult) : CheckResult :=
  {| totalChecks := totalChecks r;
     totalErrors := totalErrors r;
     totalWarnings := n + totalWarnings r |}.

(** The counters after the first loop of the cross-reference check. *)
Definition after_specs `{YamlLoader} (fs : node) (docsDir : path)
    (featureIds : list string) (r : CheckResult) : CheckResult :=
  if existsSync fs (join docsDir "feature-specs") then
    fold_left (fun r featureId =>
                 if has_specification fs docsDir featureId then incrChecks r
                 else incrWarnings (incrChecks r)) featureIds r
  else r.

Definition crossref_header : string :=
  CheckCmd.nl ++ "━━━ Cross-Reference Validation ━━━".

(** Two runs that differ in verbosity only: same result, same counters,
    and the quiet run prints the lines of the loud one that are not
    [verbose_only]. *)
Definition quieter {A} (loud quiet : outcome A * CheckResult * list string)
  : Prop :=
  fst (fst quiet) = fst (fst loud)
  /\ snd (fst quiet) = snd (fst loud)
  /\ snd quiet = filter always_printed (snd loud).

Definition sim {A} (loud quiet : M A) : Prop :=
  forall r, quieter (loud r) (quiet r).

(** The eight places [check] requires under the root, in the order it
    visits them. *)
Definition required_places : list string :=
  ["product-requirements.yaml"; "user-flows"; "user-stories";
   "feature-specs"; "system-design.yaml"; "api-contracts.yaml";
   "data-plan.yaml"; "design-spec.yaml"].

Definition missing_places (fs : node) (docsDir : path) : list string :=
  filter (fun place => negb (existsSync fs (join docsDir place)))
         required_places.

(** What a category adds to the errors when its place is [p]. *)
Definition missing1 (fs : node) (p : path) : nat :=
  if existsSync fs p then 0 else 1.

(** [m] returns normally and adds [n] to the counter [f]. *)
Definition adds {A} (f : CheckResult -> nat) (n : nat) (m : M A) : Prop :=
  forall r, exists a r' out, m r = (Ret a, r', out) /\ f r' = n + f r.

(** Every regular file of the tree [n] has a content that satisfies
    [p]. *)
Fixpoint all_files (p : string -> bool) (n : node) : bool :=
  match n with
  | File content => p content
  | Dir entries =>
      (fix every (es : list (string * node)) : bool :=
         match es with
         | [] => true
         | (_, child) :: rest => all_files p child && every rest
         end) entries
  end.

(** The text gives [loadYaml] nothing to return but a falsy value: the
    parser rejects it, or it is an empty document. *)
Definition holds_no_data `{YamlLoader} (content : string) : bool :=
  match yaml_load content with
  | Ret parsed => Js.falsy parsed
  | Throw _ => true
  end.

(** The category directories in which [findYamlFiles] finds nothing. *)
Definition empty_directories (fs : node) (docsDir : path) : list string :=
  filter (fun place =>
            Nat.eqb (List.length (findYamlFiles fs (join docsDir place))) 0)
         ["user-flows"; "user-stories"; "feature-specs"].

Definition no_files (fs : node) (dir : path) : nat :=
  if Nat.eqb (List.length (findYamlFiles fs dir)) 0 then 1 else 0.

Definition is_check (line : string) : bool := starts_with "[CHECK] " line.

(** The number of calls of [console.log] whose text satisfies [p]. *)
Definition count_calls (p : string -> bool) (out : list string) : nat :=
  List.length (filter p out).

Definition tallies {A} (verbose : bool) (m : M A) : Prop :=
  forall r, exists a r' out,
    m r = (Ret a, r', out)
    /\ totalWarnings r' = totalWarnings r + count_calls is_warning out
    /\ totalErrors r' = totalErrors r + count_calls is_error out
    /\ (verbose = true ->
        totalChecks r' = totalChecks r + count_calls is_check out).

(** A text that begins with none of [[WARN]], [[ERROR]] and [[CHECK]]. *)
Definition plain (line : string) : Prop :=
  is_warning line = false /\ is_error line = false /\ is_check line = false.

(** [q] does not come before [p] in the order of [sort()], which
    compares the UTF-16 code units of the two texts. *)
Definition path_le (p q : path) : Prop := path_leb p q = true.

(** [s] begins with a decimal digit. *)
Definition starts_with_digit (s : string) : bool :=
  match s with
  | String c _ => Js.is_digit c
  | EmptyString => false
  end.

(** [v === null || v === undefined] *)
Definition nullish (v : value) : bool :=
  match v with
  | VUndefined | VNull => true
  | _ => false
  end.

(** The records a listing selects: without [--all] those that are not
    complete, and with [--status] those of that status; for stories,
    with [--feature] those of that feature. *)
Definition feature_selected (options : ListCmd.featureOptions)
    (f : FeatureData.t) : bool :=
  (ListCmd.showAll options || feature_not_complete f)
  && (negb (CheckCmd.nonempty (ListCmd.filterStatus options))
      || String.eqb (FeatureData.status f) (ListCmd.filterStatus options)).

Definition story_selected (options : ListCmd.storyOptions)
    (s : StoryData.t) : bool :=
  (ListCmd.s_showAll options || story_not_complete s)
  && (negb (CheckCmd.nonempty (ListCmd.s_filterStatus options))
      || String.eqb (StoryData.status s) (ListCmd.s_filterStatus options))
  && (negb (CheckCmd.nonempty (ListCmd.s_filterFeature options))
      || String.eqb (StoryData.feature_id s) (ListCmd.s_filterFeature options)).



(** The computation returns, having printed [out]. *)
Definition prints {A} (m : Process.P A) (out : list string) : Prop :=
  exists a, m = (Process.Value a, out).

(** The computation returns, whatever it prints. *)
Definition completes {A} (m : Process.P A) : Prop :=
  exists a out, m = (Process.Value a, out).

Definition is_complete_feature (f : FeatureData.t) : bool :=
  String.eqb (FeatureData.status f) "complete".

(** An entry of [paths] that lists no operations, or one of whose
    operations says nothing: what YAML reads from a key with nothing
    after the colon. *)
Definition hollow_entry (entry : string * value) : bool :=
  nullish (snd entry)
  || match snd entry with
     | VObj operations => existsb (fun op => nullish (snd op)) operations
     | VArr items => existsb nullish items
     | _ => false
     end.

(** The [paths] of a contract have a hollow entry. *)
Definition hollow (paths : value) : bool :=
  negb (Js.falsy paths)
  && match JsText.entries paths with
     | Ret pathEntries => existsb hollow_entry pathEntries
     | Throw _ => false
     end.

(** The two numbers [check] keeps where [info] keeps three: it counts
    the statuses other than [complete] together. *)
Definition folded (c : InfoCmd.counts) : tally :=
  (InfoCmd.completeCount c,
   InfoCmd.inProgressCount c + InfoCmd.incompleteCount c).

Definition loads `{YamlLoader} (fs : node) (file : path) : bool :=
  Js.truthy (loadYaml fs file).

(** The second line [logError] prints when [checkFileExists] is given a
    template type. *)
Definition hint_line (templateType : string) : string :=
  "        💡 Get template with: pdocs template " ++ templateType.

(** The computation never prints [line]. *)
Definition silent_about {A} (line : string) (m : Process.P A) : Prop :=
  ~ In line (snd m).

(** The checks of the cross-reference pass: one for each feature
    identifier of the PRD, when the pass is enabled and there is a
    directory of feature specs to look into. *)
Definition crossref_checks `{YamlLoader} (fs : node) (docsDir : path)
    (checkLinks : bool) : nat :=
  if checkLinks && existsSync fs (join docsDir "feature-specs")
  then List.length (prd_feature_ids fs docsDir)
  else 0.

(** The text has no line break. *)
Fixpoint single_line (text : string) : bool :=
  match text with
  | EmptyString => true
  | String c rest => negb (Ascii.eqb c "010") && single_line rest
  end.

(** The lines of a text. *)
Fixpoint lines_of (text : string) : list string :=
  match text with
  | EmptyString => [""]
  | String c rest =>
      if Ascii.eqb c "010" then "" :: lines_of rest
      else match lines_of rest with
           | line :: others => String c line :: others
           | [] => [String c ""]
           end
  end.

(** The lines of the standard output after calls of [console.log] with
    the texts [out]: each call writes its text and a line break. *)
Definition stdout_lines (out : list string) : list string :=
  flat_map lines_of out.

(** [String(v)] finds a text for [v]: [v] is not a mapping with a
    property [toString] of its own, nor a list that holds such a
    mapping, at any depth. *)
Fixpoint has_text (v : value) : bool :=
  match v with
  | VArr items =>
      (fix all (l : list value) : bool :=
         match l with
         | [] => true
         | x :: rest => has_text x && all rest
         end) items
  | VObj props =>
      match Js.assoc "toString" props with
      | Some _ => false
      | None => true
      end
  | _ => true
  end.

(** The flow file does not load, or each of its personas has a text. *)
Definition personas_have_text `{YamlLoader} (fs : node) (file : path)
  : bool :=
  Js.falsy (loadYaml fs file)
  || match getArray (loadYaml fs file) "key_personas" with
     | Ret personas => forallb has_text personas
     | Throw _ => true
     end.

(** The records a listing is to show when none of its filters is
    given: all of them with [--all], and otherwise those that are not
    complete. *)
Definition shown_by_default {A} (not_complete : A -> bool) (all : bool)
    (records : list A) : list A :=
  if all then records else filter not_complete records.

(** The table of [list features] for the records [listed]: a title, the
    header between two rules, a row for each record, a rule and the
    count. *)
Definition features_table `{NumberText} (featuresDir : path)
    (listed : list FeatureData.t) : list string :=
  List.app
    [ "Feature Specifications in " ++ Path.to_string featuresDir;
      ListOutput.rule 80;
      JsText.padEnd "ID" 10 ++ " " ++ JsText.padEnd "Title" 40 ++ " "
      ++ JsText.padEnd "Progress" 10 ++ " Status";
      ListOutput.rule 80 ]
    (List.app
       (map ListOutput.featureRow listed)
       [ ListOutput.rule 80;
         "Found " ++ Js.string_of_nat (List.length listed)
         ++ " matching features" ]).

(** The table of [list stories]. *)
Definition stories_table (storiesDir : path) (listed : list StoryData.t)
  : list string :=
  List.app
    [ "User Stories in " ++ Path.to_string storiesDir;
      ListOutput.rule 70;
      JsText.padEnd "ID" 12 ++ " " ++ JsText.padEnd "Feature" 10 ++ " "
      ++ JsText.padEnd "Title" 40 ++ " Status";
      ListOutput.rule 70 ]
    (List.app
       (map ListOutput.storyRow listed)
       [ ListOutput.rule 70;
         "Found " ++ Js.string_of_nat (List.length listed)
         ++ " matching stories" ]).

(* ===================================================================== *)
(** * Properties of the accessors and of the loader *)
(* ===================================================================== *)

Lemma get_truthy (v : value) (key : string) :
  Js.falsy v = false -> exists x, Js.get v key = Ret x.
Proof.
  destruct v; simpl; try discriminate; intros _.
  - eauto.
  - eauto.
  - destruct (String.eqb key "length"); [eauto|].
    destruct (Js.array_index key); [|eauto].
    destruct (nth_error (Js.chars s) n); eauto.
  - destruct (String.eqb key "length"); [eauto|].
    destruct (Js.array_index key); eauto.
  - destruct (Js.assoc key props); eauto.
Qed.

Lemma get_object (v : value) (key : string) :
  Js.is_object v = true -> exists x, Js.get v key = Ret x.
Proof.
  intros Hobj. apply get_truthy. destruct v; simpl in *; congruence.
Qed.

Lemma getString_truthy (v : value) (key : string) :
  Js.falsy v = false -> exists s, getString v key = Ret s.
Proof.
  intros Hv. unfold getString.
  destruct (get_truthy v key Hv) as [x ->]. simpl. destruct x; eauto.
Qed.

Lemma getArray_truthy (v : value) (key : string) :
  Js.falsy v = false -> exists l, getArray v key = Ret l.
Proof.
  intros Hv. unfold getArray.
  destruct (get_truthy v key Hv) as [x ->]. simpl. destruct x; eauto.
Qed.

Lemma getNumber_truthy (v : value) (key : string) :
  Js.falsy v = false -> exists n, getNumber v key = Ret n.
Proof.
  intros Hv. unfold getNumber.
  destruct (get_truthy v key Hv) as [x ->]. simpl.
  destruct x; eauto. destruct (Js.parseInt s); eauto.
Qed.

Lemma getNestedString_truthy (v : value) (parent child : string) :
  Js.falsy v = false -> exists s, getNestedString v parent child = Ret s.
Proof.
  intros Hv. unfold getNestedString.
  destruct (get_truthy v parent Hv) as [x ->]. simpl.
  destruct (Js.is_object x) eqn:Hobj; [|eauto].
  destruct (get_object x child Hobj) as [y ->]. simpl. destruct y; eauto.
Qed.

Lemma truthy_falsy (v : value) : Js.truthy v = true -> Js.falsy v = false.
Proof. unfold Js.truthy. now destruct (Js.falsy v). Qed.

Lemma loadYaml_fails `{YamlLoader} (fs : node) (file : path) :
  fails_to_parse fs file -> loadYaml fs file = VNull.
Proof.
  unfold fails_to_parse, loadYaml.
  destruct (readFileSync fs file) as [content|e]; [|reflexivity].
  now intros [e ->].
Qed.

(* ===================================================================== *)
(** * ensureClaudeDoc *)
(* ===================================================================== *)

(** C9. When [docs/CLAUDE.md] exists, [ensureClaudeDoc] returns the file
    system it was given and prints nothing; the [check] command then
    leaves the disk as it found it. *)
Theorem C9_existing_claude_doc_is_left_alone :
  forall `{YamlLoader} (templatePath : path) (fs : node) (docsDir : path),
    existsSync fs (join docsDir "CLAUDE.md") = true ->
    ensureClaudeDoc templatePath fs docsDir = (fs, [])
    /\ (forall cwd opts,
          findDocsDir fs cwd = Some docsDir ->
          Cli.disk (Cli.checkCommand templatePath cwd opts fs) = fs).
Proof.
  intros L templatePath fs docsDir Hex.
  assert (Hens : ensureClaudeDoc templatePath fs docsDir = (fs, [])).
  { unfold ensureClaudeDoc. now rewrite Hex. }
  split; [exact Hens|].
  intros cwd opts Hfind. unfold Cli.checkCommand.
  rewrite Hfind, Hens.
  destruct (check fs docsDir opts result0) as [[res r] out]. reflexivity.
Qed.

Lemma C9_existing_claude_doc_witness :
  ensureClaudeDoc Demo.templatePath Demo.disk_documented Demo.docsDir
  = (Demo.disk_documented, [])
  /\ Cli.disk (Cli.checkCommand (H := Demo.loader) Demo.templatePath Demo.cwd
                 Demo.quiet Demo.disk_documented) = Demo.disk_documented.
Proof.
  destruct (C9_existing_claude_doc_is_left_alone
              (H := Demo.loader) Demo.templatePath Demo.disk_documented
              Demo.docsDir eq_refl) as [Hens Hrun].
  split; [exact Hens|].
  apply Hrun. reflexivity.
Defined.

(* ===================================================================== *)
(** * The checker never throws *)
(* ===================================================================== *)

Create HintDb returns.

Section Returns.
Context `{YamlLoader}.
Local Open Scope check_scope.

Lemma returns_ret {A} (a : A) : returns (ret a).
Proof. intros r. unfold ret. eauto. Qed.

Lemma returns_bind {A B} (m : M A) (k : A -> M B) :
  returns m -> (forall a, returns (k a)) -> returns (bind m k).
Proof.
  intros Hm Hk r. unfold bind.
  destruct (Hm r) as (a & r1 & o1 & ->).
  destruct (Hk a r1) as (b & r2 & o2 & ->). eauto.
Qed.

Lemma returns_lift {A} (o : outcome A) :
  (exists a, o = Ret a) -> returns (lift o).
Proof. intros [a ->] r. unfold lift. eauto. Qed.

Lemma returns_console_log line : returns (console_log line).
Proof. intros r. unfold console_log. eauto. Qed.

Lemma returns_modify f : returns (modify f).
Proof. intros r. unfold modify. eauto. Qed.

Lemma returns_when b m : returns m -> returns (when b m).
Proof. intros Hm. destruct b; simpl; [exact Hm | apply returns_ret]. Qed.

Lemma returns_forEach {A} (cb : A -> M unit) (l : list A) :
  (forall x, returns (cb x)) -> returns (forEach cb l).
Proof.
  intros Hcb. induction l as [|x l IH]; simpl.
  - apply returns_ret.
  - apply returns_bind; [apply Hcb | intros _; exact IH].
Qed.

Lemma returns_forEachAcc {A S} (cb : A -> S -> M S) (l : list A) (s : S) :
  (forall x s', returns (cb x s')) -> returns (forEachAcc cb l s).
Proof.
  intros Hcb. revert s. induction l as [|x l IH]; intros s; simpl.
  - apply returns_ret.
  - apply returns_bind; [apply Hcb | intros s'; apply IH].
Qed.

Lemma some_returns {A} (f : A -> outcome bool) (l : list A) :
  (forall x, exists b, f x = Ret b) -> exists b, Js.some f l = Ret b.
Proof.
  intros Hf. induction l as [|x l IH]; simpl; [eauto|].
  destruct (Hf x) as [b ->]. simpl. destruct b; eauto.
Qed.

Lemma mapO_returns {A B} (f : A -> outcome B) (l : list A) :
  (forall x, exists b, f x = Ret b) -> exists bs, Js.mapO f l = Ret bs.
Proof.
  intros Hf. induction l as [|x l IH]; simpl; [eauto|].
  destruct (Hf x) as [b ->]. destruct IH as [bs ->]. simpl. eauto.
Qed.

Lemma featureIdOf_returns f : exists s, featureIdOf f = Ret s.
Proof.
  unfold featureIdOf. destruct (Js.is_object f) eqn:Hobj; [|eauto].
  unfold getString. destruct (get_object f "id" Hobj) as [x ->].
  simpl. destruct x; eauto.
Qed.

Lemma declaresFeature_returns fs featureId file :
  exists b, declaresFeature fs featureId file = Ret b.
Proof.
  unfold declaresFeature.
  destruct (Js.falsy (loadYaml fs file)) eqn:Hf; [eauto|].
  destruct (getString_truthy _ "feature_id" Hf) as [s ->]. simpl. eauto.
Qed.

Lemma keys_length_truthy v :
  Js.falsy v = false -> exists n, Js.keys_length v = Ret n.
Proof. destruct v; simpl; try discriminate; eauto. Qed.

(** One step of a proof that a computation returns: follow the shape
    of the program. *)
Ltac returns_step :=
  lazy zeta;
  match goal with
  | |- returns (bind _ _) => apply returns_bind; [|intros]
  | |- returns (ret _) => apply returns_ret
  | |- returns (console_log _) => apply returns_console_log
  | |- returns (modify _) => apply returns_modify
  | |- returns (when _ _) => apply returns_when
  | |- returns (forEach _ _) => apply returns_forEach; intros
  | |- returns (forEachAcc _ _ _) => apply returns_forEachAcc; intros
  | |- returns (lift _) => apply returns_lift
  | |- returns (if ?c then _ else _) => destruct c eqn:?
  | |- returns (match ?h with Some _ => _ | None => _ end) => destruct h
  | Ht : Js.truthy ?v = true |- _ => apply truthy_falsy in Ht
  | |- exists _, getString _ _ = Ret _ => apply getString_truthy; assumption
  | |- exists _, getArray _ _ = Ret _ => apply getArray_truthy; assumption
  | |- exists _, getNestedString _ _ _ = Ret _ =>
      apply getNestedString_truthy; assumption
  | |- exists _, Js.get _ _ = Ret _ => apply get_truthy; assumption
  | |- exists _, Js.keys_length _ = Ret _ =>
      apply keys_length_truthy; assumption
  | |- exists _, (if ?c then _ else _) = Ret _ => destruct c eqn:?
  | |- exists _, Ret _ = Ret _ => eexists; reflexivity
  | |- exists _, Js.some _ _ = Ret _ =>
      apply some_returns; intros; apply declaresFeature_returns
  | |- exists _, Js.mapO _ _ = Ret _ =>
      apply mapO_returns; intros; apply featureIdOf_returns
  end.

Lemma returns_logCheck message verbose : returns (logCheck message verbose).
Proof. unfold logCheck. repeat returns_step. Qed.

Lemma returns_logPass message verbose : returns (logPass message verbose).
Proof. unfold logPass. repeat returns_step. Qed.

Lemma returns_logWarn message : returns (logWarn message).
Proof. unfold logWarn. repeat returns_step. Qed.

Lemma returns_logError message hint : returns (logError message hint).
Proof. unfold logError. repeat returns_step. Qed.

Lemma returns_logInfo message verbose : returns (logInfo message verbose).
Proof. unfold logInfo. repeat returns_step. Qed.

#[local] Hint Resolve returns_logCheck returns_logPass returns_logWarn
  returns_logError returns_logInfo : returns.

Ltac returns_tac := repeat (first [solve [auto with returns] | returns_step]).

Lemma returns_checkFileExists fs file label verbose templateType :
  returns (checkFileExists fs file label verbose templateType).
Proof. unfold checkFileExists. returns_tac. Qed.

Lemma returns_checkYamlField fs file field label :
  returns (checkYamlField fs file field label).
Proof. unfold checkYamlField. returns_tac. Qed.

#[local] Hint Resolve returns_checkFileExists returns_checkYamlField : returns.

Lemma returns_checkPrd fs docsDir verbose :
  returns (checkPrd fs docsDir verbose).
Proof. unfold checkPrd. returns_tac. Qed.

Lemma returns_checkUserFlows fs docsDir verbose :
  returns (checkUserFlows fs docsDir verbose).
Proof. unfold checkUserFlows, flowStep. returns_tac. Qed.

Lemma returns_checkUserStories fs docsDir verbose :
  returns (checkUserStories fs docsDir verbose).
Proof. unfold checkUserStories, storyStep. returns_tac. Qed.

Lemma returns_checkFeatureSpecs fs docsDir verbose :
  returns (checkFeatureSpecs fs docsDir verbose).
Proof. unfold checkFeatureSpecs, featureStep. returns_tac. Qed.

Lemma returns_checkSystemDesign fs docsDir verbose :
  returns (checkSystemDesign fs docsDir verbose).
Proof. unfold checkSystemDesign. returns_tac. Qed.

Lemma returns_checkApiContracts fs docsDir verbose :
  returns (checkApiContracts fs docsDir verbose).
Proof. unfold checkApiContracts. returns_tac. Qed.

Lemma returns_checkDataPlan fs docsDir verbose :
  returns (checkDataPlan fs docsDir verbose).
Proof. unfold checkDataPlan. returns_tac. Qed.

Lemma returns_checkDesignSpec fs docsDir verbose :
  returns (checkDesignSpec fs docsDir verbose).
Proof. unfold checkDesignSpec. returns_tac. Qed.

Lemma returns_checkCrossReferences fs docsDir checkLinks verbose :
  returns (checkCrossReferences fs docsDir checkLinks verbose).
Proof. unfold checkCrossReferences, specStep, storyRefStep. returns_tac. Qed.

Lemma returns_read : returns read.
Proof. intros r. unfold read. eauto. Qed.

Lemma returns_generateSummary : returns generateSummary.
Proof.
  unfold generateSummary. pose proof returns_read. returns_tac.
Qed.
End Returns.

(* ===================================================================== *)
(** * The exit status *)
(* ===================================================================== *)

Lemma ensures_bind {A B} (m : M A) (k : A -> M B) Q :
  returns m -> (forall a, ensures (k a) Q) -> ensures (bind m k) Q.
Proof.
  intros Hm Hk r. unfold bind.
  destruct (Hm r) as (a & r1 & o1 & ->).
  destruct (Hk a r1) as (b & r2 & o2 & -> & HQ). eauto.
Qed.

Lemma generateSummary_run (r : CheckResult) :
  exists out,
    generateSummary r
    = (Ret (if Nat.eqb (totalErrors r) 0 then 0 else 1), r, out).
Proof.
  unfold generateSummary, bind, console_log, ret, read.
  destruct (Nat.eqb (totalErrors r) 0), (Nat.eqb (totalWarnings r) 0);
    cbv beta iota delta [andb]; eexists; reflexivity.
Qed.

Lemma generateSummary_exit :
  ensures generateSummary (fun code r' => code = 0 <-> totalErrors r' = 0).
Proof.
  intros r. destruct (generateSummary_run r) as [out ->].
  do 3 eexists. split; [reflexivity|].
  destruct (Nat.eqb_spec (totalErrors r) 0) as [-> | Hne];
    split; intros; [reflexivity | reflexivity | discriminate | contradiction].
Qed.

Lemma check_exit `{YamlLoader} fs docsDir opts :
  ensures (check fs docsDir opts)
          (fun code r' => code = 0 <-> totalErrors r' = 0).
Proof.
  unfold check.
  do 5 (apply ensures_bind; [apply returns_console_log | intros _]).
  destruct (negb (existsSync fs docsDir)).
  - intros r. unfold bind, logError, modify, console_log, ret.
    cbv beta iota. do 3 eexists. split; [reflexivity|].
    simpl. split; discriminate.
  - apply ensures_bind; [apply returns_checkPrd | intros _].
    apply ensures_bind; [apply returns_checkUserFlows | intros _].
    apply ensures_bind; [apply returns_checkUserStories | intros _].
    apply ensures_bind; [apply returns_checkFeatureSpecs | intros _].
    apply ensures_bind; [apply returns_checkSystemDesign | intros _].
    apply ensures_bind; [apply returns_checkApiContracts | intros _].
    apply ensures_bind; [apply returns_checkDataPlan | intros _].
    apply ensures_bind; [apply returns_checkDesignSpec | intros _].
    apply ensures_bind; [apply returns_checkCrossReferences | intros _].
    apply generateSummary_exit.
Qed.

(** C1. From any documentation tree and any counters, [check] ends by
    leaving the process with a status that is 0 exactly when the error
    counter is 0 at that moment, whatever the warning counter; so does
    the [check] command once a root has been discovered. *)
Theorem C1_exit_status_zero_iff_no_errors :
  forall `{YamlLoader} (fs : node) (docsDir : path) (opts : CheckCmd.options)
         (r : CheckResult),
    (exists code r' out,
        check fs docsDir opts r = (Ret code, r', out)
        /\ (code = 0 <-> totalErrors r' = 0)
        /\ (totalErrors r' = 0 -> 0 < totalWarnings r' -> code = 0))
    /\ (forall templatePath cwd,
          findDocsDir fs cwd = Some docsDir ->
          Cli.exitCode (Cli.checkCommand templatePath cwd opts fs) = 0
          <-> totalErrors (Cli.counters
                             (Cli.checkCommand templatePath cwd opts fs)) = 0).
Proof.
  intros L fs docsDir opts r. split.
  - destruct (check_exit fs docsDir opts r) as (code & r' & out & Hrun & Hiff).
    exists code, r', out. repeat split; try apply Hiff; try assumption.
    intros He _. now apply Hiff.
  - intros templatePath cwd Hfind. unfold Cli.checkCommand. rewrite Hfind.
    destruct (ensureClaudeDoc templatePath fs docsDir) as [fs' out1].
    destruct (check_exit fs' docsDir opts result0)
      as (code & r' & out & -> & Hiff).
    exact Hiff.
Qed.

Lemma C1_exit_status_witness :
  totalWarnings (Cli.counters (Cli.checkCommand (H := Demo.loader)
                   Demo.templatePath Demo.cwd Demo.quiet Demo.disk)) = 1
  /\ (Cli.exitCode (Cli.checkCommand (H := Demo.loader)
                      Demo.templatePath Demo.cwd Demo.quiet Demo.disk) = 0
      <-> totalErrors (Cli.counters (Cli.checkCommand (H := Demo.loader)
                         Demo.templatePath Demo.cwd Demo.quiet Demo.disk)) = 0).
Proof.
  split; [vm_compute; reflexivity|].
  apply (C1_exit_status_zero_iff_no_errors (H := Demo.loader)
           Demo.disk Demo.docsDir Demo.quiet result0).
  vm_compute. reflexivity.
Defined.

(* ===================================================================== *)
(** * The null sentinel *)
(* ===================================================================== *)

(** C2, as the code has it. A file that fails to parse loads as [null],
    which the callers reject with their [if (!data)] test, so that
    [check] returns whatever the files hold. The accessors take a record,
    and [null] is not one: applied to it each of the four raises a
    [TypeError] instead of returning a default. The defaults [""], [0],
    [[]] and [""] are what they return on a record that lacks the key. *)
Theorem C2_null_sentinel_is_guarded_not_defaulted :
  forall `{YamlLoader} (fs : node) (file : path),
    fails_to_parse fs file ->
    loadYaml fs file = VNull
    /\ Js.falsy (loadYaml fs file) = true
    /\ (forall key parent child,
          getString (loadYaml fs file) key = Throw TypeError
          /\ getNumber (loadYaml fs file) key = Throw TypeError
          /\ getArray (loadYaml fs file) key = Throw TypeError
          /\ getNestedString (loadYaml fs file) parent child = Throw TypeError)
    /\ (forall props key child,
          Js.assoc key props = None ->
          getString (VObj props) key = Ret ""
          /\ getNumber (VObj props) key = Ret 0%Z
          /\ getArray (VObj props) key = Ret []
          /\ getNestedString (VObj props) key child = Ret "")
    /\ (forall docsDir opts r,
          exists code r' out, check fs docsDir opts r = (Ret code, r', out)).
Proof.
  intros L fs file Hfail. rewrite (loadYaml_fails fs file Hfail).
  split; [reflexivity|]. split; [reflexivity|].
  split; [repeat split|]. split.
  - intros props key child Hk.
    unfold getString, getNumber, getArray, getNestedString. simpl.
    rewrite Hk. repeat split.
  - intros docsDir opts r.
    destruct (check_exit fs docsDir opts r) as (code & r' & out & Hrun & _).
    eauto.
Qed.

Lemma C2_null_sentinel_witness :
  loadYaml (H := Demo.loader) Demo.disk_broken Demo.broken_file = VNull
  /\ getArray (VObj [("title", VStr "x")]) "features" = Ret [].
Proof.
  pose proof (C2_null_sentinel_is_guarded_not_defaulted
                (H := Demo.loader) Demo.disk_broken Demo.broken_file) as W.
  assert (Hfail : fails_to_parse (H := Demo.loader) Demo.disk_broken
                    Demo.broken_file).
  { vm_compute. exists YAMLException. reflexivity. }
  destruct (W Hfail) as (Hnull & _ & _ & Hdef & _).
  split; [exact Hnull|].
  destruct (Hdef [("title", VStr "x")] "features" "x" eq_refl) as (_ & _ & Ha & _).
  exact Ha.
Defined.

(** The claim of C2 fails on a feature spec that is not YAML: the loader
    returns [null], and none of the four accessors returns its default on
    it. *)
Lemma C2_accessors_on_null_counterexample :
  loadYaml (H := Demo.loader) Demo.disk_broken Demo.broken_file = VNull
  /\ getString (loadYaml (H := Demo.loader) Demo.disk_broken Demo.broken_file)
               "summary" <> Ret ""
  /\ getNumber (loadYaml (H := Demo.loader) Demo.disk_broken Demo.broken_file)
               "progress" <> Ret 0%Z
  /\ getArray (loadYaml (H := Demo.loader) Demo.disk_broken Demo.broken_file)
              "features" <> Ret []
  /\ getNestedString
       (loadYaml (H := Demo.loader) Demo.disk_broken Demo.broken_file)
       "user_story" "as_a" <> Ret "".
Proof. vm_compute. repeat split; discriminate. Qed.

(* ===================================================================== *)
(** * Fields that hold two double quotes *)
(* ===================================================================== *)

Lemma checkYamlField_empty `{YamlLoader} fs file field label value r :
  existsSync fs file = true ->
  Js.falsy (loadYaml fs file) = false ->
  getString (loadYaml fs file) field = Ret value ->
  value = "" \/ value = CheckCmd.quotes ->
  checkYamlField fs file field label r
  = (Ret false, incrWarnings r,
     [warning (label ++ ": '" ++ field ++ "' is empty in " ++ basename file)]).
Proof.
  intros Hex Hdata Hget Hval. unfold checkYamlField.
  rewrite Hex, Hdata. simpl negb. cbv iota.
  unfold bind at 1. unfold lift. rewrite Hget.
  destruct Hval as [-> | ->]; reflexivity.
Qed.

(** C10. A field whose value is the two-character string of two double
    quotes counts as empty: [checkYamlField] answers [false], adds one
    warning and prints the "is empty" line, exactly as for a field that
    is [""] (which is what a missing field reads as), and unlike any
    other value; and the story check prints its "incomplete user story
    definition" warning when [user_story.as_a] is that string. *)
Theorem C10_two_quotes_count_as_empty :
  forall `{YamlLoader} (fs : node),
    (forall file field label r value,
        existsSync fs file = true ->
        Js.falsy (loadYaml fs file) = false ->
        getString (loadYaml fs file) field = Ret value ->
        (value = CheckCmd.quotes \/ value = "" ->
         checkYamlField fs file field label r
         = (Ret false, incrWarnings r,
            [warning (label ++ ": '" ++ field ++ "' is empty in "
                      ++ basename file)]))
        /\ (value <> CheckCmd.quotes -> value <> "" ->
            checkYamlField fs file field label r = (Ret true, r, [])))
    /\ (forall storyFile t r storyId status,
          Js.falsy (loadYaml fs storyFile) = false ->
          getString (loadYaml fs storyFile) "story_id" = Ret storyId ->
          getString (loadYaml fs storyFile) "status" = Ret status ->
          getNestedString (loadYaml fs storyFile) "user_story" "as_a"
          = Ret CheckCmd.quotes ->
          storyStep fs storyFile t r
          = (Ret (count_status status t), incrWarnings r,
             [warning ("Story " ++ storyId
                       ++ " has incomplete user story definition")])).
Proof.
  intros L fs. split.
  - intros file field label r value Hex Hdata Hget. split.
    + intros Hval. eapply checkYamlField_empty; eauto. tauto.
    + intros Hq He. unfold checkYamlField.
      rewrite Hex, Hdata. simpl negb. cbv iota.
      unfold bind at 1. unfold lift. rewrite Hget.
      unfold nonempty.
      destruct (String.eqb_spec value "") as [|_]; [contradiction|].
      destruct (String.eqb_spec value CheckCmd.quotes) as [|_]; [contradiction|].
      reflexivity.
  - intros storyFile t r storyId status Hdata Hid Hstatus HasA.
    unfold storyStep. rewrite Hdata. cbv iota zeta.
    unfold bind, lift. rewrite Hid, Hstatus, HasA. reflexivity.
Qed.

Lemma C10_two_quotes_witness :
  checkYamlField (H := Demo.loader) Demo.disk_quoted
    (join Demo.docsDir "product-requirements.yaml") "summary" "PRD" result0
  = (Ret false, incrWarnings result0,
     [warning "PRD: 'summary' is empty in product-requirements.yaml"])
  /\ storyStep (H := Demo.loader) Demo.disk_quoted
       (join (join Demo.docsDir "user-stories") "us-103.yaml") (0, 0) result0
     = (Ret (0, 1), incrWarnings result0,
        [warning "Story US-103 has incomplete user story definition"]).
Proof.
  destruct (C10_two_quotes_count_as_empty (H := Demo.loader) Demo.disk_quoted)
    as [Hfield Hstory].
  split.
  - destruct (Hfield (join Demo.docsDir "product-requirements.yaml")
                "summary" "PRD" result0 CheckCmd.quotes eq_refl eq_refl eq_refl)
      as [Hw _].
    exact (Hw (or_introl eq_refl)).
  - apply (Hstory (join (join Demo.docsDir "user-stories") "us-103.yaml")
             (0, 0) result0 "US-103" ""); reflexivity.
Defined.

(* ===================================================================== *)
(** * Discovery of the documentation root *)
(* ===================================================================== *)

Section Discovery.
Local Open Scope list_scope.

Lemma path_eqb_neq (p q : path) : path_eqb p q = false <-> p <> q.
Proof.
  unfold path_eqb. destruct (list_eq_dec string_dec p q); split;
    intros; congruence.
Qed.

Lemma dirname_snoc (d : path) (c : string) : dirname (d ++ [c]) = d.
Proof. unfold dirname. apply removelast_last. Qed.

(** The [parentDir === currentDir] guard of the loop fires at the root
    only, where the loop has already stopped. *)
Lemma dirname_fixed (p : path) : dirname p = p <-> p = root.
Proof.
  split; [|intros ->; reflexivity].
  destruct p as [|c d _] using rev_ind; [reflexivity|].
  rewrite dirname_snoc. intros Heq.
  apply (f_equal (@List.length string)) in Heq.
  rewrite length_app in Heq. simpl in Heq. lia.
Qed.

Lemma isDirectory_exists fs p : isDirectory fs p = true -> existsSync fs p = true.
Proof.
  unfold isDirectory, existsSync. destruct (lookup fs p); [reflexivity|discriminate].
Qed.

Lemma exists_and_isDirectory fs p :
  existsSync fs p && isDirectory fs p = isDirectory fs p.
Proof.
  destruct (isDirectory fs p) eqn:Hd.
  - now rewrite (isDirectory_exists fs p Hd).
  - apply andb_false_r.
Qed.

Lemma findDocsDir_from_step fs p :
  findDocsDir_from fs p =
  if path_eqb p root then None
  else if existsSync fs (join p "docs") && isDirectory fs (join p "docs")
       then Some (join p "docs")
       else if path_eqb (dirname p) p then None
            else findDocsDir_from fs (dirname p).
Proof.
  funelim (findDocsDir_from fs p).
  - now rewrite e.
  - now rewrite below_root.
Qed.

Lemma findDocsDir_root fs : findDocsDir fs root = None.
Proof. unfold findDocsDir. now rewrite findDocsDir_from_step. Qed.

Lemma findDocsDir_snoc fs (d : path) (c : string) :
  findDocsDir fs (d ++ [c]) =
  if has_docs fs (d ++ [c]) then Some (join (d ++ [c]) "docs")
  else findDocsDir fs d.
Proof.
  unfold findDocsDir, has_docs. rewrite findDocsDir_from_step.
  assert (Hne : d ++ [c] <> root) by (destruct d; discriminate).
  apply path_eqb_neq in Hne. rewrite Hne.
  rewrite exists_and_isDirectory.
  destruct (isDirectory fs (join (d ++ [c]) "docs")); [reflexivity|].
  rewrite dirname_snoc.
  assert (Hd : d <> d ++ [c]).
  { intros Heq. apply (f_equal (@List.length string)) in Heq.
    rewrite length_app in Heq. simpl in Heq. lia. }
  apply path_eqb_neq in Hd. now rewrite Hd.
Qed.

(** Splitting [rest ++ [c]] in two: the cut is at the end or inside
    [rest]. *)
Lemma split_snoc {A} (r1 r2 rest : list A) (c : A) :
  rest ++ [c] = r1 ++ r2 ->
  (r2 = [] /\ r1 = rest ++ [c])
  \/ (exists r2', r2 = r2' ++ [c] /\ rest = r1 ++ r2').
Proof.
  intros Heq. destruct r2 as [|x r2' _] using rev_ind.
  - left. rewrite app_nil_r in Heq. auto.
  - right. rewrite app_assoc in Heq. apply app_inj_tail in Heq.
    destruct Heq as [-> ->]. eauto.
Qed.

Lemma findDocsDir_nearest fs (d rest : path) :
  d <> root ->
  has_docs fs d = true ->
  (forall r1 r2, rest = r1 ++ r2 -> r1 <> [] -> has_docs fs (d ++ r1) = false) ->
  findDocsDir fs (d ++ rest) = Some (join d "docs").
Proof.
  intros Hd Hdocs. induction rest as [|c rest IH] using rev_ind; intros Hnear.
  - rewrite app_nil_r. destruct d as [|c d' _] using rev_ind; [contradiction|].
    rewrite findDocsDir_snoc. now rewrite Hdocs.
  - rewrite app_assoc, findDocsDir_snoc, <- app_assoc.
    rewrite (Hnear (rest ++ [c]) []).
    + apply IH. intros r1 r2 -> Hr1.
      apply (Hnear r1 (r2 ++ [c])); [now rewrite app_assoc | exact Hr1].
    + now rewrite app_nil_r.
    + destruct rest; discriminate.
Qed.

Lemma findDocsDir_sound fs (cwd p : path) :
  findDocsDir fs cwd = Some p ->
  exists d rest,
    cwd = d ++ rest /\ d <> root /\ p = join d "docs"
    /\ has_docs fs d = true
    /\ (forall r1 r2, rest = r1 ++ r2 -> r1 <> [] ->
                      has_docs fs (d ++ r1) = false).
Proof.
  induction cwd as [|c cwd IH] using rev_ind.
  - rewrite findDocsDir_root. discriminate.
  - rewrite findDocsDir_snoc.
    destruct (has_docs fs (cwd ++ [c])) eqn:Hdocs.
    + intros [= <-]. exists (cwd ++ [c]), []. rewrite app_nil_r.
      repeat split; auto.
      * destruct cwd; discriminate.
      * intros r1 r2 Hnil Hr1. symmetry in Hnil.
        apply app_eq_nil in Hnil. tauto.
    + intros Hfind. destruct (IH Hfind) as (d & rest & -> & Hd & -> & Hh & Hnear).
      exists d, (rest ++ [c]). rewrite app_assoc. repeat split; auto.
      intros r1 r2 Hsplit Hr1.
      destruct (split_snoc r1 r2 rest c Hsplit) as [[-> ->] | (r2' & -> & ->)].
      * now rewrite app_assoc.
      * eapply Hnear; eauto.
Qed.

Lemma findDocsDir_none fs (cwd : path) :
  findDocsDir fs cwd = None <->
  (forall d rest, cwd = d ++ rest -> d <> root -> has_docs fs d = false).
Proof.
  induction cwd as [|c cwd IH] using rev_ind.
  - rewrite findDocsDir_root. split; [|reflexivity].
    intros _ d rest Hnil Hd. symmetry in Hnil.
    apply app_eq_nil in Hnil. tauto.
  - rewrite findDocsDir_snoc.
    destruct (has_docs fs (cwd ++ [c])) eqn:Hdocs.
    + split; [discriminate|]. intros Hall.
      rewrite (Hall (cwd ++ [c]) []) in Hdocs; [discriminate | |].
      * now rewrite app_nil_r.
      * destruct cwd; discriminate.
    + rewrite IH. split.
      * intros Hall d rest Hsplit Hd.
        destruct (split_snoc d rest cwd c Hsplit) as [[-> ->] | (r2' & -> & ->)].
        -- exact Hdocs.
        -- eapply Hall; eauto.
      * intros Hall d rest -> Hd.
        apply (Hall d (rest ++ [c])); [now rewrite app_assoc | exact Hd].
Qed.

Lemma findDocsDir_frame fs1 fs2 (cwd : path) :
  (forall d rest, cwd = d ++ rest -> d <> root ->
                  has_docs fs1 d = has_docs fs2 d) ->
  findDocsDir fs1 cwd = findDocsDir fs2 cwd.
Proof.
  induction cwd as [|c cwd IH] using rev_ind; intros Hagree.
  - now rewrite !findDocsDir_root.
  - rewrite !findDocsDir_snoc.
    rewrite (Hagree (cwd ++ [c]) []).
    + destruct (has_docs fs2 (cwd ++ [c])); [reflexivity|].
      apply IH. intros d rest -> Hd.
      apply (Hagree d (rest ++ [c])); [now rewrite app_assoc | exact Hd].
    + now rewrite app_nil_r.
    + destruct cwd; discriminate.
Qed.
Lemma to_string_absolute (p : path) :
  exists tail, Path.to_string p = String "/" tail.
Proof.
  destruct p as [|c p]; [exists ""; reflexivity|].
  unfold Path.to_string. cbn [map String.concat].
  destruct (map (fun c0 => "/" ++ c0)%string p); eexists; reflexivity.
Qed.

Lemma findDocsDir_below fs (folder : path) (a b c : string) :
  folder <> root -> has_docs fs folder = true ->
  exists d, findDocsDir fs (folder ++ [a; b; c]) = Some (join d "docs")
            /\ has_docs fs d = true
            /\ In d [folder ++ [a; b; c]; folder ++ [a; b];
                     folder ++ [a]; folder].
Proof.
  intros Hroot Hdocs.
  change (folder ++ [a; b; c]) with (folder ++ [a] ++ [b] ++ [c]).
  rewrite !app_assoc, findDocsDir_snoc.
  destruct (has_docs fs (((folder ++ [a]) ++ [b]) ++ [c])) eqn:H3.
  { eexists. split; [reflexivity|]. split; [exact H3|].
    left. now rewrite <- !app_assoc. }
  rewrite findDocsDir_snoc.
  destruct (has_docs fs ((folder ++ [a]) ++ [b])) eqn:H2.
  { eexists. split; [reflexivity|]. split; [exact H2|].
    right; left. now rewrite <- !app_assoc. }
  rewrite findDocsDir_snoc.
  destruct (has_docs fs (folder ++ [a])) eqn:H1.
  { eexists. split; [reflexivity|]. split; [exact H1|]. right; right; now left. }
  exists folder. split.
  - rewrite <- (app_nil_r folder) at 1. apply findDocsDir_nearest; auto.
    intros r1 r2 Hnil Hr1. symmetry in Hnil. apply app_eq_nil in Hnil. tauto.
  - split; [exact Hdocs|]. right; right; right; now left.
Qed.
End Discovery.

(** C6. Discovery looks at the working directory and then at each of its
    ancestors below the file-system root, and returns the path, absolute,
    of the [docs] child of the first of them that has one; at the root it
    answers "not found" (the root is where a directory is its own
    parent). What it answers depends on the [docs] children of those
    directories only, never on descendants or siblings. Three levels
    below a folder with a [docs] directory it finds a [docs] directory,
    that folder's when the levels in between have none; with no [docs]
    on the way up it answers "not found". *)
Theorem C6_discovery_walks_upward_to_nearest_docs :
  forall (fs : node),
    (findDocsDir fs root = None /\ forall p, dirname p = p <-> p = root)
    /\ (forall d rest,
          d <> root -> has_docs fs d = true ->
          (forall r1 r2, rest = (r1 ++ r2)%list -> r1 <> [] ->
                         has_docs fs (d ++ r1)%list = false) ->
          findDocsDir fs (d ++ rest)%list = Some (join d "docs"))
    /\ (forall cwd p,
          findDocsDir fs cwd = Some p ->
          exists d rest,
            cwd = (d ++ rest)%list /\ d <> root /\ p = join d "docs"
            /\ has_docs fs d = true
            /\ (forall r1 r2, rest = (r1 ++ r2)%list -> r1 <> [] ->
                              has_docs fs (d ++ r1)%list = false))
    /\ (forall cwd,
          findDocsDir fs cwd = None <->
          (forall d rest, cwd = (d ++ rest)%list -> d <> root ->
                          has_docs fs d = false))
    /\ (forall folder a b c,
          folder <> root -> has_docs fs folder = true ->
          has_docs fs (folder ++ [a])%list = false ->
          has_docs fs (folder ++ [a; b])%list = false ->
          has_docs fs (folder ++ [a; b; c])%list = false ->
          findDocsDir fs (folder ++ [a; b; c])%list = Some (join folder "docs"))
    /\ (forall folder a b c,
          folder <> root -> has_docs fs folder = true ->
          exists d,
            findDocsDir fs (folder ++ [a; b; c])%list = Some (join d "docs")
            /\ has_docs fs d = true
            /\ In d [(folder ++ [a; b; c])%list; (folder ++ [a; b])%list;
                     (folder ++ [a])%list; folder])
    /\ (forall cwd p,
          findDocsDir fs cwd = Some p ->
          exists tail, Path.to_string p = String "/" tail)
    /\ (forall fs' cwd,
          (forall d rest, cwd = (d ++ rest)%list -> d <> root ->
                          has_docs fs d = has_docs fs' d) ->
          findDocsDir fs cwd = findDocsDir fs' cwd).
Proof.
  intros fs.
  split; [split; [apply findDocsDir_root | apply dirname_fixed]|].
  split; [apply findDocsDir_nearest|].
  split; [apply findDocsDir_sound|].
  split; [apply findDocsDir_none|].
  split; [|split; [apply findDocsDir_below|];
           split; [intros cwd p _; apply to_string_absolute
                  | apply findDocsDir_frame]].
  intros folder a b c Hroot Hdocs Ha Hb Hc.
  apply findDocsDir_nearest; auto.
  intros r1 r2 Hsplit Hr1.
  destruct r1 as [|x1 [|x2 [|x3 r1]]]; [contradiction| | |];
    simpl in Hsplit; injection Hsplit as; subst; auto.
  match goal with
  | Hl : [] = (_ ++ _)%list |- _ =>
      symmetry in Hl; apply app_eq_nil in Hl; destruct Hl; subst
  end.
  exact Hc.
Qed.

Lemma C6_discovery_witness :
  findDocsDir Demo.disk Demo.cwd = Some Demo.docsDir
  /\ findDocsDir Demo.disk ["tmp"] = None.
Proof.
  destruct (C6_discovery_walks_upward_to_nearest_docs Demo.disk)
    as (_ & _ & _ & Hnone & Hthree & _).
  split.
  - apply (Hthree ["home"; "proj"] "src" "app" "ui");
      [discriminate | reflexivity | reflexivity | reflexivity | reflexivity].
  - apply Hnone. intros d rest Hsplit Hd.
    destruct d as [|x [|y d]]; [contradiction | |];
      simpl in Hsplit; injection Hsplit as; subst; [reflexivity|].
    discriminate.
Defined.

(* ===================================================================== *)
(** * Listing features and stories *)
(* ===================================================================== *)

Section Listing.
Context `{YamlLoader} `{Collator}.
Local Open Scope list_scope.

Lemma insert_sorted_perm {A} (le : A -> A -> bool) (x : A) (l : list A) :
  Permutation (Js.insert_sorted le x l) (x :: l).
Proof.
  induction l as [|y l IH]; simpl; [reflexivity|].
  destruct (le x y); [reflexivity|].
  rewrite IH. apply perm_swap.
Qed.

Lemma sort_perm {A} (le : A -> A -> bool) (l : list A) :
  Permutation (Js.sort le l) l.
Proof.
  unfold Js.sort. induction l as [|x l IH]; simpl; [reflexivity|].
  rewrite insert_sorted_perm. now constructor.
Qed.

Lemma parseFeature_returns fs file :
  exists o, ListCmd.parseFeature fs file = Ret o.
Proof.
  unfold ListCmd.parseFeature.
  destruct (Js.falsy (loadYaml fs file)) eqn:Hf; [eauto|].
  destruct (getString_truthy _ "feature_id" Hf) as [x1 ->].
  destruct (getString_truthy _ "title" Hf) as [x2 ->].
  destruct (getString_truthy _ "status" Hf) as [x3 ->].
  destruct (getString_truthy _ "summary" Hf) as [x4 ->].
  destruct (get_truthy _ "implementation_status" Hf) as [x5 ->].
  simpl. destruct (Js.truthy x5) eqn:Ht; simpl; [|eauto].
  destruct (getNumber_truthy x5 "progress" (truthy_falsy _ Ht)) as [n ->].
  simpl. eauto.
Qed.

Lemma parseStory_returns fs file :
  exists o, ListCmd.parseStory fs file = Ret o.
Proof.
  unfold ListCmd.parseStory.
  destruct (Js.falsy (loadYaml fs file)) eqn:Hf; [eauto|].
  destruct (getString_truthy _ "story_id" Hf) as [x1 ->].
  destruct (getString_truthy _ "title" Hf) as [x2 ->].
  destruct (getString_truthy _ "feature_id" Hf) as [x3 ->].
  destruct (getString_truthy _ "status" Hf) as [x4 ->].
  simpl. eauto.
Qed.

Lemma mapO_records {A} (parse : path -> outcome (option A)) files :
  (forall file, exists o, parse file = Ret o) ->
  exists parsed,
    Js.mapO parse files = Ret parsed
    /\ ListCmd.non_null parsed = records_of parse files.
Proof.
  intros Hparse. induction files as [|file files IH]; simpl.
  - exists []. auto.
  - destruct (Hparse file) as [o Ho]. destruct IH as (parsed & Hmap & Hnn).
    exists (o :: parsed). unfold records_of in *. simpl.
    rewrite Ho, Hmap. simpl. split; [reflexivity|].
    destruct o; simpl; now rewrite Hnn.
Qed.

Lemma no_files_no_records {A} (parse : path -> outcome (option A)) files :
  Nat.eqb (List.length files) 0 = true -> records_of parse files = [].
Proof. destruct files; [reflexivity | discriminate]. Qed.

Lemma Forall_filter_self {A} (p : A -> bool) (l : list A) :
  Forall (fun x => p x = true) (filter p l).
Proof. apply Forall_forall. intros x Hin. now apply filter_In in Hin. Qed.

Lemma Forall_filter_keep {A} (P : A -> Prop) (q : A -> bool) (l : list A) :
  Forall P l -> Forall P (filter q l).
Proof.
  rewrite !Forall_forall. intros Hall x Hin. apply filter_In in Hin.
  now apply Hall.
Qed.

(** Whatever the other filters and the sort, a listing without [--all]
    shows no complete feature. *)
Lemma listFeatures_hides_complete fs docsDir options listed :
  ListCmd.listFeatures fs docsDir options = Ret listed ->
  ListCmd.showAll options = false ->
  Forall (fun f => feature_not_complete f = true) listed.
Proof.
  unfold ListCmd.listFeatures. cbv zeta. intros Hrun Hall. rewrite Hall in Hrun.
  destruct (Nat.eqb _ 0); [injection Hrun as <-; constructor|].
  destruct (Js.mapO (ListCmd.parseFeature fs) _) as [parsed|e];
    [|discriminate].
  cbn [Js.obind negb] in Hrun. injection Hrun as <-.
  fold feature_not_complete.
  pose proof (Forall_filter_self feature_not_complete (ListCmd.non_null parsed))
    as Hhidden.
  match goal with
  | |- Forall _ (if ?c1 then Js.sort ?le1 ?l else
                 if ?c2 then Js.sort ?le2 ?l else ?l) =>
      assert (Hl : Forall (fun f => feature_not_complete f = true) l)
  end.
  { destruct (CheckCmd.nonempty (ListCmd.filterStatus options));
      [now apply Forall_filter_keep | exact Hhidden]. }
  destruct (String.eqb (ListCmd.sortBy options) "title");
    [|destruct (String.eqb (ListCmd.sortBy options) "status")];
    try exact Hl;
    eapply Permutation_Forall; [symmetry; apply sort_perm | exact Hl
                               | symmetry; apply sort_perm | exact Hl].
Qed.

(** Whatever the other filters, a listing without [--all] shows no
    complete story. *)
Lemma listStories_hides_complete fs docsDir options listed :
  ListCmd.listStories fs docsDir options = Ret listed ->
  ListCmd.s_showAll options = false ->
  Forall (fun s => story_not_complete s = true) listed.
Proof.
  unfold ListCmd.listStories. cbv zeta. intros Hrun Hall. rewrite Hall in Hrun.
  destruct (Nat.eqb _ 0); [injection Hrun as <-; constructor|].
  destruct (Js.mapO (ListCmd.parseStory fs) _) as [parsed|e];
    [|discriminate].
  cbn [Js.obind negb] in Hrun. injection Hrun as <-.
  fold story_not_complete.
  pose proof (Forall_filter_self story_not_complete (ListCmd.non_null parsed))
    as Hhidden.
  destruct (CheckCmd.nonempty (ListCmd.s_filterStatus options));
    destruct (CheckCmd.nonempty (ListCmd.s_filterFeature options));
    [apply Forall_filter_keep, Forall_filter_keep | apply Forall_filter_keep
    | apply Forall_filter_keep | ]; exact Hhidden.
Qed.
End Listing.

(* ===================================================================== *)
(** * Cross references *)
(* ===================================================================== *)

Lemma bind_run {A B} (m : M A) (k : A -> M B) r a r1 out1 :
  m r = (Ret a, r1, out1) ->
  bind m k r = (let '(b, r2, out2) := k a r1 in (b, r2, (out1 ++ out2)%list)).
Proof. intros Hm. unfold bind. now rewrite Hm. Qed.

Lemma bind_lift_run {A B} (a : A) (k : A -> M B) r :
  bind (lift (Ret a)) k r = k a r.
Proof. unfold bind, lift. now destruct (k a r) as [[b r2] out2]. Qed.

Lemma bind_console_run {B} line (k : unit -> M B) r :
  bind (console_log line) k r
  = (let '(b, r2, out2) := k tt r in (b, r2, line :: out2)).
Proof. reflexivity. Qed.

Section CrossReferences.
Context `{YamlLoader}.
Local Open Scope list_scope.

Lemma add_warnings_0 r : add_warnings 0 r = r.
Proof. now destruct r. Qed.

Lemma add_warnings_incr n r :
  add_warnings n (incrWarnings r) = add_warnings (S n) r.
Proof. unfold add_warnings, incrWarnings. simpl. f_equal. lia. Qed.

Lemma declared_feature_falsy fs storyFile :
  Js.falsy (loadYaml fs storyFile) = true -> declared_feature fs storyFile = "".
Proof.
  unfold declared_feature.
  destruct (loadYaml fs storyFile); simpl; try discriminate; reflexivity.
Qed.

Lemma storyRefStep_run fs featureIds storyFile r :
  storyRefStep fs featureIds storyFile r
  = (Ret tt,
     (if dangling fs featureIds storyFile then incrWarnings r else r),
     (if dangling fs featureIds storyFile
      then [dangling_warning fs storyFile] else [])).
Proof.
  unfold storyRefStep, dangling, dangling_warning. cbv zeta.
  destruct (Js.falsy (loadYaml fs storyFile)) eqn:Hf.
  - now rewrite (declared_feature_falsy fs storyFile Hf).
  - unfold declared_feature, declared_story.
    destruct (getString_truthy _ "story_id" Hf) as [storyId ->].
    destruct (getString_truthy _ "feature_id" Hf) as [featureRef ->].
    unfold bind at 1. unfold lift at 1.
    unfold bind at 1. unfold lift at 1.
    destruct (nonempty featureRef && negb (String.eqb featureRef "F-##")
              && negb (includes_id featureIds featureRef));
      reflexivity.
Qed.

Lemma forEach_storyRefStep fs featureIds files r :
  let lines :=
    flat_map (fun storyFile =>
                if dangling fs featureIds storyFile
                then [dangling_warning fs storyFile] else []) files in
  forEach (storyRefStep fs featureIds) files r
  = (Ret tt, add_warnings (List.length lines) r, lines).
Proof.
  revert r. induction files as [|file files IH]; intros r; simpl.
  - now rewrite add_warnings_0.
  - unfold bind. rewrite storyRefStep_run, IH.
    destruct (dangling fs featureIds file); simpl.
    + now rewrite add_warnings_incr.
    + reflexivity.
Qed.

Lemma findYamlFiles_missing fs dir :
  existsSync fs dir = false -> findYamlFiles fs dir = [].
Proof. intros Hex. unfold findYamlFiles. now rewrite Hex. Qed.

(** The second loop of the cross-reference check. *)
Lemma story_pass_run fs docsDir featureIds r :
  (if existsSync fs (join docsDir "user-stories")
   then forEach (storyRefStep fs featureIds)
                (findYamlFiles fs (join docsDir "user-stories"))
   else ret tt) r
  = (Ret tt,
     add_warnings (List.length (story_warnings fs docsDir featureIds)) r,
     story_warnings fs docsDir featureIds).
Proof.
  unfold story_warnings.
  destruct (existsSync fs (join docsDir "user-stories")) eqn:Hex.
  - apply forEach_storyRefStep.
  - rewrite (findYamlFiles_missing _ _ Hex). simpl.
    now rewrite add_warnings_0.
Qed.

Lemma specStep_run fs docsDir verbose featureId r :
  specStep fs (findYamlFiles fs (join docsDir "feature-specs")) verbose
           featureId r
  = (Ret tt,
     (if has_specification fs docsDir featureId then incrChecks r
      else incrWarnings (incrChecks r)),
     spec_lines fs docsDir verbose featureId).
Proof.
  unfold specStep, spec_lines, has_specification.
  destruct (some_returns (declaresFeature fs featureId)
              (findYamlFiles fs (join docsDir "feature-specs"))
              (declaresFeature_returns fs featureId)) as [b ->].
  destruct verbose, b; reflexivity.
Qed.

Lemma spec_pass_run fs docsDir verbose featureIds r :
  (if existsSync fs (join docsDir "feature-specs")
   then forEach (specStep fs (findYamlFiles fs (join docsDir "feature-specs"))
                          verbose) featureIds
   else ret tt) r
  = (Ret tt, after_specs fs docsDir featureIds r,
     spec_output fs docsDir verbose featureIds).
Proof.
  unfold after_specs, spec_output.
  destruct (existsSync fs (join docsDir "feature-specs")); [|reflexivity].
  revert r. induction featureIds as [|featureId ids IH]; intros r; simpl.
  - reflexivity.
  - unfold bind. now rewrite specStep_run, IH.
Qed.

Lemma after_specs_errors fs docsDir featureIds r :
  totalErrors (after_specs fs docsDir featureIds r) = totalErrors r.
Proof.
  unfold after_specs.
  destruct (existsSync fs (join docsDir "feature-specs")); [|reflexivity].
  revert r. induction featureIds as [|featureId ids IH]; intros r; simpl.
  - reflexivity.
  - rewrite IH. now destruct (has_specification fs docsDir featureId).
Qed.

(** The cross-reference check when it is enabled and the PRD declares
    at least one feature identifier. *)
Lemma checkCrossReferences_run fs docsDir verbose r :
  Js.falsy (loadYaml fs (join docsDir "product-requirements.yaml")) = false ->
  prd_feature_ids fs docsDir <> [] ->
  checkCrossReferences fs docsDir true verbose r
  = (Ret tt,
     add_warnings
       (List.length (story_warnings fs docsDir (prd_feature_ids fs docsDir)))
       (after_specs fs docsDir (prd_feature_ids fs docsDir) r),
     crossref_header
       :: spec_output fs docsDir verbose (prd_feature_ids fs docsDir)
       ++ story_warnings fs docsDir (prd_feature_ids fs docsDir)).
Proof.
  intros Hprd. unfold prd_feature_ids.
  destruct (getArray_truthy _ "features" Hprd) as [features Hfeat].
  destruct (mapO_returns featureIdOf features featureIdOf_returns)
    as [ids Hmap].
  rewrite Hfeat, Hmap. intros Hids.
  unfold checkCrossReferences. cbn [negb]. cbv iota zeta. rewrite Hprd.
  rewrite bind_console_run, Hfeat, bind_lift_run, Hmap, bind_lift_run.
  destruct (filter nonempty ids) as [|id0 rest] eqn:Hfilter;
    [contradiction|].
  cbn [List.length Nat.eqb].
  rewrite (bind_run _ _ _ _ _ _
             (spec_pass_run fs docsDir verbose (id0 :: rest) r)).
  rewrite story_pass_run. reflexivity.
Qed.

(** The cross-reference check when it is disabled, when no PRD loads,
    or when the PRD declares no feature identifier: it looks at no
    story. *)
Lemma checkCrossReferences_skipped fs docsDir checkLinks verbose r :
  checkLinks = false
  \/ Js.falsy (loadYaml fs (join docsDir "product-requirements.yaml")) = true
  \/ prd_feature_ids fs docsDir = [] ->
  exists r' out,
    checkCrossReferences fs docsDir checkLinks verbose r = (Ret tt, r', out)
    /\ filter is_dangling_warning out = [].
Proof.
  intros Hskip. unfold checkCrossReferences.
  destruct checkLinks; [|do 2 eexists; split; reflexivity].
  cbn [negb]. cbv iota zeta.
  destruct (Js.falsy (loadYaml fs (join docsDir "product-requirements.yaml")))
    eqn:Hprd; [do 2 eexists; split; reflexivity|].
  destruct Hskip as [Hc | [Hc | Hids]]; try discriminate.
  revert Hids. unfold prd_feature_ids.
  destruct (getArray_truthy _ "features" Hprd) as [features Hfeat].
  destruct (mapO_returns featureIdOf features featureIdOf_returns)
    as [ids Hmap].
  rewrite Hfeat, Hmap. intros Hids.
  rewrite bind_console_run, bind_lift_run, Hmap, bind_lift_run.
  rewrite Hids. do 2 eexists; split; reflexivity.
Qed.
Lemma story_warnings_are_dangling fs docsDir featureIds :
  filter is_dangling_warning (story_warnings fs docsDir featureIds)
  = story_warnings fs docsDir featureIds.
Proof.
  unfold story_warnings.
  induction (findYamlFiles fs (join docsDir "user-stories"))
    as [|file files IH]; simpl; [reflexivity|].
  destruct (dangling fs featureIds file); simpl; now rewrite ?IH.
Qed.

Lemma story_warnings_are_warnings fs docsDir featureIds :
  filter is_warning (story_warnings fs docsDir featureIds)
  = story_warnings fs docsDir featureIds.
Proof.
  unfold story_warnings.
  induction (findYamlFiles fs (join docsDir "user-stories"))
    as [|file files IH]; simpl; [reflexivity|].
  destruct (dangling fs featureIds file); simpl; now rewrite ?IH.
Qed.

Lemma story_warnings_no_errors fs docsDir featureIds :
  filter is_error (story_warnings fs docsDir featureIds) = [].
Proof.
  unfold story_warnings.
  induction (findYamlFiles fs (join docsDir "user-stories"))
    as [|file files IH]; simpl; [reflexivity|].
  destruct (dangling fs featureIds file); simpl; now rewrite ?IH.
Qed.

Lemma spec_output_no_dangling fs docsDir verbose featureIds :
  filter is_dangling_warning (spec_output fs docsDir verbose featureIds) = [].
Proof.
  unfold spec_output.
  destruct (existsSync fs (join docsDir "feature-specs")); [|reflexivity].
  induction featureIds as [|featureId ids IH]; simpl; [reflexivity|].
  rewrite filter_app, IH, app_nil_r. unfold spec_lines.
  destruct verbose, (has_specification fs docsDir featureId); reflexivity.
Qed.

Lemma spec_output_no_errors fs docsDir verbose featureIds :
  filter is_error (spec_output fs docsDir verbose featureIds) = [].
Proof.
  unfold spec_output.
  destruct (existsSync fs (join docsDir "feature-specs")); [|reflexivity].
  induction featureIds as [|featureId ids IH]; simpl; [reflexivity|].
  rewrite filter_app, IH, app_nil_r. unfold spec_lines.
  destruct verbose, (has_specification fs docsDir featureId); reflexivity.
Qed.

Lemma has_specification_single fs docsDir specFile declared featureId :
  findYamlFiles fs (join docsDir "feature-specs") = [specFile] ->
  Js.falsy (loadYaml fs specFile) = false ->
  getString (loadYaml fs specFile) "feature_id" = Ret declared ->
  has_specification fs docsDir featureId = String.eqb declared featureId.
Proof.
  intros Hfiles Hdata Hid. unfold has_specification. rewrite Hfiles.
  simpl. unfold declaresFeature. rewrite Hdata, Hid. simpl.
  now destruct (String.eqb declared featureId).
Qed.
End CrossReferences.

(** C7, as the code has it. The cross-reference check looks at the
    stories only when it is enabled, the PRD loads and the PRD declares
    at least one feature identifier. Then its dangling-reference warnings
    are, in the order of the story files, one warning for each story that
    declares a [feature_id] that is non-empty, is not ["F-##"] and is not
    among the PRD's identifiers, that warning naming the story's
    [story_id] and the feature; no other story gets one. Otherwise it
    prints no dangling-reference warning at all. *)
Theorem C7_dangling_warnings_when_prd_has_features :
  forall `{YamlLoader} (fs : node) (docsDir : path)
         (checkLinks verbose : bool) (r : CheckResult),
  exists r' out,
    checkCrossReferences fs docsDir checkLinks verbose r = (Ret tt, r', out)
    /\ (checkLinks = true ->
        Js.falsy (loadYaml fs (join docsDir "product-requirements.yaml"))
        = false ->
        prd_feature_ids fs docsDir <> [] ->
        filter is_dangling_warning out
        = story_warnings fs docsDir (prd_feature_ids fs docsDir)
        /\ (forall storyFile,
              In storyFile (findYamlFiles fs (join docsDir "user-stories")) ->
              dangling fs (prd_feature_ids fs docsDir) storyFile = true ->
              In (dangling_warning fs storyFile) out)
        /\ (forall line,
              In line out -> is_dangling_warning line = true ->
              exists storyFile,
                In storyFile (findYamlFiles fs (join docsDir "user-stories"))
                /\ dangling fs (prd_feature_ids fs docsDir) storyFile = true
                /\ line = dangling_warning fs storyFile))
    /\ (checkLinks = false
        \/ Js.falsy (loadYaml fs (join docsDir "product-requirements.yaml"))
           = true
        \/ prd_feature_ids fs docsDir = [] ->
        filter is_dangling_warning out = []).
Proof.
  intros L fs docsDir checkLinks verbose r.
  destruct checkLinks;
    [destruct (Js.falsy (loadYaml fs (join docsDir "product-requirements.yaml")))
       eqn:Hprd;
     [|destruct (list_eq_dec string_dec (prd_feature_ids fs docsDir) [])
         as [Hids | Hids]]|].
  1, 2, 4:
    (edestruct (checkCrossReferences_skipped fs docsDir) as (r' & out & Hrun & Hnone);
     [eauto | exists r', out; split; [exact Hrun|]; split;
              [intros; congruence | intros _; exact Hnone]]).
  rewrite (checkCrossReferences_run fs docsDir verbose r Hprd Hids).
  do 2 eexists. split; [reflexivity|].
  assert (Hfilter :
    filter is_dangling_warning
      (crossref_header
         :: spec_output fs docsDir verbose (prd_feature_ids fs docsDir)
         ++ story_warnings fs docsDir (prd_feature_ids fs docsDir))%list
    = story_warnings fs docsDir (prd_feature_ids fs docsDir)).
  { cbn [filter]. change (is_dangling_warning crossref_header) with false.
    cbv iota. now rewrite filter_app, spec_output_no_dangling,
                story_warnings_are_dangling. }
  split.
  - intros _ _ _. split; [exact Hfilter|]. split.
    + intros storyFile Hin Hd. right. apply in_or_app. right.
      unfold story_warnings. apply in_flat_map. exists storyFile.
      split; [exact Hin|]. rewrite Hd. now left.
    + intros line Hin Hline.
      assert (Hin' : In line (story_warnings fs docsDir
                                (prd_feature_ids fs docsDir))).
      { rewrite <- Hfilter. apply filter_In. auto. }
      unfold story_warnings in Hin'. apply in_flat_map in Hin'.
      destruct Hin' as (storyFile & Hfile & Hline').
      exists storyFile.
      destruct (dangling fs (prd_feature_ids fs docsDir) storyFile);
        [|contradiction].
      destruct Hline' as [<- | []]. auto.
  - intros [Hc | [Hc | Hc]]; congruence.
Qed.

Lemma C7_dangling_warnings_witness :
  filter is_dangling_warning
    (snd (checkCrossReferences (H := Demo.loader) Demo.disk_dangling
            Demo.docsDir true false result0))
  = [warning "Story US-102 references unknown feature: F-99"].
Proof.
  destruct (C7_dangling_warnings_when_prd_has_features
              (H := Demo.loader) Demo.disk_dangling Demo.docsDir
              true false result0) as (r' & out & Hrun & Hon & _).
  rewrite Hrun. simpl snd.
  destruct Hon as (Hfilter & _); [reflexivity | reflexivity | discriminate |].
  rewrite Hfilter. reflexivity.
Defined.

(** The claim of C7 fails when the PRD declares no feature: the story
    US-102 declares the feature F-99, which is not empty, not the
    placeholder and not in the PRD's (empty) set, and the check prints no
    warning about it. *)
Lemma C7_no_warning_without_prd_features_counterexample :
  dangling (H := Demo.loader) Demo.disk_no_features
    (prd_feature_ids (H := Demo.loader) Demo.disk_no_features Demo.docsDir)
    (join (join Demo.docsDir "user-stories") "us-102.yaml") = true
  /\ checkCrossReferences (H := Demo.loader) Demo.disk_no_features
       Demo.docsDir true false result0
     = (Ret tt, incrWarnings result0,
        [crossref_header; warning "No features in PRD to cross-reference"]).
Proof. split; vm_compute; reflexivity. Qed.

(** C3, as the code has it. With a PRD that declares exactly F-01 and
    F-02 and a feature-specs directory whose only YAML file declares
    F-01, the cross-reference check prints the warning that F-02 has no
    specification file, then one warning for each story that refers to
    an unknown feature, and no error; so it prints exactly one warning
    when no story dangles. *)
Theorem C3_one_warning_for_the_unspecified_feature :
  forall `{YamlLoader} (fs : node) (docsDir specFile : path)
         (verbose : bool) (r : CheckResult),
    Js.falsy (loadYaml fs (join docsDir "product-requirements.yaml")) = false ->
    prd_feature_ids fs docsDir = ["F-01"; "F-02"]
    \/ prd_feature_ids fs docsDir = ["F-02"; "F-01"] ->
    findYamlFiles fs (join docsDir "feature-specs") = [specFile] ->
    Js.falsy (loadYaml fs specFile) = false ->
    getString (loadYaml fs specFile) "feature_id" = Ret "F-01" ->
    exists r' out,
      checkCrossReferences fs docsDir true verbose r = (Ret tt, r', out)
      /\ filter is_warning out
         = missing_spec_warning "F-02"
             :: story_warnings fs docsDir (prd_feature_ids fs docsDir)
      /\ totalWarnings r'
         = totalWarnings r + 1
           + List.length (story_warnings fs docsDir (prd_feature_ids fs docsDir))
      /\ filter is_error out = []
      /\ totalErrors r' = totalErrors r
      /\ (story_warnings fs docsDir (prd_feature_ids fs docsDir) = [] ->
          filter is_warning out = [missing_spec_warning "F-02"]
          /\ totalWarnings r' = totalWarnings r + 1).
Proof.
  intros L fs docsDir specFile verbose r Hprd Hids Hfiles Hdata Hid.
  assert (Hne : prd_feature_ids fs docsDir <> [])
    by (destruct Hids as [-> | ->]; discriminate).
  assert (Hex : existsSync fs (join docsDir "feature-specs") = true).
  { destruct (existsSync fs (join docsDir "feature-specs")) eqn:Hex;
      [reflexivity|].
    rewrite (findYamlFiles_missing _ _ Hex) in Hfiles. discriminate. }
  pose proof (has_specification_single fs docsDir specFile "F-01" "F-01"
                Hfiles Hdata Hid) as H1.
  pose proof (has_specification_single fs docsDir specFile "F-01" "F-02"
                Hfiles Hdata Hid) as H2.
  simpl in H1, H2.
  rewrite (checkCrossReferences_run fs docsDir verbose r Hprd Hne).
  set (stories := story_warnings fs docsDir (prd_feature_ids fs docsDir)).
  do 2 eexists. split; [reflexivity|].
  assert (Hwarn :
    filter is_warning
      (crossref_header
         :: spec_output fs docsDir verbose (prd_feature_ids fs docsDir)
         ++ stories)%list
    = missing_spec_warning "F-02" :: stories).
  { cbn [filter]. change (is_warning crossref_header) with false. cbv iota.
    rewrite filter_app. subst stories. rewrite story_warnings_are_warnings.
    unfold spec_output. rewrite Hex.
    destruct Hids as [-> | ->]; cbn [flat_map]; unfold spec_lines;
      rewrite H1, H2; destruct verbose; reflexivity. }
  assert (Hcount :
    totalWarnings (add_warnings (List.length stories)
                     (after_specs fs docsDir (prd_feature_ids fs docsDir) r))
    = totalWarnings r + 1 + List.length stories).
  { unfold after_specs. rewrite Hex.
    destruct Hids as [-> | ->]; cbn [fold_left]; rewrite H1, H2; simpl; lia. }
  split; [exact Hwarn|]. split; [exact Hcount|].
  split.
  { cbn [filter]. change (is_error crossref_header) with false. cbv iota.
    rewrite filter_app, spec_output_no_errors. subst stories.
    now rewrite story_warnings_no_errors. }
  split.
  { cbn [add_warnings totalErrors]. apply after_specs_errors. }
  intros Hnone. rewrite Hwarn, Hcount, Hnone. simpl. split; [reflexivity | lia].
Qed.

Lemma C3_one_warning_witness :
  filter is_warning
    (snd (checkCrossReferences (H := Demo.loader) Demo.disk Demo.docsDir
            true true result0))
  = [warning "Feature F-02 (in PRD) has no specification file"].
Proof.
  destruct (C3_one_warning_for_the_unspecified_feature
              (H := Demo.loader) Demo.disk Demo.docsDir
              (join (join Demo.docsDir "feature-specs") "login.yaml")
              true result0)
    as (r' & out & Hrun & _ & _ & _ & _ & Hone);
    [reflexivity | left; reflexivity | reflexivity | reflexivity
    | reflexivity |].
  rewrite Hrun. simpl snd. apply Hone. reflexivity.
Defined.

(** The claim of C3 fails when a story refers to an unknown feature: the
    PRD declares exactly F-01 and F-02, the only feature spec declares
    F-01, and the cross-reference check prints two warnings. *)
Lemma C3_second_warning_counterexample :
  prd_feature_ids (H := Demo.loader) Demo.disk_dangling Demo.docsDir
  = ["F-01"; "F-02"]
  /\ findYamlFiles Demo.disk_dangling (join Demo.docsDir "feature-specs")
     = [join (join Demo.docsDir "feature-specs") "login.yaml"]
  /\ getString (loadYaml (H := Demo.loader) Demo.disk_dangling
                  (join (join Demo.docsDir "feature-specs") "login.yaml"))
               "feature_id" = Ret "F-01"
  /\ checkCrossReferences (H := Demo.loader) Demo.disk_dangling Demo.docsDir
       true false result0
     = (Ret tt,
        {| totalChecks := 2; totalErrors := 0; totalWarnings := 2 |},
        [crossref_header;
         warning "Feature F-02 (in PRD) has no specification file";
         warning "Story US-102 references unknown feature: F-99"]).
Proof. repeat split; vm_compute; reflexivity. Qed.

(* ===================================================================== *)
(** * Verbosity *)
(* ===================================================================== *)

Create HintDb sim.

Section Verbosity.
Context `{YamlLoader}.
Local Open Scope check_scope.

Lemma sim_ret {A} (a : A) : sim (ret a) (ret a).
Proof. intros r. repeat split. Qed.

Lemma sim_bind {A B} (m1 m2 : M A) (k1 k2 : A -> M B) :
  sim m1 m2 -> (forall a, sim (k1 a) (k2 a)) -> sim (bind m1 k1) (bind m2 k2).
Proof.
  intros Hm Hk r. unfold bind. specialize (Hm r). unfold quieter in Hm.
  destruct (m1 r) as [[a1 r1] o1], (m2 r) as [[a2 r2] o2]. simpl in Hm.
  destruct Hm as (-> & -> & ->).
  destruct a1 as [a|e]; [|repeat split].
  specialize (Hk a r1). unfold quieter in Hk.
  destruct (k1 a r1) as [[b1 s1] p1], (k2 a r1) as [[b2 s2] p2].
  simpl in Hk. destruct Hk as (-> & -> & ->).
  repeat split. simpl. now rewrite filter_app.
Qed.

Lemma sim_lift {A} (o : outcome A) : sim (lift o) (lift o).
Proof. intros r. repeat split. Qed.

Lemma sim_modify f : sim (modify f) (modify f).
Proof. intros r. repeat split. Qed.

Lemma sim_read : sim read read.
Proof. intros r. repeat split. Qed.

Lemma sim_console_log line :
  always_printed line = true -> sim (console_log line) (console_log line).
Proof. intros Hline r. repeat split. simpl. now rewrite Hline. Qed.

Lemma sim_when b m1 m2 : sim m1 m2 -> sim (when b m1) (when b m2).
Proof. intros Hm. destruct b; [exact Hm | apply sim_ret]. Qed.

Lemma sim_forEach {A} (cb1 cb2 : A -> M unit) (l : list A) :
  (forall x, sim (cb1 x) (cb2 x)) -> sim (forEach cb1 l) (forEach cb2 l).
Proof.
  intros Hcb. induction l as [|x l IH]; simpl.
  - apply sim_ret.
  - apply sim_bind; [apply Hcb | intros _; exact IH].
Qed.

Lemma sim_forEachAcc {A S} (cb1 cb2 : A -> S -> M S) (l : list A) (s : S) :
  (forall x s', sim (cb1 x s') (cb2 x s')) ->
  sim (forEachAcc cb1 l s) (forEachAcc cb2 l s).
Proof.
  intros Hcb. revert s. induction l as [|x l IH]; intros s; simpl.
  - apply sim_ret.
  - apply sim_bind; [apply Hcb | intros s'; apply IH].
Qed.

Lemma sim_logCheck message : sim (logCheck message true) (logCheck message false).
Proof. intros r. repeat split. Qed.

Lemma sim_logPass message : sim (logPass message true) (logPass message false).
Proof. intros r. repeat split. Qed.

Lemma sim_logInfo message : sim (logInfo message true) (logInfo message false).
Proof. intros r. repeat split. Qed.

Lemma sim_logWarn message : sim (logWarn message) (logWarn message).
Proof. intros r. repeat split. Qed.

Lemma sim_logError message hint : sim (logError message hint) (logError message hint).
Proof.
  intros r. unfold logError.
  destruct hint as [h|]; [destruct (nonempty h) eqn:Hh|];
    unfold bind, modify, console_log, when, ret; rewrite ?Hh;
    repeat split.
Qed.

#[local] Hint Resolve sim_logCheck sim_logPass sim_logInfo sim_logWarn
  sim_logError sim_read : sim.

(** One step of a proof that verbosity only hides lines: both programs
    have the same shape. *)
Ltac sim_step :=
  lazy zeta;
  match goal with
  | |- sim (bind _ _) (bind _ _) => apply sim_bind; [|intros]
  | |- sim (ret _) (ret _) => apply sim_ret
  | |- sim (console_log _) (console_log _) =>
      apply sim_console_log; reflexivity
  | |- sim (modify _) (modify _) => apply sim_modify
  | |- sim (when _ _) (when _ _) => apply sim_when
  | |- sim (lift _) (lift _) => apply sim_lift
  | |- sim (forEach _ _) (forEach _ _) => apply sim_forEach; intros
  | |- sim (forEachAcc _ _ _) (forEachAcc _ _ _) =>
      apply sim_forEachAcc; intros
  | |- sim (if ?c then _ else _) (if ?c then _ else _) => destruct c
  | |- sim (match ?h with Some _ => _ | None => _ end)
           (match ?h with Some _ => _ | None => _ end) => destruct h
  end.

Ltac sim_tac := repeat (first [solve [auto with sim] | sim_step]).

Lemma sim_checkFileExists fs file label templateType :
  sim (checkFileExists fs file label true templateType)
      (checkFileExists fs file label false templateType).
Proof. unfold checkFileExists. sim_tac. Qed.

Lemma sim_checkYamlField fs file field label :
  sim (checkYamlField fs file field label)
      (checkYamlField fs file field label).
Proof. unfold checkYamlField. sim_tac. Qed.

#[local] Hint Resolve sim_checkFileExists sim_checkYamlField : sim.

Lemma sim_checkPrd fs docsDir :
  sim (checkPrd fs docsDir true) (checkPrd fs docsDir false).
Proof. unfold checkPrd. sim_tac. Qed.

Lemma sim_checkUserFlows fs docsDir :
  sim (checkUserFlows fs docsDir true) (checkUserFlows fs docsDir false).
Proof. unfold checkUserFlows, flowStep. sim_tac. Qed.

Lemma sim_checkUserStories fs docsDir :
  sim (checkUserStories fs docsDir true) (checkUserStories fs docsDir false).
Proof. unfold checkUserStories, storyStep. sim_tac. Qed.

Lemma sim_checkFeatureSpecs fs docsDir :
  sim (checkFeatureSpecs fs docsDir true) (checkFeatureSpecs fs docsDir false).
Proof. unfold checkFeatureSpecs, featureStep. sim_tac. Qed.

Lemma sim_checkSystemDesign fs docsDir :
  sim (checkSystemDesign fs docsDir true) (checkSystemDesign fs docsDir false).
Proof. unfold checkSystemDesign. sim_tac. Qed.

Lemma sim_checkApiContracts fs docsDir :
  sim (checkApiContracts fs docsDir true) (checkApiContracts fs docsDir false).
Proof. unfold checkApiContracts. sim_tac. Qed.

Lemma sim_checkDataPlan fs docsDir :
  sim (checkDataPlan fs docsDir true) (checkDataPlan fs docsDir false).
Proof. unfold checkDataPlan. sim_tac. Qed.

Lemma sim_checkDesignSpec fs docsDir :
  sim (checkDesignSpec fs docsDir true) (checkDesignSpec fs docsDir false).
Proof. unfold checkDesignSpec. sim_tac. Qed.

Lemma sim_checkCrossReferences fs docsDir checkLinks :
  sim (checkCrossReferences fs docsDir checkLinks true)
      (checkCrossReferences fs docsDir checkLinks false).
Proof. unfold checkCrossReferences, specStep, storyRefStep. sim_tac. Qed.

Lemma sim_generateSummary : sim generateSummary generateSummary.
Proof. unfold generateSummary. sim_tac. Qed.

Lemma sim_check fs docsDir checkLinks format :
  sim (check fs docsDir {| CheckCmd.verbose := true;
                           CheckCmd.checkLinks := checkLinks;
                           CheckCmd.format := format |})
      (check fs docsDir {| CheckCmd.verbose := false;
                           CheckCmd.checkLinks := checkLinks;
                           CheckCmd.format := format |}).
Proof.
  pose proof sim_checkPrd. pose proof sim_checkUserFlows.
  pose proof sim_checkUserStories. pose proof sim_checkFeatureSpecs.
  pose proof sim_checkSystemDesign. pose proof sim_checkApiContracts.
  pose proof sim_checkDataPlan. pose proof sim_checkDesignSpec.
  pose proof sim_checkCrossReferences. pose proof sim_generateSummary.
  unfold check. cbn [CheckCmd.verbose CheckCmd.checkLinks]. sim_tac.
Qed.
End Verbosity.

Lemma ensureClaudeDoc_lines_always_printed templatePath fs docsDir :
  filter always_printed (snd (ensureClaudeDoc templatePath fs docsDir))
  = snd (ensureClaudeDoc templatePath fs docsDir).
Proof.
  unfold ensureClaudeDoc.
  destruct (existsSync fs (join docsDir "CLAUDE.md")); [reflexivity|].
  destruct (negb (existsSync fs templatePath)); [reflexivity|].
  destruct (Js.obind _ _); reflexivity.
Qed.

(** C8. A verbose run of [check] and a quiet one, from the same tree and
    the same counters, end with the same three counters and the same
    exit status; the quiet run prints the lines of the verbose run minus
    its [CHECK], [PASS] and [INFO] lines. The same holds for the whole
    [check] command, which also leaves the same disk. *)
Theorem C8_verbosity_changes_only_the_output :
  forall `{YamlLoader} (fs : node) (docsDir : path) (checkLinks : bool)
         (format : string) (r : CheckResult)
         (templatePath cwd : path),
    let loud := {| CheckCmd.verbose := true; CheckCmd.checkLinks := checkLinks;
                   CheckCmd.format := format |} in
    let quiet := {| CheckCmd.verbose := false; CheckCmd.checkLinks := checkLinks;
                    CheckCmd.format := format |} in
    (fst (fst (check fs docsDir quiet r)) = fst (fst (check fs docsDir loud r))
     /\ snd (fst (check fs docsDir quiet r)) = snd (fst (check fs docsDir loud r))
     /\ snd (check fs docsDir quiet r)
        = filter always_printed (snd (check fs docsDir loud r)))
    /\ (Cli.counters (Cli.checkCommand templatePath cwd quiet fs)
        = Cli.counters (Cli.checkCommand templatePath cwd loud fs)
        /\ Cli.exitCode (Cli.checkCommand templatePath cwd quiet fs)
           = Cli.exitCode (Cli.checkCommand templatePath cwd loud fs)
        /\ Cli.disk (Cli.checkCommand templatePath cwd quiet fs)
           = Cli.disk (Cli.checkCommand templatePath cwd loud fs)
        /\ Cli.stdout (Cli.checkCommand templatePath cwd quiet fs)
           = filter always_printed
               (Cli.stdout (Cli.checkCommand templatePath cwd loud fs))).
Proof.
  intros L fs docsDir checkLinks format r templatePath cwd loud quiet.
  split; [exact (sim_check fs docsDir checkLinks format r)|].
  unfold Cli.checkCommand.
  destruct (findDocsDir fs cwd) as [found|]; [|repeat split].
  pose proof (ensureClaudeDoc_lines_always_printed templatePath fs found)
    as Hlines.
  destruct (ensureClaudeDoc templatePath fs found) as [fs' out1].
  simpl in Hlines.
  destruct (sim_check fs' found checkLinks format result0) as (Hres & Hcnt & Hout).
  fold loud quiet in Hres, Hcnt, Hout.
  destruct (check fs' found loud result0) as [[res1 r1] o1].
  destruct (check fs' found quiet result0) as [[res2 r2] o2].
  simpl in *. subst. repeat split.
  now rewrite filter_app, Hlines.
Qed.

(* ===================================================================== *)
(** * What a write leaves alone *)
(* ===================================================================== *)

Section Writes.
Local Open Scope list_scope.

Lemma assoc_set_entry_same nm (child : node) es :
  Js.assoc nm (set_entry nm child es) = Some child.
Proof.
  induction es as [|[k v] es IH]; simpl.
  - now rewrite String.eqb_refl.
  - destruct (String.eqb_spec k nm) as [-> | Hk]; simpl.
    + now rewrite String.eqb_refl.
    + destruct (String.eqb_spec k nm); [contradiction | exact IH].
Qed.

Lemma assoc_set_entry_other nm other (child : node) es :
  other <> nm ->
  Js.assoc other (set_entry nm child es) = Js.assoc other es.
Proof.
  intros Hne. induction es as [|[k v] es IH]; simpl.
  - destruct (String.eqb_spec nm other); [congruence | reflexivity].
  - destruct (String.eqb_spec k nm) as [-> | Hk]; simpl.
    + destruct (String.eqb_spec nm other); [congruence | reflexivity].
    + destruct (String.eqb_spec k other); [reflexivity | exact IH].
Qed.

(** Whether a write succeeds, and what it leaves, does not depend on
    the words of its error. *)
Lemma write_at_call call call' n p content n' :
  write_at call n p content = Ret n' -> write_at call' n p content = Ret n'.
Proof.
  revert n n'. induction p as [|nm rest IH]; intros n n'; cbn [write_at].
  - destruct n; [auto | discriminate].
  - destruct n as [|es]; [discriminate|].
    destruct (Js.assoc nm es) as [child|].
    + destruct (write_at call child rest content) as [child'|] eqn:Hw;
        cbn [Js.obind]; [|discriminate].
      intros [= <-]. now rewrite (IH _ _ Hw).
    + destruct rest; [auto | discriminate].
Qed.

(** What a successful write at [nm :: rest] looks like. *)
Lemma writeFileSync_cons n nm rest content n' :
  writeFileSync n (nm :: rest) content = Ret n' ->
  exists es child',
    n = Dir es /\ n' = Dir (set_entry nm child' es)
    /\ ((exists child, Js.assoc nm es = Some child
                       /\ writeFileSync child rest content = Ret child')
        \/ (Js.assoc nm es = None /\ rest = [] /\ child' = File content)).
Proof.
  unfold writeFileSync. cbn [write_at]. destruct n as [|es]; [discriminate|].
  destruct (Js.assoc nm es) as [child|] eqn:Hassoc.
  - destruct (write_at (call_on "open" (nm :: rest)) child rest content)
      as [child'|] eqn:Hw; cbn [Js.obind]; [|discriminate].
    intros [= <-]. exists es, child'.
    split; [reflexivity|]. split; [reflexivity|].
    left. exists child. split; [exact Hassoc|].
    exact (write_at_call _ _ _ _ _ _ Hw).
  - destruct rest; [|discriminate].
    intros [= <-]. exists es, (File content). eauto 8.
Qed.

(** A write of [d/nm] does not touch what lies under another child of
    [d]. *)
Lemma lookup_write_sibling d nm other rest n content n' :
  writeFileSync n (d ++ [nm]) content = Ret n' ->
  other <> nm ->
  lookup n' (d ++ other :: rest) = lookup n (d ++ other :: rest).
Proof.
  revert n n'. induction d as [|a d IH]; intros n n' Hw Hne;
    cbn [app] in *.
  - apply writeFileSync_cons in Hw.
    destruct Hw as (es & child' & -> & -> & _).
    cbn [lookup]. now rewrite assoc_set_entry_other.
  - apply writeFileSync_cons in Hw.
    destruct Hw as (es & child' & -> & -> & [(child & Ha & Hw) | (_ & Hd & _)]).
    + cbn [lookup]. rewrite assoc_set_entry_same, Ha. now apply IH.
    + destruct d; discriminate.
Qed.

(** The directory written into exists before and after. *)
Lemma exists_write_parent d nm n content n' :
  writeFileSync n (d ++ [nm]) content = Ret n' ->
  existsSync n d = true /\ existsSync n' d = true.
Proof.
  unfold existsSync.
  revert n n'. induction d as [|a d IH]; intros n n' Hw; cbn [app] in *.
  - auto.
  - apply writeFileSync_cons in Hw.
    destruct Hw as (es & child' & -> & -> & [(child & Ha & Hw) | (_ & Hd & _)]).
    + cbn [lookup]. rewrite assoc_set_entry_same, Ha. now apply IH.
    + destruct d; discriminate.
Qed.

(** Creating a file makes no directory appear or disappear. *)
Lemma isDirectory_write_new p n content n' q :
  writeFileSync n p content = Ret n' ->
  lookup n p = None ->
  isDirectory n' q = isDirectory n q.
Proof.
  unfold isDirectory.
  revert n n' q. induction p as [|a p IH]; intros n n' q Hw Hnone.
  - discriminate.
  - apply writeFileSync_cons in Hw.
    destruct Hw as (es & child' & -> & -> & Hcase).
    destruct q as [|b q]; [reflexivity|]. cbn [lookup] in *.
    destruct (string_dec b a) as [-> | Hne].
    + rewrite assoc_set_entry_same.
      destruct Hcase as [(child & Ha & Hw) | (Ha & -> & ->)].
      * rewrite Ha in *. now apply IH.
      * rewrite Ha. now destruct q.
    + now rewrite assoc_set_entry_other.
Qed.
End Writes.

(* ===================================================================== *)
(** * The checker reads nothing but the documentation categories *)
(* ===================================================================== *)

Section Frame.
Context `{YamlLoader}.
Variables (fs1 fs2 : node) (docsDir : path).
Hypothesis root_agrees : existsSync fs1 docsDir = existsSync fs2 docsDir.
Hypothesis categories_agree :
  forall child rest,
    child <> "CLAUDE.md" ->
    lookup fs1 (docsDir ++ child :: rest)%list
    = lookup fs2 (docsDir ++ child :: rest)%list.

Lemma lookup_agree_child child :
  child <> "CLAUDE.md" ->
  lookup fs1 (join docsDir child) = lookup fs2 (join docsDir child).
Proof. intros Hne. exact (categories_agree child [] Hne). Qed.

Lemma lookup_agree_grandchild child name :
  child <> "CLAUDE.md" ->
  lookup fs1 (join (join docsDir child) name)
  = lookup fs2 (join (join docsDir child) name).
Proof.
  intros Hne. unfold join. rewrite <- !app_assoc.
  exact (categories_agree child [name] Hne).
Qed.

Lemma existsSync_of_lookup p :
  lookup fs1 p = lookup fs2 p -> existsSync fs1 p = existsSync fs2 p.
Proof. unfold existsSync. now intros ->. Qed.

Lemma loadYaml_of_lookup p :
  lookup fs1 p = lookup fs2 p -> loadYaml fs1 p = loadYaml fs2 p.
Proof. unfold loadYaml, readFileSync. now intros ->. Qed.

Lemma findYamlFiles_of_lookup p :
  lookup fs1 p = lookup fs2 p -> findYamlFiles fs1 p = findYamlFiles fs2 p.
Proof. unfold findYamlFiles, existsSync, readdirSync. now intros ->. Qed.

Lemma findYamlFiles_children fs dir file :
  In file (findYamlFiles fs dir) -> exists name, file = join dir name.
Proof.
  unfold findYamlFiles. destruct (negb (existsSync fs dir)); [contradiction|].
  destruct (readdirSync fs dir) as [entries|]; [|contradiction].
  intros Hin. apply (Permutation_in _ (sort_perm _ _)) in Hin.
  apply in_map_iff in Hin. destruct Hin as (e & <- & _). eauto.
Qed.

Lemma forEach_ext_in {A} (cb1 cb2 : A -> M unit) (l : list A) :
  (forall x, In x l -> cb1 x = cb2 x) -> forEach cb1 l = forEach cb2 l.
Proof.
  induction l as [|x l IH]; intros Hcb; simpl; [reflexivity|].
  rewrite (Hcb x) by now left. rewrite IH; [reflexivity|].
  intros y Hy. apply Hcb. now right.
Qed.

Lemma forEachAcc_ext_in {A S} (cb1 cb2 : A -> S -> M S) (l : list A) (s : S) :
  (forall x, In x l -> cb1 x = cb2 x) ->
  forEachAcc cb1 l s = forEachAcc cb2 l s.
Proof.
  revert s. induction l as [|x l IH]; intros s Hcb; simpl; [reflexivity|].
  rewrite (Hcb x) by now left. f_equal.
  assert (Hrest : forEachAcc cb1 l = forEachAcc cb2 l).
  { clear s. assert (Hall : forall y, In y l -> cb1 y = cb2 y)
      by (intros y Hy; apply Hcb; now right).
    clear Hcb IH. induction l as [|y l IHl]; simpl; [reflexivity|].
    rewrite (Hall y) by now left. rewrite IHl; [reflexivity|].
    intros z Hz. apply Hall. now right. }
  now rewrite Hrest.
Qed.

Lemma some_ext_in {A} (f g : A -> outcome bool) (l : list A) :
  (forall x, In x l -> f x = g x) -> Js.some f l = Js.some g l.
Proof.
  induction l as [|x l IH]; intros Hfg; simpl; [reflexivity|].
  rewrite (Hfg x) by now left. rewrite IH; [reflexivity|].
  intros y Hy. apply Hfg. now right.
Qed.

(** One category file or directory, and the files in a category
    directory, read the same in both file systems. *)
Ltac agree child :=
  lazy zeta;
  let Hne := fresh in
  assert (Hne : child <> "CLAUDE.md") by discriminate;
  try rewrite (existsSync_of_lookup _ (lookup_agree_child child Hne));
  try rewrite (loadYaml_of_lookup _ (lookup_agree_child child Hne));
  try rewrite (findYamlFiles_of_lookup _ (lookup_agree_child child Hne));
  clear Hne.

Ltac agree_in child file Hin :=
  apply findYamlFiles_children in Hin; destruct Hin as [? ->];
  let Hne := fresh in
  assert (Hne : child <> "CLAUDE.md") by discriminate;
  try rewrite (existsSync_of_lookup _ (lookup_agree_grandchild child _ Hne));
  try rewrite (loadYaml_of_lookup _ (lookup_agree_grandchild child _ Hne));
  clear Hne.

Lemma checkPrd_frame verbose :
  checkPrd fs1 docsDir verbose = checkPrd fs2 docsDir verbose.
Proof.
  unfold checkPrd, checkFileExists, checkYamlField.
  agree "product-requirements.yaml". reflexivity.
Qed.

Lemma checkUserFlows_frame verbose :
  checkUserFlows fs1 docsDir verbose = checkUserFlows fs2 docsDir verbose.
Proof.
  unfold checkUserFlows. agree "user-flows".
  rewrite (forEach_ext_in (flowStep fs1 verbose) (flowStep fs2 verbose));
    [reflexivity|].
  intros file Hin. unfold flowStep. agree_in "user-flows" file Hin.
  reflexivity.
Qed.

Lemma checkUserStories_frame verbose :
  checkUserStories fs1 docsDir verbose = checkUserStories fs2 docsDir verbose.
Proof.
  unfold checkUserStories. agree "user-stories".
  rewrite (forEachAcc_ext_in (storyStep fs1) (storyStep fs2));
    [reflexivity|].
  intros file Hin. unfold storyStep. agree_in "user-stories" file Hin.
  reflexivity.
Qed.

Lemma checkFeatureSpecs_frame verbose :
  checkFeatureSpecs fs1 docsDir verbose = checkFeatureSpecs fs2 docsDir verbose.
Proof.
  unfold checkFeatureSpecs. agree "feature-specs".
  rewrite (forEachAcc_ext_in (featureStep fs1) (featureStep fs2));
    [reflexivity|].
  intros file Hin. unfold featureStep, checkYamlField.
  agree_in "feature-specs" file Hin. reflexivity.
Qed.

Lemma checkSystemDesign_frame verbose :
  checkSystemDesign fs1 docsDir verbose = checkSystemDesign fs2 docsDir verbose.
Proof.
  unfold checkSystemDesign, checkFileExists, checkYamlField.
  agree "system-design.yaml". reflexivity.
Qed.

Lemma checkApiContracts_frame verbose :
  checkApiContracts fs1 docsDir verbose = checkApiContracts fs2 docsDir verbose.
Proof.
  unfold checkApiContracts, checkFileExists.
  agree "api-contracts.yaml". reflexivity.
Qed.

Lemma checkDataPlan_frame verbose :
  checkDataPlan fs1 docsDir verbose = checkDataPlan fs2 docsDir verbose.
Proof.
  unfold checkDataPlan, checkFileExists.
  agree "data-plan.yaml". reflexivity.
Qed.

Lemma checkDesignSpec_frame verbose :
  checkDesignSpec fs1 docsDir verbose = checkDesignSpec fs2 docsDir verbose.
Proof.
  unfold checkDesignSpec, checkFileExists, checkYamlField.
  agree "design-spec.yaml". reflexivity.
Qed.

Lemma specStep_frame files verbose featureId :
  (forall file, In file files ->
                loadYaml fs1 file = loadYaml fs2 file) ->
  specStep fs1 files verbose featureId = specStep fs2 files verbose featureId.
Proof.
  intros Hfiles. unfold specStep.
  rewrite (some_ext_in (declaresFeature fs1 featureId)
                       (declaresFeature fs2 featureId)); [reflexivity|].
  intros file Hin. unfold declaresFeature. now rewrite (Hfiles file Hin).
Qed.

Lemma bind_ext {A B} (m1 m2 : M A) (k1 k2 : A -> M B) r :
  m1 r = m2 r -> (forall a r', k1 a r' = k2 a r') ->
  bind m1 k1 r = bind m2 k2 r.
Proof.
  intros Hm Hk. unfold bind. rewrite Hm.
  destruct (m2 r) as [[[a|e] r1] out1]; [|reflexivity]. now rewrite Hk.
Qed.

Lemma checkCrossReferences_frame checkLinks verbose r :
  checkCrossReferences fs1 docsDir checkLinks verbose r
  = checkCrossReferences fs2 docsDir checkLinks verbose r.
Proof.
  unfold checkCrossReferences.
  agree "product-requirements.yaml". agree "feature-specs".
  agree "user-stories".
  destruct (negb checkLinks); [reflexivity|].
  destruct (Js.falsy _); [reflexivity|].
  apply bind_ext; [reflexivity | intros _ r1].
  apply bind_ext; [reflexivity | intros features r2].
  apply bind_ext; [reflexivity | intros ids r3].
  destruct (Nat.eqb _ 0); [reflexivity|].
  apply bind_ext.
  - destruct (existsSync fs2 (join docsDir "feature-specs")); [|reflexivity].
    rewrite (forEach_ext_in
               (specStep fs1 (findYamlFiles fs2 (join docsDir "feature-specs"))
                         verbose)
               (specStep fs2 (findYamlFiles fs2 (join docsDir "feature-specs"))
                         verbose)); [reflexivity|].
    intros featureId _. apply specStep_frame.
    intros file Hin. agree_in "feature-specs" file Hin. reflexivity.
  - intros _ r4.
    destruct (existsSync fs2 (join docsDir "user-stories")); [|reflexivity].
    rewrite (forEach_ext_in (storyRefStep fs1 (filter nonempty ids))
                            (storyRefStep fs2 (filter nonempty ids)));
      [reflexivity|].
    intros file Hin. unfold storyRefStep.
    agree_in "user-stories" file Hin. reflexivity.
Qed.

Lemma check_frame opts r : check fs1 docsDir opts r = check fs2 docsDir opts r.
Proof.
  unfold check.
  rewrite root_agrees, checkPrd_frame, checkUserFlows_frame,
    checkUserStories_frame, checkFeatureSpecs_frame, checkSystemDesign_frame,
    checkApiContracts_frame, checkDataPlan_frame, checkDesignSpec_frame.
  do 5 (apply bind_ext; [reflexivity | intros ? ?]).
  destruct (negb (existsSync fs2 docsDir)); [reflexivity|].
  do 8 (apply bind_ext; [reflexivity | intros ? ?]).
  apply bind_ext; [apply checkCrossReferences_frame | reflexivity].
Qed.
End Frame.

(* ===================================================================== *)
(** * Running the command twice *)
(* ===================================================================== *)

Lemma exists_after_write p n content n' :
  writeFileSync n p content = Ret n' -> existsSync n' p = true.
Proof.
  unfold existsSync. revert n n'. induction p as [|a p IH]; intros n n' Hw.
  - reflexivity.
  - apply writeFileSync_cons in Hw.
    destruct Hw as (es & child' & -> & -> & Hcase).
    cbn [lookup]. rewrite assoc_set_entry_same.
    destruct Hcase as [(child & _ & Hw) | (_ & -> & ->)];
      [exact (IH _ _ Hw) | reflexivity].
Qed.

(** [ensureClaudeDoc] either leaves the file system as it is or creates
    [docs/CLAUDE.md], which did not exist. *)
Lemma ensureClaudeDoc_cases templatePath fs docsDir :
  fst (ensureClaudeDoc templatePath fs docsDir) = fs
  \/ (existsSync fs (join docsDir "CLAUDE.md") = false
      /\ exists content,
           writeFileSync fs (join docsDir "CLAUDE.md") content
           = Ret (fst (ensureClaudeDoc templatePath fs docsDir))).
Proof.
  unfold ensureClaudeDoc.
  destruct (existsSync fs (join docsDir "CLAUDE.md")) eqn:Hex; [now left|].
  destruct (negb (existsSync fs templatePath)); [now left|].
  destruct (readFileSync fs templatePath) as [content|e]; [|now left].
  cbn [Js.obind].
  destruct (writeFileSync fs (join docsDir "CLAUDE.md") content) as [fs'|e]
    eqn:Hw; [|now left].
  right. split; [reflexivity|]. exists content. exact Hw.
Qed.

Lemma existsSync_lookup_none fs p : existsSync fs p = false -> lookup fs p = None.
Proof. unfold existsSync. now destruct (lookup fs p). Qed.

(** Installing [CLAUDE.md] changes neither where the root is found nor
    what [check] reports. *)
Lemma install_is_invisible `{YamlLoader} templatePath fs docsDir :
  (forall cwd,
      findDocsDir (fst (ensureClaudeDoc templatePath fs docsDir)) cwd
      = findDocsDir fs cwd)
  /\ (forall opts r,
        check (fst (ensureClaudeDoc templatePath fs docsDir)) docsDir opts r
        = check fs docsDir opts r).
Proof.
  destruct (ensureClaudeDoc_cases templatePath fs docsDir)
    as [-> | (Hnew & content & Hw)]; [split; reflexivity|].
  set (fs' := fst (ensureClaudeDoc templatePath fs docsDir)) in *.
  split.
  - intros cwd. apply findDocsDir_frame. intros d rest _ _. unfold has_docs.
    apply (isDirectory_write_new _ _ _ _ _ Hw).
    now apply existsSync_lookup_none.
  - intros opts r. apply check_frame.
    + destruct (exists_write_parent _ _ _ _ _ Hw) as [H1 H2]. congruence.
    + intros child rest Hne.
      apply (lookup_write_sibling _ _ _ _ _ _ _ Hw Hne).
Qed.

Lemma ensureClaudeDoc_twice templatePath fs docsDir :
  fst (ensureClaudeDoc templatePath
         (fst (ensureClaudeDoc templatePath fs docsDir)) docsDir)
  = fst (ensureClaudeDoc templatePath fs docsDir).
Proof.
  destruct (ensureClaudeDoc_cases templatePath fs docsDir)
    as [Hfs | (_ & content & Hw)].
  - now rewrite !Hfs.
  - pose proof (exists_after_write _ _ _ _ Hw) as Hex.
    unfold ensureClaudeDoc at 1. now rewrite Hex.
Qed.

(** The run of the command under a discovered root. *)
Lemma checkCommand_found `{YamlLoader} templatePath cwd opts fs docsDir :
  findDocsDir fs cwd = Some docsDir ->
  Cli.disk (Cli.checkCommand templatePath cwd opts fs)
  = fst (ensureClaudeDoc templatePath fs docsDir)
  /\ Cli.counters (Cli.checkCommand templatePath cwd opts fs)
     = snd (fst (check (fst (ensureClaudeDoc templatePath fs docsDir))
                       docsDir opts result0))
  /\ Cli.exitCode (Cli.checkCommand templatePath cwd opts fs)
     = match fst (fst (check (fst (ensureClaudeDoc templatePath fs docsDir))
                             docsDir opts result0)) with
       | Ret code => code
       | Throw _ => 1
       end.
Proof.
  intros Hfind. unfold Cli.checkCommand. rewrite Hfind.
  destruct (ensureClaudeDoc templatePath fs docsDir) as [fs' out1].
  cbn [fst].
  now destruct (check fs' docsDir opts result0) as [[res r] out2].
Qed.

(** C4. Every run of the [check] command starts [check] with the three
    counters at zero, so its counters are those of [check] on the root
    from zero counters, whatever an earlier run counted. A second run on
    the disk the first one left (the first may have installed
    [CLAUDE.md]) ends with the same counters and the same exit status,
    and leaves the disk as it is. *)
Theorem C4_check_twice_gives_the_same_counters :
  forall `{YamlLoader} (templatePath cwd : path) (opts : CheckCmd.options)
         (fs : node),
    let first := Cli.checkCommand templatePath cwd opts fs in
    let second := Cli.checkCommand templatePath cwd opts (Cli.disk first) in
    Cli.counters second = Cli.counters first
    /\ Cli.exitCode second = Cli.exitCode first
    /\ Cli.disk second = Cli.disk first
    /\ (forall docsDir,
          findDocsDir fs cwd = Some docsDir ->
          Cli.counters first = snd (fst (check fs docsDir opts result0))
          /\ Cli.counters second = snd (fst (check fs docsDir opts result0))).
Proof.
  intros L templatePath cwd opts fs first second.
  destruct (findDocsDir fs cwd) as [docsDir|] eqn:Hfind.
  - destruct (checkCommand_found templatePath cwd opts fs docsDir Hfind)
      as (Hd1 & Hc1 & He1).
    fold first in Hd1, Hc1, He1.
    destruct (install_is_invisible templatePath fs docsDir) as [Hroot Hcheck].
    assert (Hfind' : findDocsDir (Cli.disk first) cwd = Some docsDir)
      by (rewrite Hd1, Hroot; exact Hfind).
    destruct (checkCommand_found templatePath cwd opts (Cli.disk first)
                docsDir Hfind') as (Hd2 & Hc2 & He2).
    fold second in Hd2, Hc2, He2.
    rewrite Hd1, ensureClaudeDoc_twice in Hd2, Hc2, He2.
    assert (Hcounters : Cli.counters second = Cli.counters first)
      by congruence.
    rewrite Hcheck in Hc1.
    repeat split; congruence.
  - assert (Hfirst : first = {| Cli.exitCode := 1;
                                Cli.counters := result0;
                                Cli.stdout :=
                                  ["Error: Could not find docs/ directory";
                                   "Please run this command from a project directory containing a docs/ folder"];
                                Cli.disk := fs |})
      by (subst first; unfold Cli.checkCommand; now rewrite Hfind).
    assert (Hsecond : second = first).
    { subst second. rewrite Hfirst. cbn [Cli.disk].
      unfold Cli.checkCommand. now rewrite Hfind. }
    rewrite Hsecond. repeat split; discriminate.
Qed.

Lemma C4_check_twice_witness :
  existsSync Demo.disk (join Demo.docsDir "CLAUDE.md") = false
  /\ existsSync
       (Cli.disk (Cli.checkCommand (H := Demo.loader) Demo.templatePath Demo.cwd
                    Demo.quiet Demo.disk))
       (join Demo.docsDir "CLAUDE.md") = true
  /\ Cli.counters
       (Cli.checkCommand (H := Demo.loader) Demo.templatePath Demo.cwd
          Demo.quiet
          (Cli.disk (Cli.checkCommand (H := Demo.loader) Demo.templatePath
                       Demo.cwd Demo.quiet Demo.disk)))
     = snd (fst (check (H := Demo.loader) Demo.disk Demo.docsDir Demo.quiet
                   result0)).
Proof.
  split; [reflexivity|]. split; [vm_compute; reflexivity|].
  destruct (C4_check_twice_gives_the_same_counters (H := Demo.loader)
              Demo.templatePath Demo.cwd Demo.quiet Demo.disk)
    as (_ & _ & _ & Hzero).
  apply (Hzero Demo.docsDir). reflexivity.
Defined.

(** [check] itself does not reset the counters: started from counters
    that are not zero it adds to them. Within one process this cannot be
    seen, because [check] ends the process. *)
Example check_adds_to_the_counters_it_finds :
  snd (fst (check (H := Demo.loader) Demo.disk Demo.docsDir Demo.quiet
              {| totalChecks := 8; totalErrors := 0; totalWarnings := 1 |}))
  = {| totalChecks := 16; totalErrors := 0; totalWarnings := 2 |}.
Proof. vm_compute. reflexivity. Qed.

(** A [docs] directory directly under the file-system root is not found:
    the walk stops at the root without looking into it. *)
Example findDocsDir_skips_docs_of_the_root :
  findDocsDir (Dir [("docs", Dir []); ("work", Dir [])]) ["work"] = None
  /\ has_docs (Dir [("docs", Dir []); ("work", Dir [])]) root = true.
Proof. split; reflexivity. Qed.

(* ===================================================================== *)
(** * The model on small inputs *)
(* ===================================================================== *)

Example parseInt_reads_a_leading_integer :
  Js.parseInt "42" = Some 42%Z
  /\ Js.parseInt "  -7px" = Some (-7)%Z
  /\ Js.parseInt "007" = Some 7%Z
  /\ Js.parseInt "px" = None
  /\ Js.parseInt "+" = None.
Proof. repeat split. Qed.

Example get_on_values_that_are_not_mappings :
  Js.get (VStr "abc") "1" = Ret (VStr "b")
  /\ Js.get (VStr "abc") "length" = Ret (VNum 3)
  /\ Js.get (VStr "abc") "01" = Ret VUndefined
  /\ Js.get (VArr [VNum 1]) "0" = Ret (VNum 1)
  /\ Js.get (VObj [("k", VNull)]) "k" = Ret VNull
  /\ Js.get VNull "k" = Throw TypeError.
Proof. repeat split. Qed.

Example basename_cuts_a_proper_yaml_suffix :
  basename_ext ["docs"; "user-flows"; "main.yaml"] ".yaml" = "main"
  /\ basename_ext ["docs"; "user-flows"; "main.yml"] ".yaml" = "main.yml"
  /\ basename_ext ["docs"; "user-flows"; ".yaml"] ".yaml" = ".yaml".
Proof. repeat split. Qed.

Example findYamlFiles_keeps_yaml_files_in_order :
  findYamlFiles
    (Dir [("d", Dir [("b.yml", File ""); ("notes.txt", File "");
                     ("a.yaml", File ""); ("sub.yaml", Dir [])])])
    ["d"]
  = [["d"; "a.yaml"]; ["d"; "b.yml"]]
  /\ findYamlFiles (Dir []) ["missing"] = [].
Proof. split; reflexivity. Qed.

(** A tree in which every category is present and consistent passes
    with no warning. *)
Example check_passes_on_a_consistent_tree :
  fst (check (H := Demo.loader) Demo.disk_clean Demo.docsDir Demo.chatty
         result0)
  = (Ret 0, {| totalChecks := 7; totalErrors := 0; totalWarnings := 0 |}).
Proof. vm_compute. reflexivity. Qed.

(** With an empty [summary] in the PRD the same tree gets one warning,
    which names the PRD and the field, and still status 0. *)
Example check_warns_once_on_an_empty_summary :
  fst (check (H := Demo.loader) Demo.disk_blank_summary Demo.docsDir
         Demo.chatty result0)
  = (Ret 0, {| totalChecks := 7; totalErrors := 0; totalWarnings := 1 |})
  /\ filter is_warning
       (snd (check (H := Demo.loader) Demo.disk_blank_summary Demo.docsDir
               Demo.chatty result0))
     = [warning "PRD: 'summary' is empty in product-requirements.yaml"].
Proof. split; vm_compute; reflexivity. Qed.

(** A verbose run prints more than a quiet one. *)
Example verbose_run_prints_more :
  List.length (snd (check (H := Demo.loader) Demo.disk_clean Demo.docsDir
                      Demo.chatty result0)) = 45
  /\ List.length (snd (check (H := Demo.loader) Demo.disk_clean Demo.docsDir
                         Demo.quiet result0)) = 22.
Proof. split; vm_compute; reflexivity. Qed.

(** A missing documentation directory ends the run at once, with one
    error and status 1. *)
Example check_stops_on_a_missing_directory :
  fst (check (H := Demo.loader) Demo.disk ["home"; "nowhere"] Demo.quiet
         result0)
  = (Ret 1, {| totalChecks := 0; totalErrors := 1; totalWarnings := 0 |}).
Proof. vm_compute. reflexivity. Qed.

(** Without [docs/CLAUDE.md] the template is installed; without the
    template nothing is written. *)
Example ensureClaudeDoc_installs_the_template :
  existsSync (fst (ensureClaudeDoc Demo.templatePath Demo.disk Demo.docsDir))
             (join Demo.docsDir "CLAUDE.md") = true
  /\ snd (ensureClaudeDoc Demo.templatePath Demo.disk Demo.docsDir)
     = ["✓ Installed CLAUDE.md in docs/ directory"]
  /\ ensureClaudeDoc ["nowhere"] Demo.disk Demo.docsDir
     = (Demo.disk,
        ["Warning: CLAUDE.template.md not found, skipping auto-install"]).
Proof. repeat split; vm_compute; reflexivity. Qed.

(* ===================================================================== *)
(** * The error counter counts the missing places *)
(* ===================================================================== *)

Section Adds.
Local Open Scope check_scope.
Variable f : CheckResult -> nat.

Lemma adds_bind {A B} n1 n2 (m : M A) (k : A -> M B) :
  adds f n1 m -> (forall a, adds f n2 (k a)) -> adds f (n1 + n2) (bind m k).
Proof.
  intros Hm Hk r. unfold bind.
  destruct (Hm r) as (a & r1 & o1 & -> & H1).
  destruct (Hk a r1) as (b & r2 & o2 & -> & H2).
  do 3 eexists. split; [reflexivity | lia].
Qed.

Lemma adds_ret {A} (a : A) : adds f 0 (ret a).
Proof. intros r. unfold ret. eauto. Qed.

Lemma adds_lift {A} (o : outcome A) :
  (exists a, o = Ret a) -> adds f 0 (lift o).
Proof. intros [a ->] r. unfold lift. eauto. Qed.

Lemma adds_console_log line : adds f 0 (console_log line).
Proof. intros r. unfold console_log. eauto. Qed.

Lemma adds_read : adds f 0 read.
Proof. intros r. unfold read. eauto. Qed.

Lemma adds_when b m : adds f 0 m -> adds f 0 (when b m).
Proof. intros Hm. destruct b; simpl; [exact Hm | apply adds_ret]. Qed.

Lemma adds_forEach {A} (cb : A -> M unit) (l : list A) :
  (forall x, In x l -> adds f 0 (cb x)) -> adds f 0 (forEach cb l).
Proof.
  induction l as [|x l IH]; intros Hcb; simpl.
  - apply adds_ret.
  - apply (adds_bind 0 0); [apply Hcb; now left | intros _].
    apply IH. intros y Hy. apply Hcb. now right.
Qed.

Lemma adds_forEachAcc {A S} (cb : A -> S -> M S) (l : list A) (s : S) :
  (forall x s', In x l -> adds f 0 (cb x s')) -> adds f 0 (forEachAcc cb l s).
Proof.
  revert s. induction l as [|x l IH]; intros s Hcb; simpl.
  - apply adds_ret.
  - apply (adds_bind 0 0); [apply Hcb; now left | intros s'].
    apply IH. intros y t Hy. apply Hcb. now right.
Qed.

Lemma adds_logPass message verbose : adds f 0 (logPass message verbose).
Proof. unfold logPass. apply adds_when, adds_console_log. Qed.

Lemma adds_logInfo message verbose : adds f 0 (logInfo message verbose).
Proof. unfold logInfo. apply adds_when, adds_console_log. Qed.

Lemma adds_logCheck message verbose :
  (forall r, f (incrChecks r) = f r) -> adds f 0 (logCheck message verbose).
Proof.
  intros Hf r. unfold logCheck, bind, modify, when, console_log, ret.
  destruct verbose; do 3 eexists; (split; [reflexivity | apply Hf]).
Qed.

Lemma adds_logWarn n message :
  (forall r, f (incrWarnings r) = n + f r) -> adds f n (logWarn message).
Proof.
  intros Hf r. unfold logWarn, bind, modify, console_log.
  do 3 eexists; (split; [reflexivity | apply Hf]).
Qed.

Lemma adds_logError n message hint :
  (forall r, f (incrErrors r) = n + f r) -> adds f n (logError message hint).
Proof.
  intros Hf r. unfold logError, bind, modify, when, console_log, ret.
  destruct hint as [h|]; [destruct (nonempty h)|];
    do 3 eexists; (split; [reflexivity | apply Hf]).
Qed.

Lemma adds_generateSummary : adds f 0 generateSummary.
Proof. intros r. destruct (generateSummary_run r) as [out ->]. eauto. Qed.
End Adds.

(** One step of a proof that a computation leaves a counter alone:
    follow the shape of the program, [absurd] closing the branches the
    context excludes. *)
Ltac adds_step absurd :=
  lazy zeta;
  match goal with
  | |- adds _ 0 (bind _ _) => apply (adds_bind _ 0 0); [|intros]
  | |- adds _ 0 (ret _) => apply adds_ret
  | |- adds _ 0 (console_log _) => apply adds_console_log
  | |- adds _ 0 read => apply adds_read
  | |- adds _ 0 (when _ _) => apply adds_when
  | |- adds _ 0 (logPass _ _) => apply adds_logPass
  | |- adds _ 0 (logInfo _ _) => apply adds_logInfo
  | |- adds _ 0 (logCheck _ _) => apply adds_logCheck; intros; reflexivity
  | |- adds _ 0 (logWarn _) => apply (adds_logWarn _ 0); intros; reflexivity
  | |- adds _ 0 (logError _ _) =>
      apply (adds_logError _ 0); intros; reflexivity
  | |- adds _ 0 (forEach _ _) => apply adds_forEach; intros
  | |- adds _ 0 (forEachAcc _ _ _) => apply adds_forEachAcc; intros
  | |- adds _ 0 (lift _) => apply adds_lift
  | |- adds _ 0 (if ?c then _ else _) =>
      destruct c eqn:?; try (exfalso; absurd)
  | Ht : Js.truthy ?v = true |- _ => apply truthy_falsy in Ht
  | |- exists _, getString _ _ = Ret _ => apply getString_truthy; assumption
  | |- exists _, getArray _ _ = Ret _ => apply getArray_truthy; assumption
  | |- exists _, getNestedString _ _ _ = Ret _ =>
      apply getNestedString_truthy; assumption
  | |- exists _, Js.get _ _ = Ret _ => apply get_truthy; assumption
  | |- exists _, Js.keys_length _ = Ret _ =>
      apply keys_length_truthy; assumption
  | |- exists _, (if ?c then _ else _) = Ret _ => destruct c eqn:?
  | |- exists _, Ret _ = Ret _ => eexists; reflexivity
  | |- exists _, Js.some _ _ = Ret _ =>
      apply some_returns; intros; apply declaresFeature_returns
  | |- exists _, Js.mapO _ _ = Ret _ =>
      apply mapO_returns; intros; apply featureIdOf_returns
  end.

Ltac keeps_tac := repeat (first [solve [auto] | adds_step fail]).

Section Errors.
Context `{YamlLoader}.
Local Open Scope check_scope.

Lemma keeps_checkYamlField fs file field label :
  adds totalErrors 0 (checkYamlField fs file field label).
Proof. unfold checkYamlField. keeps_tac. Qed.

Lemma adds_checkFileExists fs file label verbose templateType :
  adds totalErrors (missing1 fs file)
       (checkFileExists fs file label verbose templateType).
Proof.
  unfold checkFileExists, missing1.
  destruct (existsSync fs file).
  - keeps_tac.
  - apply (adds_bind _ 0 1); [keeps_tac | intros _].
    apply (adds_bind _ 1 0); [|intros _; apply adds_ret].
    apply adds_logError. reflexivity.
Qed.

(** The shape shared by the single-file categories. *)
Lemma adds_single_file {A} fs file label verbose templateType header
    (rest : M A) (none : M A) :
  adds totalErrors 0 rest -> adds totalErrors 0 none ->
  adds totalErrors (missing1 fs file)
    (console_log header ;;
     found <- checkFileExists fs file label verbose templateType ;;
     if negb found then none else rest).
Proof.
  intros Hrest Hnone.
  apply (adds_bind _ 0 (missing1 fs file)); [apply adds_console_log | intros _].
  replace (missing1 fs file) with (missing1 fs file + 0) by lia.
  apply (adds_bind _ (missing1 fs file) 0); [apply adds_checkFileExists|].
  intros found. now destruct found.
Qed.

(** The shape shared by the directory categories. *)
Lemma adds_directory fs dir header message hint (rest : M unit) :
  adds totalErrors 0 rest ->
  adds totalErrors (missing1 fs dir)
    (console_log header ;;
     if negb (existsSync fs dir) then logError message hint else rest).
Proof.
  intros Hrest.
  apply (adds_bind _ 0 (missing1 fs dir)); [apply adds_console_log | intros _].
  unfold missing1. destruct (existsSync fs dir); simpl; [exact Hrest|].
  apply adds_logError. reflexivity.
Qed.

Lemma adds_checkPrd fs docsDir verbose :
  adds totalErrors (missing1 fs (join docsDir "product-requirements.yaml"))
       (checkPrd fs docsDir verbose).
Proof.
  pose proof keeps_checkYamlField.
  unfold checkPrd. apply adds_single_file; keeps_tac.
Qed.

Lemma adds_checkUserFlows fs docsDir verbose :
  adds totalErrors (missing1 fs (join docsDir "user-flows"))
       (checkUserFlows fs docsDir verbose).
Proof. unfold checkUserFlows, flowStep. apply adds_directory. keeps_tac. Qed.

Lemma adds_checkUserStories fs docsDir verbose :
  adds totalErrors (missing1 fs (join docsDir "user-stories"))
       (checkUserStories fs docsDir verbose).
Proof.
  unfold checkUserStories, storyStep. apply adds_directory. keeps_tac.
Qed.

Lemma adds_checkFeatureSpecs fs docsDir verbose :
  adds totalErrors (missing1 fs (join docsDir "feature-specs"))
       (checkFeatureSpecs fs docsDir verbose).
Proof.
  pose proof keeps_checkYamlField.
  unfold checkFeatureSpecs, featureStep. apply adds_directory. keeps_tac.
Qed.

Lemma adds_checkSystemDesign fs docsDir verbose :
  adds totalErrors (missing1 fs (join docsDir "system-design.yaml"))
       (checkSystemDesign fs docsDir verbose).
Proof.
  pose proof keeps_checkYamlField.
  unfold checkSystemDesign. apply adds_single_file; keeps_tac.
Qed.

Lemma adds_checkApiContracts fs docsDir verbose :
  adds totalErrors (missing1 fs (join docsDir "api-contracts.yaml"))
       (checkApiContracts fs docsDir verbose).
Proof. unfold checkApiContracts. apply adds_single_file; keeps_tac. Qed.

Lemma adds_checkDataPlan fs docsDir verbose :
  adds totalErrors (missing1 fs (join docsDir "data-plan.yaml"))
       (checkDataPlan fs docsDir verbose).
Proof. unfold checkDataPlan. apply adds_single_file; keeps_tac. Qed.

Lemma adds_checkDesignSpec fs docsDir verbose :
  adds totalErrors (missing1 fs (join docsDir "design-spec.yaml"))
       (checkDesignSpec fs docsDir verbose).
Proof.
  pose proof keeps_checkYamlField.
  unfold checkDesignSpec. apply adds_single_file; keeps_tac.
Qed.

Lemma keeps_checkCrossReferences fs docsDir checkLinks verbose :
  adds totalErrors 0 (checkCrossReferences fs docsDir checkLinks verbose).
Proof. unfold checkCrossReferences, specStep, storyRefStep. keeps_tac. Qed.

Lemma length_filter_cons {A} (p : A -> bool) (x : A) (l : list A) :
  List.length (filter p (x :: l))
  = (if p x then 1 else 0) + List.length (filter p l).
Proof. simpl. now destruct (p x). Qed.

Lemma missing1_negb fs p :
  (if negb (existsSync fs p) then 1 else 0) = missing1 fs p.
Proof. unfold missing1. now destruct (existsSync fs p). Qed.

Lemma missing_places_count fs docsDir :
  List.length (missing_places fs docsDir)
  = missing1 fs (join docsDir "product-requirements.yaml")
    + (missing1 fs (join docsDir "user-flows")
    + (missing1 fs (join docsDir "user-stories")
    + (missing1 fs (join docsDir "feature-specs")
    + (missing1 fs (join docsDir "system-design.yaml")
    + (missing1 fs (join docsDir "api-contracts.yaml")
    + (missing1 fs (join docsDir "data-plan.yaml")
    + (missing1 fs (join docsDir "design-spec.yaml")
    + (0 + 0)))))))).
Proof.
  unfold missing_places, required_places.
  rewrite !length_filter_cons, !missing1_negb. reflexivity.
Qed.

Lemma adds_check fs docsDir opts :
  existsSync fs docsDir = true ->
  adds totalErrors (List.length (missing_places fs docsDir))
       (check fs docsDir opts).
Proof.
  intros Hroot. unfold check. rewrite Hroot. cbn [negb].
  do 5 (apply (adds_bind _ 0); [apply adds_console_log | intros _]).
  rewrite missing_places_count.
  apply (adds_bind totalErrors); [apply adds_checkPrd | intros _].
  apply (adds_bind totalErrors); [apply adds_checkUserFlows | intros _].
  apply (adds_bind totalErrors); [apply adds_checkUserStories | intros _].
  apply (adds_bind totalErrors); [apply adds_checkFeatureSpecs | intros _].
  apply (adds_bind totalErrors); [apply adds_checkSystemDesign | intros _].
  apply (adds_bind totalErrors); [apply adds_checkApiContracts | intros _].
  apply (adds_bind totalErrors); [apply adds_checkDataPlan | intros _].
  apply (adds_bind totalErrors); [apply adds_checkDesignSpec | intros _].
  apply (adds_bind totalErrors); [apply keeps_checkCrossReferences | intros _].
  apply adds_generateSummary.
Qed.
End Errors.

(** X1. Under a root that exists, [check] adds to the error counter the
    number of the eight required places that are missing, whatever the
    options and whatever the files hold; started with no error, it ends
    with status 0 exactly when none of the eight is missing. *)
Theorem X1_check_errors_are_the_missing_places :
  forall `{YamlLoader} (fs : node) (docsDir : path) (opts : CheckCmd.options)
         (r : CheckResult),
    existsSync fs docsDir = true ->
    exists code r' out,
      check fs docsDir opts r = (Ret code, r', out)
      /\ totalErrors r' = totalErrors r + List.length (missing_places fs docsDir)
      /\ (totalErrors r = 0 -> (code = 0 <-> missing_places fs docsDir = [])).
Proof.
  intros L fs docsDir opts r Hroot.
  destruct (adds_check fs docsDir opts Hroot r) as (code & r' & out & Hrun & He).
  destruct (check_exit fs docsDir opts r) as (code' & r'' & out' & Hrun' & Hiff).
  rewrite Hrun in Hrun'. injection Hrun' as <- <- <-.
  exists code, r', out. split; [exact Hrun|]. split; [lia|].
  intros Hzero. rewrite Hiff, He, Hzero.
  destruct (missing_places fs docsDir); simpl; split; congruence.
Qed.

Lemma X1_check_errors_witness :
  existsSync Demo.disk_documented Demo.docsDir = true
  /\ totalErrors (snd (fst (check (H := Demo.loader) Demo.disk_documented
                              Demo.docsDir Demo.quiet result0))) = 7.
Proof.
  split; [reflexivity|].
  destruct (X1_check_errors_are_the_missing_places (H := Demo.loader)
              Demo.disk_documented Demo.docsDir Demo.quiet result0 eq_refl)
    as (code & r' & out & Hrun & He & Hexit).
  rewrite Hrun. exact He.
Defined.

(* ===================================================================== *)
(** * Files that hold no data *)
(* ===================================================================== *)

Section Garbage.
Context `{YamlLoader}.
Local Open Scope check_scope.
Variables (fs : node) (docsDir : path) (docs : node).
Hypothesis docs_found : lookup fs docsDir = Some docs.
Hypothesis nothing_parses : all_files holds_no_data docs = true.

Lemma lookup_app n p q :
  lookup n (p ++ q)%list
  = match lookup n p with Some m => lookup m q | None => None end.
Proof.
  revert n. induction p as [|a p IH]; intros n; [reflexivity|].
  cbn [app lookup]. destruct n as [|es]; [reflexivity|].
  destruct (Js.assoc a es); [apply IH | reflexivity].
Qed.

Lemma all_files_lookup p n q content :
  all_files p n = true -> lookup n q = Some (File content) ->
  p content = true.
Proof.
  revert n. induction q as [|a q IH]; intros n Hall Hl.
  - injection Hl as ->. exact Hall.
  - cbn [lookup] in Hl. destruct n as [|es]; [discriminate|].
    cbn [all_files] in Hall.
    induction es as [|[k v] es IHes]; [discriminate|].
    apply andb_prop in Hall. destruct Hall as [Hv Hes].
    cbn [Js.assoc] in Hl. destruct (String.eqb k a).
    + exact (IH _ Hv Hl).
    + exact (IHes Hes Hl).
Qed.

Lemma loads_nothing rest :
  Js.falsy (loadYaml fs (docsDir ++ rest)%list) = true.
Proof.
  unfold loadYaml, readFileSync. rewrite lookup_app, docs_found.
  destruct (lookup docs rest) as [[content|es]|] eqn:Hl; try reflexivity.
  pose proof (all_files_lookup _ _ _ _ nothing_parses Hl) as Hno.
  unfold holds_no_data in Hno.
  now destruct (yaml_load content).
Qed.

Lemma loads_nothing_at place :
  Js.falsy (loadYaml fs (join docsDir place)) = true.
Proof. apply loads_nothing. Qed.

Lemma loads_nothing_in place file :
  In file (findYamlFiles fs (join docsDir place)) ->
  Js.falsy (loadYaml fs file) = true.
Proof.
  intros Hin. apply findYamlFiles_children in Hin. destruct Hin as [nm ->].
  unfold join. rewrite <- app_assoc. apply loads_nothing.
Qed.

(** The branch that needs a loaded document is never taken. *)
Ltac no_data :=
  idtac;
  first
    [ congruence
    | match goal with
      | Hno : Js.falsy ?v = true, E : Js.truthy ?v = true |- _ =>
          unfold Js.truthy in E; rewrite Hno in E; discriminate
      end ].

Ltac quiet_tac := repeat (first [solve [auto] | adds_step no_data]).

Lemma quiet_checkYamlField file field label :
  Js.falsy (loadYaml fs file) = true ->
  adds totalWarnings 0 (checkYamlField fs file field label).
Proof. intros Hno. unfold checkYamlField. quiet_tac. Qed.

Lemma quiet_checkFileExists file label verbose templateType :
  adds totalWarnings 0 (checkFileExists fs file label verbose templateType).
Proof. unfold checkFileExists. quiet_tac. Qed.

Lemma quiet_checkPrd verbose : adds totalWarnings 0 (checkPrd fs docsDir verbose).
Proof.
  pose proof (loads_nothing_at "product-requirements.yaml") as Hno.
  pose proof (fun field label => quiet_checkYamlField _ field label Hno).
  pose proof quiet_checkFileExists.
  unfold checkPrd. quiet_tac.
Qed.

Lemma quiet_checkSystemDesign verbose :
  adds totalWarnings 0 (checkSystemDesign fs docsDir verbose).
Proof.
  pose proof (loads_nothing_at "system-design.yaml") as Hno.
  pose proof (fun field label => quiet_checkYamlField _ field label Hno).
  pose proof quiet_checkFileExists.
  unfold checkSystemDesign. quiet_tac.
Qed.

Lemma quiet_checkApiContracts verbose :
  adds totalWarnings 0 (checkApiContracts fs docsDir verbose).
Proof.
  pose proof (loads_nothing_at "api-contracts.yaml") as Hno.
  pose proof quiet_checkFileExists.
  unfold checkApiContracts. quiet_tac.
Qed.

Lemma quiet_checkDataPlan verbose :
  adds totalWarnings 0 (checkDataPlan fs docsDir verbose).
Proof.
  pose proof (loads_nothing_at "data-plan.yaml") as Hno.
  pose proof quiet_checkFileExists.
  unfold checkDataPlan. quiet_tac.
Qed.

Lemma quiet_checkDesignSpec verbose :
  adds totalWarnings 0 (checkDesignSpec fs docsDir verbose).
Proof.
  pose proof (loads_nothing_at "design-spec.yaml") as Hno.
  pose proof (fun field label => quiet_checkYamlField _ field label Hno).
  pose proof quiet_checkFileExists.
  unfold checkDesignSpec. quiet_tac.
Qed.

(** The shape shared by the directory categories when the directory is
    there. *)
Lemma warns_directory dir header message hint info verbose warn
    (rest : M unit) :
  existsSync fs dir = true ->
  adds totalWarnings 0 rest ->
  adds totalWarnings (no_files fs dir)
    (console_log header ;;
     if negb (existsSync fs dir) then logError message hint
     else
       logInfo info verbose ;;
       if Nat.eqb (List.length (findYamlFiles fs dir)) 0 then logWarn warn
       else rest).
Proof.
  intros Hex Hrest. rewrite Hex. cbn [negb].
  apply (adds_bind _ 0 (no_files fs dir)); [apply adds_console_log | intros _].
  apply (adds_bind _ 0 (no_files fs dir)); [apply adds_logInfo | intros _].
  unfold no_files. destruct (Nat.eqb _ 0); [|exact Hrest].
  apply adds_logWarn. reflexivity.
Qed.

Hypothesis all_present : missing_places fs docsDir = [].

Lemma place_present place :
  In place required_places -> existsSync fs (join docsDir place) = true.
Proof.
  intros Hin. unfold missing_places in all_present.
  destruct (existsSync fs (join docsDir place)) eqn:Hex; [reflexivity|].
  assert (Hmiss : In place (filter (fun place =>
                     negb (existsSync fs (join docsDir place)))
                   required_places))
    by (apply filter_In; split; [exact Hin | now rewrite Hex]).
  rewrite all_present in Hmiss. contradiction.
Qed.

Lemma warns_checkUserFlows verbose :
  adds totalWarnings (no_files fs (join docsDir "user-flows"))
       (checkUserFlows fs docsDir verbose).
Proof.
  unfold checkUserFlows. apply warns_directory.
  - apply place_present. simpl. tauto.
  - apply adds_forEach. intros file Hin.
    pose proof (loads_nothing_in _ _ Hin) as Hno.
    unfold flowStep. quiet_tac.
Qed.

Lemma warns_checkUserStories verbose :
  adds totalWarnings (no_files fs (join docsDir "user-stories"))
       (checkUserStories fs docsDir verbose).
Proof.
  unfold checkUserStories. apply warns_directory.
  - apply place_present. simpl. tauto.
  - apply (adds_bind _ 0 0); [|intros t; quiet_tac].
    apply adds_forEachAcc. intros file t Hin.
    pose proof (loads_nothing_in _ _ Hin) as Hno.
    unfold storyStep. quiet_tac.
Qed.

Lemma warns_checkFeatureSpecs verbose :
  adds totalWarnings (no_files fs (join docsDir "feature-specs"))
       (checkFeatureSpecs fs docsDir verbose).
Proof.
  unfold checkFeatureSpecs. apply warns_directory.
  - apply place_present. simpl. tauto.
  - apply (adds_bind _ 0 0); [|intros t; quiet_tac].
    apply adds_forEachAcc. intros file t Hin.
    pose proof (loads_nothing_in _ _ Hin) as Hno.
    unfold featureStep. quiet_tac.
Qed.

Lemma warns_checkCrossReferences (checkLinks verbose : bool) :
  adds totalWarnings (if checkLinks then 1 else 0)
       (checkCrossReferences fs docsDir checkLinks verbose).
Proof.
  unfold checkCrossReferences. destruct checkLinks; cbn [negb];
    [|apply adds_ret].
  apply (adds_bind _ 0 1); [apply adds_console_log | intros _].
  lazy zeta. rewrite loads_nothing_at.
  apply adds_logWarn. reflexivity.
Qed.

Lemma empty_directories_count :
  List.length (empty_directories fs docsDir)
  = no_files fs (join docsDir "user-flows")
    + (no_files fs (join docsDir "user-stories")
       + no_files fs (join docsDir "feature-specs")).
Proof.
  unfold empty_directories, no_files. cbn [filter].
  repeat match goal with
         | |- context [Nat.eqb ?n 0] => destruct (Nat.eqb n 0)
         end; reflexivity.
Qed.

Lemma warns_check (opts : CheckCmd.options) :
  adds totalWarnings
       (List.length (empty_directories fs docsDir)
        + (if CheckCmd.checkLinks opts then 1 else 0))
       (check fs docsDir opts).
Proof.
  assert (Hroot : existsSync fs docsDir = true)
    by (unfold existsSync; now rewrite docs_found).
  unfold check. rewrite Hroot. cbn [negb].
  do 5 (apply (adds_bind _ 0); [apply adds_console_log | intros _]).
  apply (adds_bind _ 0); [apply quiet_checkPrd | intros _].
  rewrite empty_directories_count, <- !Nat.add_assoc.
  apply (adds_bind totalWarnings); [apply warns_checkUserFlows | intros _].
  apply (adds_bind totalWarnings); [apply warns_checkUserStories | intros _].
  apply (adds_bind totalWarnings); [apply warns_checkFeatureSpecs | intros _].
  apply (adds_bind _ 0); [apply quiet_checkSystemDesign | intros _].
  apply (adds_bind _ 0); [apply quiet_checkApiContracts | intros _].
  apply (adds_bind _ 0); [apply quiet_checkDataPlan | intros _].
  apply (adds_bind _ 0); [apply quiet_checkDesignSpec | intros _].
  replace (if CheckCmd.checkLinks opts then 1 else 0)
    with ((if CheckCmd.checkLinks opts then 1 else 0) + 0) by lia.
  apply (adds_bind totalWarnings);
    [apply warns_checkCrossReferences | intros _].
  apply adds_generateSummary.
Qed.
End Garbage.

(** X3. [check] never asks whether a file parses. On a root where the
    eight required places exist and no file holds data (each is
    rejected by the parser or is an empty document), it adds no error;
    it adds one warning for each category directory without YAML files
    and, when cross references are checked, one for the PRD; started
    with no error it ends with status 0. *)
Theorem X3_check_passes_files_that_hold_no_data :
  forall `{YamlLoader} (fs : node) (docsDir : path) (docs : node)
         (opts : CheckCmd.options) (r : CheckResult),
    lookup fs docsDir = Some docs ->
    all_files holds_no_data docs = true ->
    missing_places fs docsDir = [] ->
    exists code r' out,
      check fs docsDir opts r = (Ret code, r', out)
      /\ totalErrors r' = totalErrors r
      /\ totalWarnings r'
         = totalWarnings r + List.length (empty_directories fs docsDir)
           + (if CheckCmd.checkLinks opts then 1 else 0)
      /\ (totalErrors r = 0 -> code = 0).
Proof.
  intros L fs docsDir docs opts r Hdocs Hall Hpresent.
  assert (Hroot : existsSync fs docsDir = true)
    by (unfold existsSync; now rewrite Hdocs).
  destruct (warns_check fs docsDir docs Hdocs Hall Hpresent opts r)
    as (code & r' & out & Hrun & Hw).
  destruct (adds_check fs docsDir opts Hroot r)
    as (code1 & r1 & out1 & Hrun1 & He).
  destruct (check_exit fs docsDir opts r) as (code2 & r2 & out2 & Hrun2 & Hiff).
  rewrite Hrun in Hrun1, Hrun2.
  injection Hrun1 as <- <- <-. injection Hrun2 as <- <- <-.
  rewrite Hpresent in He. simpl in He.
  exists code, r', out.
  split; [exact Hrun|]. split; [lia|]. split; [lia|].
  intros Hzero. apply Hiff. lia.
Qed.

Lemma X3_check_passes_witness :
  lookup Demo.disk_garbage Demo.docsDir = Some Demo.garbage_docs
  /\ all_files (holds_no_data (H := Demo.loader)) Demo.garbage_docs = true
  /\ missing_places Demo.disk_garbage Demo.docsDir = []
  /\ fst (fst (check (H := Demo.loader) Demo.disk_garbage Demo.docsDir
                 Demo.quiet result0)) = Ret 0
  /\ totalWarnings (snd (fst (check (H := Demo.loader) Demo.disk_garbage
                                Demo.docsDir Demo.quiet result0))) = 2.
Proof.
  split; [reflexivity|]. split; [reflexivity|]. split; [reflexivity|].
  destruct (X3_check_passes_files_that_hold_no_data (H := Demo.loader)
              Demo.disk_garbage Demo.docsDir Demo.garbage_docs Demo.quiet
              result0 eq_refl eq_refl eq_refl)
    as (code & r' & out & Hrun & He & Hw & Hexit).
  rewrite Hrun. cbn [fst snd]. split; [|exact Hw].
  now rewrite (Hexit eq_refl).
Defined.

(* ===================================================================== *)
(** * The counters count the calls of console.log *)
(* ===================================================================== *)

Create HintDb tallies.

Section Tallies.
Context `{YamlLoader}.
Local Open Scope check_scope.
Variable verbose : bool.

Lemma count_calls_app p (o1 o2 : list string) :
  count_calls p (o1 ++ o2)%list = count_calls p o1 + count_calls p o2.
Proof. unfold count_calls. now rewrite filter_app, length_app. Qed.

Lemma tallies_ret {A} (a : A) : tallies verbose (ret a).
Proof.
  intros r. unfold ret. do 3 eexists. split; [reflexivity|].
  unfold count_calls. simpl. repeat split; intros; lia.
Qed.

Lemma tallies_bind {A B} (m : M A) (k : A -> M B) :
  tallies verbose m -> (forall a, tallies verbose (k a)) ->
  tallies verbose (bind m k).
Proof.
  intros Hm Hk r. unfold bind.
  destruct (Hm r) as (a & r1 & o1 & -> & Hw1 & He1 & Hc1).
  destruct (Hk a r1) as (b & r2 & o2 & -> & Hw2 & He2 & Hc2).
  do 3 eexists. split; [reflexivity|].
  rewrite !count_calls_app. repeat split; try lia.
  intros Hv. specialize (Hc1 Hv). specialize (Hc2 Hv). lia.
Qed.

Lemma tallies_lift {A} (o : outcome A) :
  (exists a, o = Ret a) -> tallies verbose (lift o).
Proof. intros [a ->]. apply (tallies_ret a). Qed.

Lemma tallies_read : tallies verbose read.
Proof.
  intros r. unfold read. do 3 eexists. split; [reflexivity|].
  unfold count_calls. simpl. repeat split; intros; lia.
Qed.

Lemma tallies_console_log line : plain line -> tallies verbose (console_log line).
Proof.
  intros (Hw & He & Hc) r. unfold console_log.
  do 3 eexists. split; [reflexivity|].
  unfold count_calls. simpl. rewrite Hw, He, Hc. simpl.
  repeat split; intros; lia.
Qed.

Lemma tallies_when b m : tallies verbose m -> tallies verbose (when b m).
Proof. intros Hm. destruct b; simpl; [exact Hm | apply tallies_ret]. Qed.

Lemma tallies_forEach {A} (cb : A -> M unit) (l : list A) :
  (forall x, tallies verbose (cb x)) -> tallies verbose (forEach cb l).
Proof.
  intros Hcb. induction l as [|x l IH]; simpl.
  - apply tallies_ret.
  - apply tallies_bind; [apply Hcb | intros _; exact IH].
Qed.

Lemma tallies_forEachAcc {A S} (cb : A -> S -> M S) (l : list A) (s : S) :
  (forall x s', tallies verbose (cb x s')) ->
  tallies verbose (forEachAcc cb l s).
Proof.
  intros Hcb. revert s. induction l as [|x l IH]; intros s; simpl.
  - apply tallies_ret.
  - apply tallies_bind; [apply Hcb | intros s'; apply IH].
Qed.

Lemma tallies_logCheck message : tallies verbose (logCheck message verbose).
Proof.
  intros r. unfold logCheck, bind, modify, when, console_log, ret.
  destruct verbose; do 3 eexists; (split; [reflexivity|]);
    unfold count_calls; simpl; repeat split; intros; try lia; discriminate.
Qed.

Lemma tallies_logPass message v : tallies verbose (logPass message v).
Proof.
  unfold logPass. apply tallies_when, tallies_console_log. now repeat split.
Qed.

Lemma tallies_logInfo message v : tallies verbose (logInfo message v).
Proof.
  unfold logInfo. apply tallies_when, tallies_console_log. now repeat split.
Qed.

Lemma tallies_logWarn message : tallies verbose (logWarn message).
Proof.
  intros r. unfold logWarn, bind, modify, console_log.
  do 3 eexists. split; [reflexivity|].
  unfold count_calls. simpl. repeat split; intros; lia.
Qed.

Lemma tallies_logError message hint : tallies verbose (logError message hint).
Proof.
  intros r. unfold logError, bind, modify, when, console_log, ret.
  destruct hint as [h|]; [destruct (nonempty h)|];
    do 3 eexists; (split; [reflexivity|]);
    unfold count_calls; simpl; repeat split; intros; lia.
Qed.

#[local] Hint Resolve tallies_logCheck tallies_logPass tallies_logInfo
  tallies_logWarn tallies_logError tallies_read : tallies.

(** One step of a proof that the counters follow the lines printed. *)
Ltac tallies_step :=
  lazy zeta;
  match goal with
  | |- tallies _ (bind _ _) => apply tallies_bind; [|intros]
  | |- tallies _ (ret _) => apply tallies_ret
  | |- tallies _ (console_log _) =>
      apply tallies_console_log; repeat split; reflexivity
  | |- tallies _ (when _ _) => apply tallies_when
  | |- tallies _ (forEach _ _) => apply tallies_forEach; intros
  | |- tallies _ (forEachAcc _ _ _) => apply tallies_forEachAcc; intros
  | |- tallies _ (lift _) => apply tallies_lift
  | |- tallies _ (if ?c then _ else _) => destruct c eqn:?
  | |- tallies _ (match ?h with Some _ => _ | None => _ end) => destruct h
  | Ht : Js.truthy ?v = true |- _ => apply truthy_falsy in Ht
  | |- exists _, getString _ _ = Ret _ => apply getString_truthy; assumption
  | |- exists _, getArray _ _ = Ret _ => apply getArray_truthy; assumption
  | |- exists _, getNestedString _ _ _ = Ret _ =>
      apply getNestedString_truthy; assumption
  | |- exists _, Js.get _ _ = Ret _ => apply get_truthy; assumption
  | |- exists _, Js.keys_length _ = Ret _ =>
      apply keys_length_truthy; assumption
  | |- exists _, (if ?c then _ else _) = Ret _ => destruct c eqn:?
  | |- exists _, Ret _ = Ret _ => eexists; reflexivity
  | |- exists _, Js.some _ _ = Ret _ =>
      apply some_returns; intros; apply declaresFeature_returns
  | |- exists _, Js.mapO _ _ = Ret _ =>
      apply mapO_returns; intros; apply featureIdOf_returns
  end.

Ltac tallies_tac := repeat (first [solve [auto with tallies] | tallies_step]).

Lemma tallies_checkFileExists fs file label templateType :
  tallies verbose (checkFileExists fs file label verbose templateType).
Proof. unfold checkFileExists. tallies_tac. Qed.

Lemma tallies_checkYamlField fs file field label :
  tallies verbose (checkYamlField fs file field label).
Proof. unfold checkYamlField. tallies_tac. Qed.

#[local] Hint Resolve tallies_checkFileExists tallies_checkYamlField : tallies.

Lemma tallies_checkPrd fs docsDir : tallies verbose (checkPrd fs docsDir verbose).
Proof. unfold checkPrd. tallies_tac. Qed.

Lemma tallies_checkUserFlows fs docsDir :
  tallies verbose (checkUserFlows fs docsDir verbose).
Proof. unfold checkUserFlows, flowStep. tallies_tac. Qed.

Lemma tallies_checkUserStories fs docsDir :
  tallies verbose (checkUserStories fs docsDir verbose).
Proof. unfold checkUserStories, storyStep. tallies_tac. Qed.

Lemma tallies_checkFeatureSpecs fs docsDir :
  tallies verbose (checkFeatureSpecs fs docsDir verbose).
Proof. unfold checkFeatureSpecs, featureStep. tallies_tac. Qed.

Lemma tallies_checkSystemDesign fs docsDir :
  tallies verbose (checkSystemDesign fs docsDir verbose).
Proof. unfold checkSystemDesign. tallies_tac. Qed.

Lemma tallies_checkApiContracts fs docsDir :
  tallies verbose (checkApiContracts fs docsDir verbose).
Proof. unfold checkApiContracts. tallies_tac. Qed.

Lemma tallies_checkDataPlan fs docsDir :
  tallies verbose (checkDataPlan fs docsDir verbose).
Proof. unfold checkDataPlan. tallies_tac. Qed.

Lemma tallies_checkDesignSpec fs docsDir :
  tallies verbose (checkDesignSpec fs docsDir verbose).
Proof. unfold checkDesignSpec. tallies_tac. Qed.

Lemma tallies_checkCrossReferences fs docsDir checkLinks :
  tallies verbose (checkCrossReferences fs docsDir checkLinks verbose).
Proof. unfold checkCrossReferences, specStep, storyRefStep. tallies_tac. Qed.

Lemma tallies_generateSummary : tallies verbose generateSummary.
Proof. unfold generateSummary. tallies_tac. Qed.

Lemma tallies_check fs docsDir checkLinks format :
  tallies verbose
    (check fs docsDir {| CheckCmd.verbose := verbose;
                         CheckCmd.checkLinks := checkLinks;
                         CheckCmd.format := format |}).
Proof.
  unfold check. cbn [CheckCmd.verbose CheckCmd.checkLinks].
  pose proof tallies_checkPrd. pose proof tallies_checkUserFlows.
  pose proof tallies_checkUserStories. pose proof tallies_checkFeatureSpecs.
  pose proof tallies_checkSystemDesign. pose proof tallies_checkApiContracts.
  pose proof tallies_checkDataPlan. pose proof tallies_checkDesignSpec.
  pose proof tallies_checkCrossReferences. pose proof tallies_generateSummary.
  tallies_tac.
Qed.
End Tallies.

Lemma ensureClaudeDoc_lines_plain templatePath fs docsDir :
  Forall plain (snd (ensureClaudeDoc templatePath fs docsDir)).
Proof.
  unfold ensureClaudeDoc.
  destruct (existsSync fs (join docsDir "CLAUDE.md")); [constructor|].
  destruct (negb (existsSync fs templatePath));
    [repeat constructor|].
  destruct (Js.obind _ _); repeat constructor.
Qed.

Lemma count_calls_plain p (out : list string) :
  Forall (fun line => p line = false) out -> count_calls p out = 0.
Proof.
  unfold count_calls. induction 1 as [|line out Hline _ IH]; simpl;
    [reflexivity | now rewrite Hline].
Qed.

(** X2. Each counter follows the calls of [console.log]: whatever
    [check] adds to the warning counter is the number of calls it makes
    with a text that begins with [[WARN]], and whatever it adds to the
    error counter the number of calls with a text that begins with
    [[ERROR]]; in a verbose run the check counter grows by the number
    of calls with a text that begins with [[CHECK]]. For the [check]
    command, which starts from zero, the warning and error totals of
    the summary are the numbers of such calls of the whole run. (A text
    taken from a file may hold line breaks, so a call can write more
    than one line.) *)
Theorem X2_check_counters_count_the_calls_of_console_log :
  forall `{YamlLoader} (fs : node) (docsDir : path) (opts : CheckCmd.options)
         (r : CheckResult) (templatePath cwd : path),
    (exists code r' out,
        check fs docsDir opts r = (Ret code, r', out)
        /\ totalWarnings r' = totalWarnings r + count_calls is_warning out
        /\ totalErrors r' = totalErrors r + count_calls is_error out
        /\ (CheckCmd.verbose opts = true ->
            totalChecks r' = totalChecks r + count_calls is_check out))
    /\ totalWarnings (Cli.counters (Cli.checkCommand templatePath cwd opts fs))
       = count_calls is_warning
           (Cli.stdout (Cli.checkCommand templatePath cwd opts fs))
    /\ totalErrors (Cli.counters (Cli.checkCommand templatePath cwd opts fs))
       = count_calls is_error
           (Cli.stdout (Cli.checkCommand templatePath cwd opts fs)).
Proof.
  intros L fs docsDir [verbose checkLinks format] r templatePath cwd.
  split; [exact (tallies_check verbose fs docsDir checkLinks format r)|].
  unfold Cli.checkCommand.
  destruct (findDocsDir fs cwd) as [found|]; [|split; reflexivity].
  pose proof (ensureClaudeDoc_lines_plain templatePath fs found) as Hplain.
  destruct (ensureClaudeDoc templatePath fs found) as [fs' out1].
  cbn [snd] in Hplain.
  destruct (tallies_check verbose fs' found checkLinks format result0)
    as (code & r' & out & -> & Hw & He & _).
  cbn [Cli.counters Cli.stdout]. rewrite !count_calls_app.
  rewrite (count_calls_plain is_warning out1), (count_calls_plain is_error out1).
  - simpl in *. lia.
  - eapply Forall_impl; [|exact Hplain]. now intros line (_ & He' & _).
  - eapply Forall_impl; [|exact Hplain]. now intros line (Hw' & _).
Qed.

Lemma X2_check_counters_witness :
  totalChecks (snd (fst (check (H := Demo.loader) Demo.disk Demo.docsDir
                           Demo.chatty result0)))
  = count_calls is_check (snd (check (H := Demo.loader) Demo.disk Demo.docsDir
                                 Demo.chatty result0))
  /\ count_calls is_warning
       (Cli.stdout (Cli.checkCommand (H := Demo.loader) Demo.templatePath
                      Demo.cwd Demo.chatty Demo.disk)) = 1.
Proof.
  destruct (X2_check_counters_count_the_calls_of_console_log (H := Demo.loader)
              Demo.disk Demo.docsDir Demo.chatty result0 Demo.templatePath
              Demo.cwd)
    as [(code & r' & out & Hrun & _ & _ & Hc) [Hw _]].
  split.
  - rewrite Hrun. cbn [fst snd]. exact (Hc eq_refl).
  - rewrite <- Hw. vm_compute. reflexivity.
Defined.

(* ===================================================================== *)
(** * The YAML files of a directory *)
(* ===================================================================== *)

Section Sorting.
Context {A : Type}.
Variable le : A -> A -> bool.
Hypothesis le_total : forall a b, le a b = true \/ le b a = true.

Lemma insert_sorted_HdRel x a l :
  le a x = true -> HdRel (fun a b => le a b = true) a l ->
  HdRel (fun a b => le a b = true) a (Js.insert_sorted le x l).
Proof.
  intros Hax Hhd. destruct l as [|y l]; simpl; [now constructor|].
  destruct (le x y); constructor; [exact Hax|].
  now inversion Hhd.
Qed.

Lemma insert_sorted_Sorted x l :
  Sorted (fun a b => le a b = true) l ->
  Sorted (fun a b => le a b = true) (Js.insert_sorted le x l).
Proof.
  induction 1 as [|y l Hs IH Hhd]; simpl; [repeat constructor|].
  destruct (le x y) eqn:Hxy.
  - repeat constructor; assumption.
  - constructor; [exact IH|].
    apply insert_sorted_HdRel; [|exact Hhd].
    destruct (le_total x y); congruence.
Qed.

Lemma sort_Sorted l : Sorted (fun a b => le a b = true) (Js.sort le l).
Proof.
  unfold Js.sort. induction l as [|x l IH]; simpl; [constructor|].
  now apply insert_sorted_Sorted.
Qed.
End Sorting.

Lemma units_leb_total a b :
  Js.units_leb a b = true \/ Js.units_leb b a = true.
Proof.
  revert b. induction a as [|x a IH]; intros [|y b]; cbn [Js.units_leb]; auto.
  destruct (N.ltb_spec x y); cbn [orb]; auto.
  destruct (N.ltb_spec y x); cbn [orb]; auto.
  assert (x = y) by lia. subst y. rewrite N.eqb_refl. cbn [andb]. apply IH.
Qed.

Lemma path_leb_total p q : path_leb p q = true \/ path_leb q p = true.
Proof. unfold path_leb. apply units_leb_total. Qed.

Lemma In_dirent_of e entries :
  In e (map dirent_of entries)
  <-> exists nm child, In (nm, child) entries /\ e = dirent_of (nm, child).
Proof.
  rewrite in_map_iff. split.
  - intros ([nm child] & <- & Hin). eauto.
  - intros (nm & child & Hin & ->). eauto.
Qed.

(** X4. [findYamlFiles] returns exactly the regular files directly in
    the directory whose name ends in [.yaml] or [.yml], each joined to
    the directory: nothing from a subdirectory, no directory whatever
    its name, nothing at all when the path is missing or is a file. *)
Theorem X4_findYamlFiles_finds_the_yaml_files_of_a_directory :
  forall (fs : node) (dir file : path),
    In file (findYamlFiles fs dir)
    <-> exists entries nm content,
          lookup fs dir = Some (Dir entries)
          /\ In (nm, File content) entries
          /\ (Js.endsWith nm ".yaml" = true \/ Js.endsWith nm ".yml" = true)
          /\ file = join dir nm.
Proof.
  intros fs dir file. unfold findYamlFiles, existsSync, readdirSync.
  destruct (lookup fs dir) as [[c|entries]|] eqn:Hl; cbn [negb].
  - split; [contradiction|]. now intros (? & ? & ? & ? & _).
  - split.
    + intros Hin. apply (Permutation_in _ (sort_perm _ _)) in Hin.
      apply in_map_iff in Hin. destruct Hin as (e & <- & He).
      apply filter_In in He. destruct He as [He Hyaml].
      apply In_dirent_of in He. destruct He as (nm & child & Hin & ->).
      unfold is_yaml_entry, dirent_of in Hyaml. cbn [isFile name fst snd] in Hyaml.
      apply andb_prop in Hyaml. destruct Hyaml as [Hfile Hext].
      destruct child as [content|]; [|discriminate].
      exists entries, nm, content. repeat split; try assumption.
      now apply orb_prop.
    + intros (entries' & nm & content & [= <-] & Hin & Hext & ->).
      apply (Permutation_in _ (Permutation_sym (sort_perm _ _))).
      apply in_map_iff. exists (dirent_of (nm, File content)).
      split; [reflexivity|]. apply filter_In. split.
      * apply In_dirent_of. eauto.
      * unfold is_yaml_entry, dirent_of. cbn [isFile name fst snd andb].
        destruct Hext as [-> | ->]; [reflexivity | apply orb_true_r].
  - split; [contradiction|]. now intros (? & ? & ? & ? & _).
Qed.

(** X5. [findYamlFiles] returns the paths in the order of [sort()]:
    each path is followed by one whose text, compared code unit by
    code unit, does not come before it; and it loses or repeats none of
    the entries it keeps. *)
Theorem X5_findYamlFiles_returns_the_paths_in_order :
  forall (fs : node) (dir : path),
    Sorted path_le (findYamlFiles fs dir)
    /\ (forall entries,
          lookup fs dir = Some (Dir entries) ->
          Permutation (findYamlFiles fs dir)
            (map (fun e => join dir (name e))
                 (filter is_yaml_entry (map dirent_of entries)))).
Proof.
  intros fs dir. split.
  - unfold findYamlFiles.
    destruct (negb (existsSync fs dir)); [constructor|].
    destruct (readdirSync fs dir); [|constructor].
    apply (sort_Sorted path_leb path_leb_total).
  - intros entries Hl. unfold findYamlFiles, existsSync, readdirSync.
    rewrite Hl. cbn [negb]. apply sort_perm.
Qed.

Lemma X5_findYamlFiles_witness :
  lookup Demo.disk_wide ["notes"] = Some (Dir Demo.wide_names)
  /\ Permutation (findYamlFiles Demo.disk_wide ["notes"])
                 [["notes"; "～.yaml"]; ["notes"; "😀.yaml"]]
  /\ findYamlFiles Demo.disk_wide ["notes"]
     = [["notes"; "😀.yaml"]; ["notes"; "～.yaml"]].
Proof.
  split; [reflexivity|]. split; [|reflexivity].
  exact (proj2 (X5_findYamlFiles_returns_the_paths_in_order
                  Demo.disk_wide ["notes"])
               _ eq_refl).
Defined.

(* ===================================================================== *)
(** * The accessors *)
(* ===================================================================== *)

(** X6. The four accessors throw exactly when the object they are given
    is [null] or [undefined]: then each raises a [TypeError]; on any
    other value, a mapping or not, each returns. *)
Theorem X6_accessors_throw_exactly_on_null_and_undefined :
  forall (obj : value) (key parent child : string),
    (nullish obj = true ->
       getString obj key = Throw TypeError
       /\ getArray obj key = Throw TypeError
       /\ getNumber obj key = Throw TypeError
       /\ getNestedString obj parent child = Throw TypeError)
    /\ (nullish obj = false ->
          (exists s, getString obj key = Ret s)
          /\ (exists items, getArray obj key = Ret items)
          /\ (exists n, getNumber obj key = Ret n)
          /\ (exists s, getNestedString obj parent child = Ret s)).
Proof.
  intros obj key parent child. split; intros Hnull.
  - destruct obj; try discriminate; repeat split.
  - assert (Hget : forall k, exists x, Js.get obj k = Ret x).
    { intros k. destruct obj; try discriminate; simpl; eauto.
      - destruct (String.eqb k "length"); [eauto|].
        destruct (Js.array_index k); [|eauto].
        destruct (nth_error (Js.chars s) n); eauto.
      - destruct (String.eqb k "length"); [eauto|].
        destruct (Js.array_index k); eauto.
      - destruct (Js.assoc k props); eauto. }
    unfold getString, getArray, getNumber, getNestedString.
    destruct (Hget key) as [x ->]. destruct (Hget parent) as [y ->].
    cbn [Js.obind]. repeat split.
    + destruct x; eauto.
    + destruct x; eauto.
    + destruct x; eauto. destruct (Js.parseInt s); eauto.
    + destruct (Js.is_object y) eqn:Hobj; [|eauto].
      destruct (get_object y child Hobj) as [z ->]. cbn [Js.obind].
      destruct z; eauto.
Qed.

Lemma X6_accessors_witness :
  (nullish VNull = true /\ getNumber VNull "estimate" = Throw TypeError)
  /\ (nullish (VStr "12") = false
      /\ getNumber (VStr "12") "estimate" <> Throw TypeError).
Proof.
  split; (split; [reflexivity|]).
  - exact (proj1 (proj2 (proj2
             (proj1 (X6_accessors_throw_exactly_on_null_and_undefined
                       VNull "estimate" "a" "b") eq_refl)))).
  - destruct (proj1 (proj2 (proj2
               (proj2 (X6_accessors_throw_exactly_on_null_and_undefined
                         (VStr "12") "estimate" "a" "b") eq_refl))))
      as [n Hn].
    rewrite Hn. discriminate.
Defined.

Section Decimal.
Variable suffix : string.
Hypothesis no_digit : starts_with_digit suffix = false.

Lemma leading_digits_suffix : Js.leading_digits suffix = [].
Proof.
  destruct suffix as [|c s]; [reflexivity|]. simpl in *. now rewrite no_digit.
Qed.

Lemma fold_uint d (acc : nat) :
  fold_left (fun acc d => (10 * acc + Z.of_nat d)%Z)
            (Js.leading_digits (NilEmpty.string_of_uint d ++ suffix))
            (Z.of_nat acc)
  = Z.of_nat (Nat.of_uint_acc d acc).
Proof.
  revert acc. induction d; intros acc;
    cbn [NilEmpty.string_of_uint append Nat.of_uint_acc];
    [now rewrite leading_digits_suffix|..];
    cbn [Js.leading_digits]; 
    match goal with
    | |- context [Js.is_digit ?c] =>
        change (Js.is_digit c) with true; cbv iota;
        let v := eval vm_compute in (Js.digit_val c) in
        change (Js.digit_val c) with v
    end;
    cbn [fold_left]; rewrite <- IHd; f_equal;
    rewrite Nat.tail_mul_spec; lia.
Qed.

(** A text that begins with a digit begins with no white space. *)
Lemma skip_spaces_digit (c : ascii) (s : string) :
  Js.is_digit c = true -> Js.skip_spaces (String c s) = String c s.
Proof.
  intros Hdigit. unfold Js.skip_spaces.
  cbn [String.length Js.skip_spaces_in].
  destruct c as [[] [] [] [] [] [] [] []];
    try (cbv in Hdigit; discriminate Hdigit); reflexivity.
Qed.

Lemma parseInt_uint d :
  d <> Decimal.Nil ->
  Js.parseInt (NilEmpty.string_of_uint d ++ suffix)
  = Some (Js.to_double (Z.of_nat (Nat.of_uint d))).
Proof.
  intros Hd. unfold Nat.of_uint. rewrite <- fold_uint.
  unfold Js.parseInt, Js.digits_to_Z.
  destruct d; [contradiction|..];
    cbn [NilEmpty.string_of_uint append];
    rewrite skip_spaces_digit by reflexivity;
    cbn [Js.leading_digits];
    match goal with
    | |- context [Js.is_digit ?c] => change (Js.is_digit c) with true
    end; cbv iota; reflexivity.
Qed.

Lemma parseInt_string_of_nat n :
  Js.parseInt (Js.string_of_nat n ++ suffix)
  = Some (Js.to_double (Z.of_nat n)).
Proof.
  unfold Js.string_of_nat. rewrite parseInt_uint.
  - now rewrite DecimalNat.Unsigned.of_to.
  - rewrite <- (DecimalNat.Unsigned.of_to n) at 1.
    rewrite DecimalNat.Unsigned.to_of. apply DecimalFacts.unorm_nonnil.
Qed.
End Decimal.

(** An integer of at most 53 bits is a double. *)
Lemma to_double_exact (n : Z) :
  (Z.abs n < 2 ^ 53)%Z -> Js.to_double n = n.
Proof.
  intros Hsmall. unfold Js.to_double. cbv zeta.
  destruct (Z.leb_spec (Z.log2 (Z.abs n) - 52) 0) as [_ | Hbig];
    [reflexivity|].
  exfalso. destruct (Z.eq_dec (Z.abs n) 0) as [Hzero | Hpos].
  - rewrite Hzero in Hbig. cbn in Hbig. lia.
  - assert (Hlog : (Z.log2 (Z.abs n) < 53)%Z)
      by (apply Z.log2_lt_pow2; lia).
    lia.
Qed.

(** X7. [getNumber] reads a natural number written as text: a property
    that holds the decimal digits of [n], a number below [2^53],
    followed by anything that does not start with a digit, is read as
    [n]. *)
Theorem X7_getNumber_reads_a_number_written_as_text :
  forall (obj : value) (key : string) (n : nat) (suffix : string),
    Js.get obj key = Ret (VStr (Js.string_of_nat n ++ suffix)) ->
    starts_with_digit suffix = false ->
    (Z.of_nat n < 2 ^ 53)%Z ->
    getNumber obj key = Ret (Z.of_nat n).
Proof.
  intros obj key n suffix Hget Hsuffix Hsafe. unfold getNumber.
  rewrite Hget. cbn [Js.obind].
  rewrite (parseInt_string_of_nat suffix Hsuffix n).
  rewrite to_double_exact; [reflexivity|].
  rewrite Z.abs_eq; [exact Hsafe | apply Nat2Z.is_nonneg].
Qed.

Lemma X7_getNumber_witness :
  getNumber (VObj [("progress", VStr "40%")]) "progress" = Ret 40%Z.
Proof.
  apply (X7_getNumber_reads_a_number_written_as_text
           (VObj [("progress", VStr "40%")]) "progress" 40 "%");
    [reflexivity | reflexivity | lia].
Defined.

(* ===================================================================== *)
(** * Installing CLAUDE.md *)
(* ===================================================================== *)

Section Install.
Local Open Scope list_scope.

Lemma lookup_after_write p n content n' :
  writeFileSync n p content = Ret n' -> lookup n' p = Some (File content).
Proof.
  revert n n'. induction p as [|a p IH]; intros n n' Hw.
  - simpl in Hw. destruct n; [|discriminate]. now injection Hw as <-.
  - apply writeFileSync_cons in Hw.
    destruct Hw as (es & child' & -> & -> & Hcase).
    cbn [lookup]. rewrite assoc_set_entry_same.
    destruct Hcase as [(child & _ & Hw) | (_ & -> & ->)];
      [exact (IH _ _ Hw) | reflexivity].
Qed.

Lemma lookup_below_file content q :
  q <> [] -> lookup (File content) q = None.
Proof. destruct q; [contradiction | reflexivity]. Qed.

(** Creating a file leaves at every other path a file of the same
    text, a directory, or nothing, as there was before. *)
Lemma lookup_elsewhere p n content n' q :
  writeFileSync n p content = Ret n' ->
  lookup n p = None ->
  q <> p ->
  match lookup n' q, lookup n q with
  | Some (File c'), Some (File c) => c' = c
  | Some (Dir _), Some (Dir _) => True
  | None, None => True
  | _, _ => False
  end.
Proof.
  revert n n' q. induction p as [|a p IH]; intros n n' q Hw Hnone Hne.
  - discriminate.
  - apply writeFileSync_cons in Hw.
    destruct Hw as (es & child' & -> & -> & Hcase).
    destruct q as [|b q]; [exact I|]. cbn [lookup] in *.
    destruct (string_dec b a) as [-> | Hba].
    + rewrite assoc_set_entry_same.
      assert (Hq : q <> p) by congruence.
      destruct Hcase as [(child & Ha & Hw) | (Ha & -> & ->)].
      * rewrite Ha in *. now apply IH.
      * rewrite Ha, lookup_below_file by exact Hq. exact I.
    + rewrite assoc_set_entry_other by exact Hba.
      destruct (Js.assoc b es) as [child|]; [|exact I].
      destruct (lookup child q) as [[c|]|]; auto.
Qed.

(** Creating a file changes what no other path reads. *)
Lemma read_elsewhere p n content n' q :
  writeFileSync n p content = Ret n' ->
  lookup n p = None ->
  q <> p ->
  readFileSync n' q = readFileSync n q /\ existsSync n' q = existsSync n q.
Proof.
  intros Hw Hnone Hne.
  pose proof (lookup_elsewhere p n content n' q Hw Hnone Hne) as Hsame.
  unfold readFileSync, existsSync.
  destruct (lookup n' q) as [[c'|es']|], (lookup n q) as [[c|es]|];
    try contradiction; subst; split; reflexivity.
Qed.

Lemma write_new_succeeds d nm n content :
  isDirectory n d = true ->
  lookup n (d ++ [nm]) = None ->
  exists n', writeFileSync n (d ++ [nm]) content = Ret n'.
Proof.
  unfold isDirectory.
  revert n. induction d as [|a d IH]; intros n Hdir Hnone; cbn [app] in *.
  - cbn [lookup] in *. destruct n as [|es]; [discriminate|].
    unfold writeFileSync. cbn [write_at].
    destruct (Js.assoc nm es); [discriminate|]. eauto.
  - cbn [lookup] in *. destruct n as [|es]; [discriminate|].
    unfold writeFileSync. cbn [write_at].
    destruct (Js.assoc a es) as [child|]; [|discriminate].
    destruct (IH child Hdir Hnone) as [child' Hw].
    rewrite (write_at_call _ _ _ _ _ _ Hw). cbn [Js.obind]. eauto.
Qed.
End Install.

(** The install goes through when the file is absent, the template
    readable and the root a directory. *)
Lemma ensureClaudeDoc_writes templatePath fs docsDir content :
  existsSync fs (join docsDir "CLAUDE.md") = false ->
  readFileSync fs templatePath = Ret content ->
  isDirectory fs docsDir = true ->
  exists fs',
    writeFileSync fs (join docsDir "CLAUDE.md") content = Ret fs'
    /\ ensureClaudeDoc templatePath fs docsDir
       = (fs', ["✓ Installed CLAUDE.md in docs/ directory"]).
Proof.
  intros Hnew Hread Hdir.
  pose proof (existsSync_lookup_none _ _ Hnew) as Hnone.
  destruct (write_new_succeeds docsDir "CLAUDE.md" fs content Hdir Hnone)
    as [fs' Hw].
  assert (Htemplate : existsSync fs templatePath = true).
  { unfold existsSync. unfold readFileSync in Hread.
    now destruct (lookup fs templatePath). }
  exists fs'. split; [exact Hw|].
  unfold ensureClaudeDoc. rewrite Hnew, Htemplate, Hread. cbn [negb Js.obind].
  unfold join. now rewrite Hw.
Qed.

(** X8. When [docs/CLAUDE.md] is absent, the template is a readable
    file and the root a directory, [ensureClaudeDoc] creates
    [docs/CLAUDE.md] with the text of the template, says so in one
    line, and changes what no other path reads; called again on the
    result it does nothing and prints nothing. *)
Theorem X8_ensureClaudeDoc_installs_the_template_verbatim :
  forall (templatePath : path) (fs : node) (docsDir : path) (content : string),
    existsSync fs (join docsDir "CLAUDE.md") = false ->
    readFileSync fs templatePath = Ret content ->
    isDirectory fs docsDir = true ->
    exists fs',
      ensureClaudeDoc templatePath fs docsDir
      = (fs', ["✓ Installed CLAUDE.md in docs/ directory"])
      /\ readFileSync fs' (join docsDir "CLAUDE.md") = Ret content
      /\ (forall q,
            q <> join docsDir "CLAUDE.md" ->
            readFileSync fs' q = readFileSync fs q
            /\ existsSync fs' q = existsSync fs q)
      /\ ensureClaudeDoc templatePath fs' docsDir = (fs', []).
Proof.
  intros templatePath fs docsDir content Hnew Hread Hdir.
  destruct (ensureClaudeDoc_writes templatePath fs docsDir content
              Hnew Hread Hdir) as (fs' & Hw & Hrun).
  exists fs'. split; [exact Hrun|]. split; [|split].
  - unfold readFileSync. now rewrite (lookup_after_write _ _ _ _ Hw).
  - intros q Hq.
    exact (read_elsewhere _ _ _ _ q Hw (existsSync_lookup_none _ _ Hnew) Hq).
  - unfold ensureClaudeDoc.
    now rewrite (exists_after_write _ _ _ _ Hw).
Qed.

Lemma X8_ensureClaudeDoc_witness :
  readFileSync (fst (ensureClaudeDoc Demo.templatePath Demo.disk Demo.docsDir))
               (join Demo.docsDir "CLAUDE.md")
  = Ret "# Quick reference"
  /\ readFileSync (fst (ensureClaudeDoc Demo.templatePath Demo.disk
                          Demo.docsDir))
                  (join Demo.docsDir "product-requirements.yaml")
     = Ret Demo.prd_text.
Proof.
  destruct (X8_ensureClaudeDoc_installs_the_template_verbatim
              Demo.templatePath Demo.disk Demo.docsDir "# Quick reference"
              eq_refl eq_refl eq_refl)
    as (fs' & Hrun & Hread & Hrest & _).
  rewrite Hrun. cbn [fst]. split; [exact Hread|].
  destruct (Hrest (join Demo.docsDir "product-requirements.yaml")) as [-> _];
    [discriminate | reflexivity].
Defined.

(* ===================================================================== *)
(** * What a listing selects *)
(* ===================================================================== *)

Section Selection.
Context `{YamlLoader} `{Collator}.
Local Open Scope list_scope.

Lemma filter_filter {A} (p q : A -> bool) (l : list A) :
  filter q (filter p l) = filter (fun x => p x && q x) l.
Proof.
  induction l as [|x l IH]; [reflexivity|]. simpl.
  destruct (p x); simpl; [destruct (q x)|]; now rewrite IH.
Qed.

Lemma filter_all {A} (p : A -> bool) (l : list A) :
  (forall x, p x = true) -> filter p l = l.
Proof.
  intros Hp. induction l as [|x l IH]; [reflexivity|].
  simpl. now rewrite Hp, IH.
Qed.

Lemma filter_none {A} (p : A -> bool) (l : list A) :
  (forall x, p x = false) -> filter p l = [].
Proof.
  intros Hp. induction l as [|x l IH]; [reflexivity|].
  simpl. now rewrite Hp.
Qed.

(** The filters of [listFeatures], before the sort. *)
Lemma features_selected options records :
  (if CheckCmd.nonempty (ListCmd.filterStatus options)
   then filter (fun f => String.eqb (FeatureData.status f)
                                    (ListCmd.filterStatus options))
               (if negb (ListCmd.showAll options)
                then filter (fun f => negb (String.eqb (FeatureData.status f)
                                                       "complete")) records
                else records)
   else (if negb (ListCmd.showAll options)
         then filter (fun f => negb (String.eqb (FeatureData.status f)
                                                "complete")) records
         else records))
  = filter (feature_selected options) records.
Proof.
  unfold feature_selected, feature_not_complete.
  destruct (CheckCmd.nonempty (ListCmd.filterStatus options)),
           (ListCmd.showAll options); cbn [negb orb andb].
  - apply filter_ext. intros f. reflexivity.
  - rewrite filter_filter. apply filter_ext. intros f. reflexivity.
  - symmetry. now apply filter_all.
  - apply filter_ext. intros f. now rewrite andb_true_r.
Qed.

Lemma stories_selected options records :
  (if CheckCmd.nonempty (ListCmd.s_filterFeature options)
   then filter (fun s => String.eqb (StoryData.feature_id s)
                                    (ListCmd.s_filterFeature options))
   else fun l => l)
    ((if CheckCmd.nonempty (ListCmd.s_filterStatus options)
      then filter (fun s => String.eqb (StoryData.status s)
                                       (ListCmd.s_filterStatus options))
      else fun l => l)
       (if negb (ListCmd.s_showAll options)
        then filter (fun s => negb (String.eqb (StoryData.status s)
                                               "complete")) records
        else records))
  = filter (story_selected options) records.
Proof.
  unfold story_selected, story_not_complete.
  destruct (CheckCmd.nonempty (ListCmd.s_filterFeature options)),
           (CheckCmd.nonempty (ListCmd.s_filterStatus options)),
           (ListCmd.s_showAll options); cbn [negb orb andb];
    rewrite ?filter_filter;
    first
      [ symmetry; now apply filter_all
      | apply filter_ext; intros s;
        repeat match goal with
               | |- context [String.eqb ?a ?b] => destruct (String.eqb a b)
               end; reflexivity ].
Qed.

Lemma listFeatures_selected fs docsDir options :
  exists listed,
    ListCmd.listFeatures fs docsDir options = Ret listed
    /\ listed
       = (if String.eqb (ListCmd.sortBy options) "title"
          then Js.sort (ListCmd.by_locale FeatureData.title)
          else if String.eqb (ListCmd.sortBy options) "status"
               then Js.sort (ListCmd.by_locale FeatureData.status)
               else fun l => l)
           (filter (feature_selected options) (feature_records fs docsDir)).
Proof.
  unfold ListCmd.listFeatures, feature_records. cbv zeta.
  set (files := findYamlFiles fs (join docsDir "feature-specs")).
  destruct (Nat.eqb (List.length files) 0) eqn:Hlen.
  - rewrite (no_files_no_records _ _ Hlen). exists []. split; [reflexivity|].
    cbn [filter]. now destruct (String.eqb (ListCmd.sortBy options) "title"),
      (String.eqb (ListCmd.sortBy options) "status").
  - destruct (mapO_records (ListCmd.parseFeature fs) files
                (parseFeature_returns fs)) as (parsed & Hmap & Hnn).
    rewrite Hmap. cbn [Js.obind]. rewrite Hnn, features_selected.
    eexists. split; [reflexivity|].
    now destruct (String.eqb (ListCmd.sortBy options) "title"),
      (String.eqb (ListCmd.sortBy options) "status").
Qed.

Lemma listStories_selected fs docsDir options :
  ListCmd.listStories fs docsDir options
  = Ret (filter (story_selected options) (story_records fs docsDir)).
Proof.
  unfold ListCmd.listStories, story_records. cbv zeta.
  set (files := findYamlFiles fs (join docsDir "user-stories")).
  destruct (Nat.eqb (List.length files) 0) eqn:Hlen.
  - now rewrite (no_files_no_records _ _ Hlen).
  - destruct (mapO_records (ListCmd.parseStory fs) files
                (parseStory_returns fs)) as (parsed & Hmap & Hnn).
    rewrite Hmap. cbn [Js.obind]. rewrite Hnn, <- stories_selected.
    now destruct (CheckCmd.nonempty (ListCmd.s_filterFeature options)),
                 (CheckCmd.nonempty (ListCmd.s_filterStatus options)).
Qed.

Lemma complete_is_never_selected options f :
  ListCmd.showAll options = false ->
  ListCmd.filterStatus options = "complete" ->
  feature_selected options f = false.
Proof.
  intros Hall Hstatus. unfold feature_selected, feature_not_complete.
  rewrite Hall, Hstatus. cbn [orb negb CheckCmd.nonempty].
  now destruct (String.eqb (FeatureData.status f) "complete").
Qed.
End Selection.





(* ===================================================================== *)
(** * Listings as processes *)
(* ===================================================================== *)

Section Printing.
Import Process.
Local Open Scope process_scope.

Lemma completes_ret {A} (a : A) : completes (ret a).
Proof. unfold completes, ret. eauto. Qed.

Lemma completes_bind {A B} (m : P A) (k : A -> P B) :
  completes m -> (forall a, completes (k a)) -> completes (bind m k).
Proof.
  intros (a & o1 & ->) Hk. destruct (Hk a) as (b & o2 & Hb).
  unfold bind. rewrite Hb. unfold completes. eauto.
Qed.

Lemma completes_console_log line : completes (console_log line).
Proof. unfold completes, console_log. eauto. Qed.

Lemma completes_lift {A} (o : outcome A) :
  (exists a, o = Ret a) -> completes (lift o).
Proof. intros [a ->]. unfold completes, lift. eauto. Qed.

Lemma completes_forEach {A} (cb : A -> P unit) (l : list A) :
  (forall x, completes (cb x)) -> completes (forEach cb l).
Proof.
  intros Hcb. induction l as [|x l IH]; simpl.
  - apply completes_ret.
  - apply completes_bind; [apply Hcb | intros _; exact IH].
Qed.

Lemma completes_forEachAcc {A S} (cb : A -> S -> P S) (l : list A) (s : S) :
  (forall x s', completes (cb x s')) -> completes (forEachAcc cb l s).
Proof.
  intros Hcb. revert s. induction l as [|x l IH]; intros s; simpl.
  - apply completes_ret.
  - apply completes_bind; [apply Hcb | intros s'; apply IH].
Qed.

(** A loop that prints one line for each item. *)
Lemma forEach_console_log {A} (line : A -> string) (l : list A) :
  forEach (fun x => console_log (line x)) l = (Value tt, map line l).
Proof.
  induction l as [|x l IH]; [reflexivity|].
  cbn [forEach map]. rewrite IH. reflexivity.
Qed.

Lemma bind_value {A B} (a : A) (out : list string) (k : A -> P B) :
  bind (Value a, out) k = (fst (k a), (out ++ snd (k a))%list).
Proof. unfold bind. now destruct (k a). Qed.

Lemma bind_lift_ret {A B} (a : A) (k : A -> P B) :
  bind (lift (Ret a)) k = k a.
Proof. unfold bind, lift. now destruct (k a). Qed.

Lemma bind_lift_throw {A B} (e : exn) (k : A -> P B) :
  bind (lift (Throw e)) k = (Raise e, []).
Proof. reflexivity. Qed.

(** [arr.map(f)] returns when [f] does for each item, and otherwise
    throws what [f] throws. *)
Lemma mapO_outcome {A B} (f : A -> outcome B) (ok : A -> bool) (e0 : exn)
    (l : list A) :
  (forall x, ok x = true -> exists b, f x = Ret b) ->
  (forall x, ok x = false -> f x = Throw e0) ->
  (forallb ok l = true -> exists bs, Js.mapO f l = Ret bs)
  /\ (forallb ok l = false -> Js.mapO f l = Throw e0).
Proof.
  intros Hok Hbad. induction l as [|x l [IHok IHbad]]; cbn [forallb Js.mapO].
  - split; [eauto | discriminate].
  - destruct (ok x) eqn:Hx; cbn [andb].
    + destruct (Hok x Hx) as [b ->]. cbn [Js.obind]. split; intros Hall.
      * destruct (IHok Hall) as [bs ->]. cbn [Js.obind]. eauto.
      * now rewrite (IHbad Hall).
    + rewrite (Hbad x Hx). split; [discriminate | reflexivity].
Qed.
End Printing.

(** One step of a proof that a computation returns. *)
Ltac completes_step :=
  lazy zeta;
  match goal with
  | |- completes (Process.bind _ _) => apply completes_bind; [|intros]
  | |- completes (Process.ret _) => apply completes_ret
  | |- completes (Process.console_log _) => apply completes_console_log
  | |- completes (Process.forEach _ _) => apply completes_forEach; intros
  | |- completes (Process.forEachAcc _ _ _) =>
      apply completes_forEachAcc; intros
  | |- completes (Process.lift _) => apply completes_lift
  | |- completes (if ?c then _ else _) => destruct c eqn:?
  | Ht : Js.truthy ?v = true |- _ => apply truthy_falsy in Ht
  | |- exists _, getString _ _ = Ret _ => apply getString_truthy; assumption
  | |- exists _, getArray _ _ = Ret _ => apply getArray_truthy; assumption
  | |- exists _, ListCmd.listFeatures _ _ _ = Ret _ =>
      let l := fresh in
      destruct (listFeatures_selected _ _ _) as (l & -> & _); eauto
  end.

Section Lists.
Context `{YamlLoader} `{Collator} `{CaseMapping} `{JsonStringifier}
        `{NumberText}.
Import Process.

(** The text of an array is made of the texts of its items. *)
Lemma to_String_VArr (items : list value) :
  JsText.to_String (VArr items)
  = (texts <-? Js.mapO (fun x => match x with
                                 | VUndefined | VNull => Ret ""
                                 | _ => JsText.to_String x
                                 end) items ;;
     Ret (String.concat "," texts)).
Proof.
  cbn [JsText.to_String]. f_equal.
  induction items as [|x rest IH]; [reflexivity|].
  cbn [Js.mapO]. now rewrite <- IH.
Qed.

Lemma has_text_VArr (items : list value) :
  has_text (VArr items) = forallb has_text items.
Proof.
  cbn [has_text]. induction items as [|x rest IH]; [reflexivity|].
  cbn [forallb]. now rewrite <- IH.
Qed.

(** [String(v)] returns exactly on the values that have a text, and
    otherwise throws a [TypeError]. *)
Lemma to_String_outcome :
  forall v : value,
    (has_text v = true -> exists s, JsText.to_String v = Ret s)
    /\ (has_text v = false -> JsText.to_String v = Throw TypeError).
Proof.
  fix IH 1. intros v. destruct v as [ | | b | n | s | items | props].
  - split; [intros _; cbn; eauto | discriminate].
  - split; [intros _; cbn; eauto | discriminate].
  - split; [intros _; destruct b; cbn; eauto | discriminate].
  - split; [intros _; cbn; eauto | discriminate].
  - split; [intros _; cbn; eauto | discriminate].
  - rewrite to_String_VArr, has_text_VArr.
    induction items as [|x rest [IHok IHbad]]; cbn [forallb Js.mapO].
    + split; [intros _; cbn; eauto | discriminate].
    + destruct (IH x) as [Hok Hbad].
      destruct (has_text x) eqn:Hx; cbn [andb].
      * assert (Hitem : exists t,
                   match x with
                   | VUndefined | VNull => Ret ""
                   | _ => JsText.to_String x
                   end = Ret t)
          by (destruct x; eauto).
        destruct Hitem as [t ->]. cbn [Js.obind]. split; intros Hall.
        -- specialize (IHok Hall). destruct IHok as [s Hs].
           destruct (Js.mapO _ rest) as [ts|e]; cbn [Js.obind] in *;
             [eauto | discriminate].
        -- specialize (IHbad Hall).
           destruct (Js.mapO _ rest) as [ts|e]; cbn [Js.obind] in *;
             [discriminate | exact IHbad].
      * split; [discriminate|]. intros _.
        destruct x; try discriminate Hx; now rewrite (Hbad eq_refl).
  - cbn [JsText.to_String has_text].
    destruct (Js.assoc "toString" props);
      split; try discriminate; eauto.
Qed.

(** [parseFlow] throws exactly for a persona without a text. *)
Lemma parseFlow_outcome fs file :
  (personas_have_text fs file = true ->
   exists o, ListOutput.parseFlow fs file = Ret o)
  /\ (personas_have_text fs file = false ->
      ListOutput.parseFlow fs file = Throw TypeError).
Proof.
  unfold ListOutput.parseFlow, personas_have_text. lazy zeta.
  destruct (Js.falsy (loadYaml fs file)) eqn:Hf;
    [split; [eauto | discriminate]|].
  cbn [orb].
  destruct (getString_truthy _ "title" Hf) as [x1 ->].
  destruct (getArray_truthy _ "key_personas" Hf) as [personas ->].
  destruct (getArray_truthy _ "primary_flows" Hf) as [x3 ->].
  destruct (getArray_truthy _ "secondary_flows" Hf) as [x4 ->].
  cbn [Js.obind].
  destruct (mapO_outcome JsText.to_String has_text TypeError personas
              (fun x => proj1 (to_String_outcome x))
              (fun x => proj2 (to_String_outcome x))) as [Hok Hbad].
  split; intros Hall.
  - destruct (Hok Hall) as [texts ->]. cbn [Js.obind]. eauto.
  - now rewrite (Hbad Hall).
Qed.

Lemma completes_listFeatures fs docsDir options :
  completes (ListOutput.listFeatures fs docsDir options).
Proof.
  unfold ListOutput.listFeatures.
  repeat completes_step.
  destruct (listFeatures_selected fs docsDir options) as (l & -> & _). eauto.
Qed.

Lemma completes_listStories fs docsDir options :
  completes (ListOutput.listStories fs docsDir options).
Proof.
  unfold ListOutput.listStories.
  repeat completes_step.
  rewrite listStories_selected. eauto.
Qed.

(** [listFlows] goes through when every flow file parses, and stops
    at the first that does not, before it prints anything. *)
Lemma listFlows_outcome fs docsDir options :
  (forallb (personas_have_text fs)
           (findYamlFiles fs (join docsDir "user-flows")) = true ->
   completes (ListOutput.listFlows fs docsDir options))
  /\ (forallb (personas_have_text fs)
              (findYamlFiles fs (join docsDir "user-flows")) = false ->
      ListOutput.listFlows fs docsDir options = (Raise TypeError, [])).
Proof.
  unfold ListOutput.listFlows. lazy zeta.
  destruct (findYamlFiles fs (join docsDir "user-flows")) as [|file files]
    eqn:Hfiles.
  - split; [intros _; apply completes_console_log | discriminate].
  - change (Nat.eqb (List.length (file :: files)) 0) with false. cbv iota.
    destruct (mapO_outcome (ListOutput.parseFlow fs) (personas_have_text fs)
                TypeError (file :: files)
                (fun x => proj1 (parseFlow_outcome fs x))
                (fun x => proj2 (parseFlow_outcome fs x))) as [Hok Hbad].
    split; intros Hall.
    + destruct (Hok Hall) as [parsed ->]. rewrite bind_lift_ret.
      repeat completes_step.
    + rewrite (Hbad Hall). apply bind_lift_throw.
Qed.
End Lists.

(* ===================================================================== *)
(** * What a listing shows *)
(* ===================================================================== *)

Section Shown.
Context `{YamlLoader} `{Collator} `{CaseMapping} `{JsonStringifier}
        `{NumberText}.
Import Process.

(** What [listFeatures] prints for the records it has selected. *)
Lemma listFeatures_shows fs docsDir options listed :
  findYamlFiles fs (join docsDir "feature-specs") <> [] ->
  ListCmd.listFeatures fs docsDir options = Ret listed ->
  (ListCmd.format options = "json" ->
   ListOutput.listFeatures fs docsDir options
   = (Value tt, map ListOutput.featureJson listed))
  /\ (ListCmd.format options <> "json" ->
      ListCmd.format options <> "stats" ->
      ListOutput.listFeatures fs docsDir options
      = (Value tt, features_table (join docsDir "feature-specs") listed)).
Proof.
  intros Hfiles Hrun. unfold ListOutput.listFeatures. lazy zeta.
  rewrite Hrun.
  destruct (findYamlFiles fs (join docsDir "feature-specs")) as [|file files];
    [contradiction|].
  change (Nat.eqb (List.length (file :: files)) 0) with false. cbv iota.
  rewrite bind_lift_ret. split.
  - intros ->. cbn [String.eqb Ascii.eqb Bool.eqb]. apply forEach_console_log.
  - intros Hjson Hstats.
    destruct (String.eqb_spec (ListCmd.format options) "stats");
      [contradiction|].
    destruct (String.eqb_spec (ListCmd.format options) "json");
      [contradiction|].
    rewrite forEach_console_log. reflexivity.
Qed.

(** What [listStories] prints for the records it has selected. *)
Lemma listStories_shows fs docsDir options :
  findYamlFiles fs (join docsDir "user-stories") <> [] ->
  (ListCmd.s_format options = "json" ->
   ListOutput.listStories fs docsDir options
   = (Value tt,
      map ListOutput.storyJson
          (filter (story_selected options) (story_records fs docsDir))))
  /\ (ListCmd.s_format options = "ids" ->
      ListOutput.listStories fs docsDir options
      = (Value tt,
         map StoryData.story_id
             (filter (story_selected options) (story_records fs docsDir))))
  /\ (ListCmd.s_format options <> "json" ->
      ListCmd.s_format options <> "ids" ->
      ListOutput.listStories fs docsDir options
      = (Value tt,
         stories_table (join docsDir "user-stories")
           (filter (story_selected options) (story_records fs docsDir)))).
Proof.
  intros Hfiles. unfold ListOutput.listStories. lazy zeta.
  rewrite listStories_selected.
  destruct (findYamlFiles fs (join docsDir "user-stories")) as [|file files];
    [contradiction|].
  change (Nat.eqb (List.length (file :: files)) 0) with false. cbv iota.
  rewrite bind_lift_ret. split; [|split].
  - intros ->. cbn [String.eqb Ascii.eqb Bool.eqb]. apply forEach_console_log.
  - intros ->. cbn [String.eqb Ascii.eqb Bool.eqb]. apply forEach_console_log.
  - intros Hjson Hids.
    destruct (String.eqb_spec (ListCmd.s_format options) "json");
      [contradiction|].
    destruct (String.eqb_spec (ListCmd.s_format options) "ids");
      [contradiction|].
    rewrite forEach_console_log. reflexivity.
Qed.

(** A record there is comes from a file there is. *)
Lemma records_need_files {A} (parse : path -> outcome (option A)) files :
  records_of parse files <> [] -> files <> [].
Proof. intros Hrecords ->. now apply Hrecords. Qed.

(** With no [--status] given, the selection is that of [--all]. *)
Lemma feature_selected_by_default options records :
  ListCmd.filterStatus options = "" ->
  filter (feature_selected options) records
  = shown_by_default feature_not_complete (ListCmd.showAll options) records.
Proof.
  intros Hstatus. unfold shown_by_default, feature_selected.
  rewrite Hstatus. cbn [CheckCmd.nonempty String.eqb negb orb].
  destruct (ListCmd.showAll options); cbn [orb].
  - now apply filter_all.
  - apply filter_ext. intros f. apply andb_true_r.
Qed.

Lemma story_selected_by_default options records :
  ListCmd.s_filterStatus options = "" ->
  ListCmd.s_filterFeature options = "" ->
  filter (story_selected options) records
  = shown_by_default story_not_complete (ListCmd.s_showAll options) records.
Proof.
  intros Hstatus Hfeature. unfold shown_by_default, story_selected.
  rewrite Hstatus, Hfeature. cbn [CheckCmd.nonempty String.eqb negb orb].
  destruct (ListCmd.s_showAll options); cbn [orb].
  - now apply filter_all.
  - apply filter_ext. intros s. now rewrite !andb_true_r.
Qed.

(** The options [list] hands to [listFeatures] and to [listStories]. *)
Lemma list_features fs docsDir args :
  ListOutput.list fs docsDir "features" args
  = ListOutput.listFeatures fs docsDir
      {| ListCmd.showAll := ListArgs.all args;
         ListCmd.format :=
           ListOutput.or_default (ListArgs.format args) "summary";
         ListCmd.filterStatus :=
           ListOutput.or_default (ListArgs.status args) "";
         ListCmd.sortBy := ListOutput.or_default (ListArgs.sort args) "id" |}.
Proof. reflexivity. Qed.

Lemma list_stories fs docsDir args :
  ListOutput.list fs docsDir "stories" args
  = ListOutput.listStories fs docsDir
      {| ListCmd.s_showAll := ListArgs.all args;
         ListCmd.s_format :=
           ListOutput.or_default (ListArgs.format args) "summary";
         ListCmd.s_filterStatus :=
           ListOutput.or_default (ListArgs.status args) "";
         ListCmd.s_filterFeature :=
           ListOutput.or_default (ListArgs.feature args) "" |}.
Proof. reflexivity. Qed.

(** The sort [list] asks for is the one named on the command line. *)
Lemma sort_of_args (sort : option string) (key : string) :
  key <> "id" -> sort <> Some key -> ListOutput.or_default sort "id" <> key.
Proof.
  intros Hid Hsort. unfold ListOutput.or_default.
  destruct sort as [s|]; [|congruence].
  destruct (CheckCmd.nonempty s); congruence.
Qed.
End Shown.

(** C5. For features and for stories, the two categories whose records
    carry a status, [list] without [--status] and [--feature] shows
    exactly the records whose status is not ["complete"], and with
    [--all] it shows every record: in the [json] format it gives
    [console.log] the record of each of them and nothing else (in the
    [ids] format of stories, the identifier of each), and in the table
    a row for each of them between the header and the count.
    Sorting features by title or status only reorders them. Of three
    features that are complete, in progress and incomplete, the listing
    shows the last two, and all three with [--all]. Whatever the other
    options, a listing without [--all] shows no complete record. *)
Theorem C5_default_listing_hides_complete :
  forall `{YamlLoader} `{Collator} `{CaseMapping} `{JsonStringifier}
         `{NumberText}
         (fs : node) (docsDir : path) (args : ListArgs.t) (fmt : string),
    ListOutput.or_default (ListArgs.format args) "summary" = fmt ->
    (ListArgs.status args = None ->
     ListArgs.feature args = None ->
     (findYamlFiles fs (join docsDir "feature-specs") <> [] ->
      exists listed,
        Permutation listed
          (shown_by_default feature_not_complete (ListArgs.all args)
                            (feature_records fs docsDir))
        /\ (ListArgs.sort args <> Some "title" ->
            ListArgs.sort args <> Some "status" ->
            listed = shown_by_default feature_not_complete (ListArgs.all args)
                                      (feature_records fs docsDir))
        /\ (fmt = "json" ->
            ListOutput.list fs docsDir "features" args
            = (Process.Value tt, map ListOutput.featureJson listed))
        /\ (fmt <> "json" -> fmt <> "stats" ->
            ListOutput.list fs docsDir "features" args
            = (Process.Value tt,
               features_table (join docsDir "feature-specs") listed)))
     /\ (findYamlFiles fs (join docsDir "user-stories") <> [] ->
         (fmt = "json" ->
          ListOutput.list fs docsDir "stories" args
          = (Process.Value tt,
             map ListOutput.storyJson
                 (shown_by_default story_not_complete (ListArgs.all args)
                                   (story_records fs docsDir))))
         /\ (fmt = "ids" ->
             ListOutput.list fs docsDir "stories" args
             = (Process.Value tt,
                map StoryData.story_id
                    (shown_by_default story_not_complete (ListArgs.all args)
                                      (story_records fs docsDir))))
         /\ (fmt <> "json" -> fmt <> "ids" ->
             ListOutput.list fs docsDir "stories" args
             = (Process.Value tt,
                stories_table (join docsDir "user-stories")
                  (shown_by_default story_not_complete (ListArgs.all args)
                                    (story_records fs docsDir)))))
     /\ (forall r1 r2 r3,
           feature_records fs docsDir = [r1; r2; r3] ->
           FeatureData.status r1 = "complete" ->
           FeatureData.status r2 = "in-progress" ->
           FeatureData.status r3 = "incomplete" ->
           ListArgs.sort args <> Some "title" ->
           ListArgs.sort args <> Some "status" ->
           fmt = "json" ->
           ListOutput.list fs docsDir "features" args
           = (Process.Value tt,
              map ListOutput.featureJson
                  (if ListArgs.all args then [r1; r2; r3] else [r2; r3]))))
    /\ (ListArgs.all args = false ->
        (findYamlFiles fs (join docsDir "feature-specs") <> [] ->
         exists listed,
           Forall (fun f => FeatureData.status f <> "complete") listed
           /\ (fmt = "json" ->
               ListOutput.list fs docsDir "features" args
               = (Process.Value tt, map ListOutput.featureJson listed))
           /\ (fmt <> "json" -> fmt <> "stats" ->
               ListOutput.list fs docsDir "features" args
               = (Process.Value tt,
                  features_table (join docsDir "feature-specs") listed)))
        /\ (findYamlFiles fs (join docsDir "user-stories") <> [] ->
            exists listed,
              Forall (fun s => StoryData.status s <> "complete") listed
              /\ (fmt = "json" ->
                  ListOutput.list fs docsDir "stories" args
                  = (Process.Value tt, map ListOutput.storyJson listed))
              /\ (fmt = "ids" ->
                  ListOutput.list fs docsDir "stories" args
                  = (Process.Value tt, map StoryData.story_id listed))
              /\ (fmt <> "json" -> fmt <> "ids" ->
                  ListOutput.list fs docsDir "stories" args
                  = (Process.Value tt,
                     stories_table (join docsDir "user-stories") listed)))).
Proof.
  intros L C M J N fs docsDir args fmt Hfmt.
  rewrite list_features, list_stories.
  set (options := {| ListCmd.showAll := ListArgs.all args;
                     ListCmd.format :=
                       ListOutput.or_default (ListArgs.format args) "summary";
                     ListCmd.filterStatus :=
                       ListOutput.or_default (ListArgs.status args) "";
                     ListCmd.sortBy :=
                       ListOutput.or_default (ListArgs.sort args) "id" |}).
  set (soptions := {| ListCmd.s_showAll := ListArgs.all args;
                      ListCmd.s_format :=
                        ListOutput.or_default (ListArgs.format args) "summary";
                      ListCmd.s_filterStatus :=
                        ListOutput.or_default (ListArgs.status args) "";
                      ListCmd.s_filterFeature :=
                        ListOutput.or_default (ListArgs.feature args) "" |}).
  assert (Hformat : ListCmd.format options = fmt) by exact Hfmt.
  assert (Hsformat : ListCmd.s_format soptions = fmt) by exact Hfmt.
  destruct (listFeatures_selected fs docsDir options) as (listed & Hrun & Hlisted).
  assert (Hunsorted :
            ListArgs.sort args <> Some "title" ->
            ListArgs.sort args <> Some "status" ->
            listed = filter (feature_selected options)
                            (feature_records fs docsDir)).
  { intros Ht Hs. rewrite Hlisted. cbn [ListCmd.sortBy options].
    destruct (String.eqb_spec (ListOutput.or_default (ListArgs.sort args) "id")
                              "title") as [Heq | _];
      [exfalso; revert Heq; apply sort_of_args; [discriminate | exact Ht]|].
    destruct (String.eqb_spec (ListOutput.or_default (ListArgs.sort args) "id")
                              "status") as [Heq | _];
      [exfalso; revert Heq; apply sort_of_args; [discriminate | exact Hs]|].
    reflexivity. }
  assert (Hperm : Permutation listed
                    (filter (feature_selected options)
                            (feature_records fs docsDir))).
  { rewrite Hlisted.
    destruct (String.eqb (ListCmd.sortBy options) "title");
      [apply sort_perm|].
    destruct (String.eqb (ListCmd.sortBy options) "status");
      [apply sort_perm | reflexivity]. }
  split.
  - intros Hstatus Hfeature.
    assert (Hnone : ListCmd.filterStatus options = "")
      by (cbn [ListCmd.filterStatus options]; now rewrite Hstatus).
    assert (Hsnone : ListCmd.s_filterStatus soptions = "")
      by (cbn [ListCmd.s_filterStatus soptions]; now rewrite Hstatus).
    assert (Hfnone : ListCmd.s_filterFeature soptions = "")
      by (cbn [ListCmd.s_filterFeature soptions]; now rewrite Hfeature).
    rewrite (feature_selected_by_default options _ Hnone) in Hperm, Hunsorted.
    split; [|split].
    + intros Hfiles.
      destruct (listFeatures_shows fs docsDir options listed Hfiles Hrun)
        as [Hjson Htable].
      rewrite Hformat in Hjson, Htable.
      exists listed. split; [exact Hperm|]. split; [exact Hunsorted|].
      split; assumption.
    + intros Hfiles.
      destruct (listStories_shows fs docsDir soptions Hfiles)
        as (Hjson & Hids & Htable).
      rewrite Hsformat in Hjson, Hids, Htable.
      rewrite (story_selected_by_default soptions _ Hsnone Hfnone)
        in Hjson, Hids, Htable.
      split; [|split]; assumption.
    + intros r1 r2 r3 Hrecords H1 H2 H3 Ht Hs ->.
      assert (Hfiles : findYamlFiles fs (join docsDir "feature-specs") <> []).
      { apply (records_need_files (ListCmd.parseFeature fs)).
        fold (feature_records fs docsDir). now rewrite Hrecords. }
      destruct (listFeatures_shows fs docsDir options listed Hfiles Hrun)
        as [Hjson _].
      rewrite (Hjson Hformat), (Hunsorted Ht Hs), Hrecords.
      unfold shown_by_default, feature_not_complete.
      cbn [ListCmd.showAll options filter].
      rewrite H1, H2, H3. reflexivity.
  - intros Hall. split.
    + intros Hfiles.
      destruct (listFeatures_shows fs docsDir options listed Hfiles Hrun)
        as [Hjson Htable].
      rewrite Hformat in Hjson, Htable.
      exists listed. split; [|split; assumption].
      pose proof (listFeatures_hides_complete fs docsDir options listed
                    Hrun Hall) as Hhidden.
      eapply Forall_impl; [|exact Hhidden]. cbv beta.
      unfold feature_not_complete. intros f Hf Heq.
      rewrite Heq in Hf. discriminate.
    + intros Hfiles.
      destruct (listStories_shows fs docsDir soptions Hfiles)
        as (Hjson & Hids & Htable).
      rewrite Hsformat in Hjson, Hids, Htable.
      eexists. split; [|split; [|split]; eassumption].
      pose proof (listStories_hides_complete fs docsDir soptions _
                    (listStories_selected fs docsDir soptions) Hall)
        as Hhidden.
      eapply Forall_impl; [|exact Hhidden]. cbv beta.
      unfold story_not_complete. intros s Hs Heq.
      rewrite Heq in Hs. discriminate.
Qed.

Lemma C5_default_listing_witness :
  snd (ListOutput.list (H := Demo.loader) (H0 := Demo.collator)
         (H1 := Demo.cases) (H2 := Demo.json) (H3 := Demo.numbers)
         Demo.disk_three Demo.docsDir "features" Demo.no_args)
  = features_table (H := Demo.numbers)
      (join Demo.docsDir "feature-specs")
      (filter feature_not_complete
              (feature_records (H := Demo.loader) Demo.disk_three
                               Demo.docsDir))
  /\ map FeatureData.feature_id
         (feature_records (H := Demo.loader) Demo.disk_three Demo.docsDir)
     = ["F-01"; "F-02"; "F-03"]
  /\ map FeatureData.feature_id
         (filter feature_not_complete
                 (feature_records (H := Demo.loader) Demo.disk_three
                                  Demo.docsDir))
     = ["F-02"; "F-03"].
Proof.
  destruct (C5_default_listing_hides_complete
              (H := Demo.loader) (H0 := Demo.collator) (H1 := Demo.cases)
              (H2 := Demo.json) (H3 := Demo.numbers)
              Demo.disk_three Demo.docsDir Demo.no_args "summary" eq_refl)
    as [Hdefault _].
  destruct (Hdefault eq_refl eq_refl) as (Hfeatures & _ & _).
  destruct Hfeatures as (listed & _ & Hlisted & _ & Htable);
    [vm_compute; discriminate|].
  split; [|split; vm_compute; reflexivity].
  rewrite Htable by discriminate. rewrite Hlisted by discriminate.
  reflexivity.
Defined.

(** X9. A listing shows the records its filters select and never
    throws. When the directory holds YAML files, [listFeatures] shows
    the features that are not complete unless [--all] is given, of the
    status [--status] names if it names one, in the order of the files
    unless a sort by title or status is asked for; [listStories] the
    same, with the [--feature] filter on top and no sort. In the [json]
    format each gives [console.log] the record of each of them and
    nothing else, in the table a row for each of them between the
    header and the count. [--status complete] without [--all] lists
    nothing. When the directory holds no YAML file the listing says so
    and shows nothing. *)
Theorem X9_listing_applies_every_filter :
  forall `{YamlLoader} `{Collator} `{CaseMapping} `{JsonStringifier}
         `{NumberText}
         (fs : node) (docsDir : path)
         (options : ListCmd.featureOptions) (soptions : ListCmd.storyOptions),
    (findYamlFiles fs (join docsDir "feature-specs") <> [] ->
     exists listed,
       Permutation listed
         (filter (feature_selected options) (feature_records fs docsDir))
       /\ (ListCmd.sortBy options <> "title" ->
           ListCmd.sortBy options <> "status" ->
           listed = filter (feature_selected options)
                           (feature_records fs docsDir))
       /\ (ListCmd.showAll options = false ->
           ListCmd.filterStatus options = "complete" -> listed = [])
       /\ (ListCmd.format options = "json" ->
           ListOutput.listFeatures fs docsDir options
           = (Process.Value tt, map ListOutput.featureJson listed))
       /\ (ListCmd.format options <> "json" ->
           ListCmd.format options <> "stats" ->
           ListOutput.listFeatures fs docsDir options
           = (Process.Value tt,
              features_table (join docsDir "feature-specs") listed)))
    /\ (findYamlFiles fs (join docsDir "user-stories") <> [] ->
        (ListCmd.s_format soptions = "json" ->
         ListOutput.listStories fs docsDir soptions
         = (Process.Value tt,
            map ListOutput.storyJson
                (filter (story_selected soptions)
                        (story_records fs docsDir))))
        /\ (ListCmd.s_format soptions <> "json" ->
            ListCmd.s_format soptions <> "ids" ->
            ListOutput.listStories fs docsDir soptions
            = (Process.Value tt,
               stories_table (join docsDir "user-stories")
                 (filter (story_selected soptions)
                         (story_records fs docsDir)))))
    /\ (findYamlFiles fs (join docsDir "feature-specs") = [] ->
        ListOutput.listFeatures fs docsDir options
        = (Process.Value tt,
           ["No feature files found in "
            ++ Path.to_string (join docsDir "feature-specs")]))
    /\ (findYamlFiles fs (join docsDir "user-stories") = [] ->
        ListOutput.listStories fs docsDir soptions
        = (Process.Value tt,
           ["No story files found in "
            ++ Path.to_string (join docsDir "user-stories")])).
Proof.
  intros L C M J N fs docsDir options soptions.
  split; [|split; [|split]].
  - intros Hfiles.
    destruct (listFeatures_selected fs docsDir options)
      as (listed & Hrun & Hlisted).
    destruct (listFeatures_shows fs docsDir options listed Hfiles Hrun)
      as [Hjson Htable].
    exists listed. rewrite Hlisted at 1 2 3.
    split; [|split; [|split; [|split; assumption]]].
    + destruct (String.eqb (ListCmd.sortBy options) "title");
        [apply sort_perm|].
      destruct (String.eqb (ListCmd.sortBy options) "status");
        [apply sort_perm | reflexivity].
    + intros Ht Hs.
      destruct (String.eqb_spec (ListCmd.sortBy options) "title");
        [contradiction|].
      now destruct (String.eqb_spec (ListCmd.sortBy options) "status").
    + intros Hall Hstatus.
      rewrite (filter_none _ _ (fun f => complete_is_never_selected options f
                                           Hall Hstatus)).
      now destruct (String.eqb (ListCmd.sortBy options) "title"),
        (String.eqb (ListCmd.sortBy options) "status").
  - intros Hfiles.
    destruct (listStories_shows fs docsDir soptions Hfiles)
      as (Hjson & _ & Htable).
    split; assumption.
  - intros Hnone. unfold ListOutput.listFeatures. lazy zeta.
    now rewrite Hnone.
  - intros Hnone. unfold ListOutput.listStories. lazy zeta.
    now rewrite Hnone.
Qed.

Lemma X9_listing_witness :
  ListOutput.listFeatures (H := Demo.loader) (H0 := Demo.collator)
    (H2 := Demo.json) (H3 := Demo.numbers) Demo.disk_three Demo.docsDir
    {| ListCmd.showAll := true; ListCmd.format := "summary";
       ListCmd.filterStatus := "in-progress"; ListCmd.sortBy := "id" |}
  = (Process.Value tt,
     [ "Feature Specifications in /home/proj/docs/feature-specs";
       ListOutput.rule 80;
       "ID         Title                                    Progress   Status";
       ListOutput.rule 80;
       "F-02       b                                          0%      ● in-progress";
       ListOutput.rule 80;
       "Found 1 matching features" ]).
Proof.
  destruct (X9_listing_applies_every_filter
              (H := Demo.loader) (H0 := Demo.collator) (H1 := Demo.cases)
              (H2 := Demo.json) (H3 := Demo.numbers)
              Demo.disk_three Demo.docsDir
              {| ListCmd.showAll := true; ListCmd.format := "summary";
                 ListCmd.filterStatus := "in-progress";
                 ListCmd.sortBy := "id" |}
              {| ListCmd.s_showAll := false; ListCmd.s_format := "summary";
                 ListCmd.s_filterStatus := ""; ListCmd.s_filterFeature := "" |})
    as [Hfeatures _].
  destruct Hfeatures as (listed & _ & Hlisted & _ & _ & Htable);
    [vm_compute; discriminate|].
  rewrite Htable by discriminate. rewrite Hlisted by discriminate.
  vm_compute. reflexivity.
Defined.

(** X11. Listing features or stories returns on every tree and for
    every option: no file content makes it throw or exit. Listing flows
    returns exactly when every persona of every flow file that loads
    has a text: a persona that is a mapping with a key [toString], or a
    list that holds one, ends the command with an uncaught [TypeError]
    before it prints anything. A type that is none of the four ends
    [list] with status 1. *)
Theorem X11_listing_returns_unless_a_persona_has_no_text :
  forall `{YamlLoader} `{Collator} `{CaseMapping} `{JsonStringifier}
         `{NumberText}
         (fs : node) (docsDir : path) (type : string) (options : ListArgs.t),
    (In type ["features"; "stories"] ->
       completes (ListOutput.list fs docsDir type options))
    /\ (forallb (personas_have_text fs)
                (findYamlFiles fs (join docsDir "user-flows")) = true ->
        completes (ListOutput.list fs docsDir "flows" options))
    /\ (forallb (personas_have_text fs)
                (findYamlFiles fs (join docsDir "user-flows")) = false ->
        ListOutput.list fs docsDir "flows" options
        = (Process.Raise TypeError, []))
    /\ (~ In type Commands.validTypes ->
        ListOutput.list fs docsDir type options
        = (Process.Exit 1,
           ["Unknown list type: " ++ type;
            "Available types: features, apis, stories, flows"])).
Proof.
  intros L C M J N fs docsDir type options.
  split; [|split; [|split]].
  - intros [<- | [<- | []]]; unfold ListOutput.list;
      cbn [String.eqb Ascii.eqb Bool.eqb].
    + apply completes_listFeatures.
    + apply completes_listStories.
  - intros Hall. unfold ListOutput.list. cbn [String.eqb Ascii.eqb Bool.eqb].
    now apply listFlows_outcome.
  - intros Hodd. unfold ListOutput.list. cbn [String.eqb Ascii.eqb Bool.eqb].
    now apply listFlows_outcome.
  - intros Hnot. unfold ListOutput.list.
    repeat match goal with
           | |- context [String.eqb type ?t] =>
               destruct (String.eqb_spec type t) as [-> | _];
                 [exfalso; apply Hnot; simpl; tauto|]
           end.
    reflexivity.
Qed.

Lemma X11_listing_returns_witness :
  Process.status
    (ListOutput.list (H := Demo.loader) (H0 := Demo.collator)
       (H1 := Demo.cases) (H2 := Demo.json) (H3 := Demo.numbers)
       Demo.disk Demo.docsDir "flows" Demo.no_args) = 0
  /\ Process.status
       (ListOutput.list (H := Demo.loader2) (H0 := Demo.collator)
          (H1 := Demo.cases) (H2 := Demo.json) (H3 := Demo.numbers)
          Demo.disk_odd_flow Demo.docsDir "flows" Demo.no_args) = 1
  /\ Process.status
       (ListOutput.list (H := Demo.loader) (H0 := Demo.collator)
          (H1 := Demo.cases) (H2 := Demo.json) (H3 := Demo.numbers)
          Demo.disk Demo.docsDir "features" Demo.no_args) = 0.
Proof.
  destruct (X11_listing_returns_unless_a_persona_has_no_text
              (H := Demo.loader) (H0 := Demo.collator) (H1 := Demo.cases)
              (H2 := Demo.json) (H3 := Demo.numbers)
              Demo.disk Demo.docsDir "features" Demo.no_args)
    as (Hreturns & Hflows & _ & _).
  destruct (X11_listing_returns_unless_a_persona_has_no_text
              (H := Demo.loader2) (H0 := Demo.collator) (H1 := Demo.cases)
              (H2 := Demo.json) (H3 := Demo.numbers)
              Demo.disk_odd_flow Demo.docsDir "flows" Demo.no_args)
    as (_ & _ & Hthrows & _).
  split; [|split].
  - destruct (Hflows eq_refl) as (a & out & ->). reflexivity.
  - rewrite (Hthrows eq_refl). reflexivity.
  - destruct (Hreturns (or_introl eq_refl)) as (a & out & ->). reflexivity.
Defined.

Section Stats.
Context `{YamlLoader} `{Collator} `{CaseMapping} `{JsonStringifier}
        `{NumberText}.

Lemma filter_length_perm {A} (p : A -> bool) (l1 l2 : list A) :
  Permutation l1 l2 ->
  List.length (filter p l1) = List.length (filter p l2).
Proof.
  induction 1 as [|x l1 l2 _ IH|x y l|l1 l2 l3 _ IH1 _ IH2]; simpl.
  - reflexivity.
  - destruct (p x); simpl; now rewrite IH.
  - destruct (p x), (p y); reflexivity.
  - now rewrite IH1.
Qed.

Lemma no_complete_listed (listed : list FeatureData.t) :
  Forall (fun f => feature_not_complete f = true) listed ->
  filter is_complete_feature listed = [].
Proof.
  induction 1 as [|f l Hf _ IH]; [reflexivity|]. simpl.
  unfold feature_not_complete in Hf. unfold is_complete_feature at 1.
  destruct (String.eqb (FeatureData.status f) "complete"); [discriminate|].
  exact IH.
Qed.

(** The statistics [listFeatures] prints for the records it lists. *)
Lemma listFeatures_stats fs docsDir options listed :
  Nat.eqb (List.length (findYamlFiles fs (join docsDir "feature-specs"))) 0
  = false ->
  ListCmd.listFeatures fs docsDir options = Ret listed ->
  ListCmd.format options = "stats" ->
  exists rest,
    ListOutput.listFeatures fs docsDir options
    = (Process.Value tt,
       List.app
       [ListOutput.rule 50; "Feature Specifications Statistics";
        ListOutput.rule 50; "";
        "Total Features: " ++ Js.string_of_nat (List.length listed);
        "  Complete: "
        ++ Js.string_of_nat (List.length (filter is_complete_feature listed));
        "  In Progress: "
        ++ Js.string_of_nat
             (List.length (filter (fun f => String.eqb (FeatureData.status f)
                                                       "in-progress") listed));
        "  Incomplete: "
        ++ Js.string_of_nat
             (List.length (filter (fun f => String.eqb (FeatureData.status f)
                                                       "incomplete") listed));
        ""] rest)
    /\ (rest = [""]
        \/ rest = ["Progress:";
                   "  Complete: "
                   ++ Js.string_of_nat
                        (List.length (filter is_complete_feature listed) * 100
                         / List.length listed) ++ "%";
                   "  Started: "
                   ++ Js.string_of_nat
                        ((List.length (filter is_complete_feature listed)
                          + List.length
                              (filter (fun f =>
                                         String.eqb (FeatureData.status f)
                                                    "in-progress") listed))
                         * 100 / List.length listed) ++ "%";
                   ""]).
Proof.
  intros Hfiles Hrun Hfmt. unfold ListOutput.listFeatures. lazy zeta.
  rewrite Hfiles, Hrun, Hfmt. cbn [String.eqb Ascii.eqb Bool.eqb].
  cbv beta iota zeta delta [Process.bind Process.lift Process.console_log
                            Process.ret].
  fold is_complete_feature.
  destruct (Nat.ltb 0 (List.length listed));
    eexists; (split; [reflexivity|]); auto.
Qed.
End Stats.

Section Stats2.
Context `{YamlLoader} `{Collator} `{CaseMapping} `{JsonStringifier}
        `{NumberText}.

Lemma listed_is_selected fs docsDir options :
  exists listed,
    ListCmd.listFeatures fs docsDir options = Ret listed
    /\ Permutation listed
         (filter (feature_selected options) (feature_records fs docsDir)).
Proof.
  destruct (listFeatures_selected fs docsDir options) as (listed & Hrun & ->).
  eexists. split; [exact Hrun|].
  destruct (String.eqb (ListCmd.sortBy options) "title"); [apply sort_perm|].
  destruct (String.eqb (ListCmd.sortBy options) "status");
    [apply sort_perm | reflexivity].
Qed.

Lemma everything_selected options :
  ListCmd.showAll options = true ->
  ListCmd.filterStatus options = "" ->
  forall f, feature_selected options f = true.
Proof. intros Hall Hstatus f. unfold feature_selected. now rewrite Hall, Hstatus. Qed.
End Stats2.

(** X12. The statistics of [list features] count the features that
    are listed, not those that exist: without [--all] the line for
    complete features reads 0, and 0% when a percentage is printed,
    whatever the files hold; with [--all] and no [--status] filter the
    total and the complete count are those of all the records. *)
Theorem X12_statistics_count_the_listed_features_only :
  forall `{YamlLoader} `{Collator} `{CaseMapping} `{JsonStringifier}
         `{NumberText}
         (fs : node) (docsDir : path) (options : ListCmd.featureOptions),
    ListCmd.format options = "stats" ->
    findYamlFiles fs (join docsDir "feature-specs") <> [] ->
    exists out,
      prints (ListOutput.listFeatures fs docsDir options) out
      /\ (ListCmd.showAll options = false ->
          nth_error out 5 = Some "  Complete: 0"
          /\ (forall line,
                In line out -> starts_with "  Complete: " line = true ->
                line = "  Complete: 0" \/ line = "  Complete: 0%"))
      /\ (ListCmd.showAll options = true ->
          ListCmd.filterStatus options = "" ->
          nth_error out 4
          = Some ("Total Features: "
                  ++ Js.string_of_nat
                       (List.length (feature_records fs docsDir)))
          /\ nth_error out 5
             = Some ("  Complete: "
                     ++ Js.string_of_nat
                          (List.length (filter is_complete_feature
                                               (feature_records fs docsDir))))).
Proof.
  intros L C M J N fs docsDir options Hfmt Hfiles.
  assert (Hlen : Nat.eqb (List.length (findYamlFiles fs
                            (join docsDir "feature-specs"))) 0 = false)
    by (destruct (findYamlFiles fs (join docsDir "feature-specs"));
        [contradiction | reflexivity]).
  destruct (listed_is_selected fs docsDir options) as (listed & Hrun & Hperm).
  destruct (listFeatures_stats fs docsDir options listed Hlen Hrun Hfmt)
    as (rest & Hout & Hrest).
  eexists. split; [exists tt; exact Hout|]. split.
  - intros Hall.
    pose proof (listFeatures_hides_complete fs docsDir options listed Hrun Hall)
      as Hhidden.
    rewrite (no_complete_listed listed Hhidden) in Hrest |- *.
    cbn [List.length Nat.mul] in Hrest |- *.
    split; [reflexivity|].
    intros line Hin Hstart.
    cbn [app In] in Hin.
    repeat (destruct Hin as [<- | Hin];
            [first [now left | vm_compute in Hstart; discriminate
                   | simpl in Hstart; discriminate]|]).
    destruct Hrest as [-> | ->]; cbn [In] in Hin.
    + destruct Hin as [<- | []]. discriminate.
    + rewrite Nat.Div0.div_0_l in Hin.
      repeat (destruct Hin as [<- | Hin];
              [first [now right | simpl in Hstart; discriminate]|]).
      contradiction.
  - intros Hall Hstatus.
    rewrite (filter_all _ _ (everything_selected options Hall Hstatus)) in Hperm.
    rewrite (Permutation_length Hperm).
    rewrite (filter_length_perm is_complete_feature _ _ Hperm).
    split; reflexivity.
Qed.

Lemma X12_statistics_witness :
  nth_error
    (snd (ListOutput.listFeatures (H := Demo.loader) (H0 := Demo.collator)
            (H2 := Demo.json) (H3 := Demo.numbers) Demo.disk_three Demo.docsDir
            {| ListCmd.showAll := false; ListCmd.format := "stats";
               ListCmd.filterStatus := ""; ListCmd.sortBy := "id" |}))
    5
  = Some "  Complete: 0"
  /\ List.length
       (filter is_complete_feature
               (feature_records (H := Demo.loader) Demo.disk_three
                                Demo.docsDir)) = 1.
Proof.
  split; [|vm_compute; reflexivity].
  destruct (X12_statistics_count_the_listed_features_only
              (H := Demo.loader) (H0 := Demo.collator) (H1 := Demo.cases)
              (H2 := Demo.json) (H3 := Demo.numbers) Demo.disk_three Demo.docsDir
              {| ListCmd.showAll := false; ListCmd.format := "stats";
                 ListCmd.filterStatus := ""; ListCmd.sortBy := "id" |}
              eq_refl)
    as (out & [a Hprints] & Hhidden & _); [discriminate|].
  rewrite Hprints. apply Hhidden. reflexivity.
Defined.

(** A text without a line break is one line. *)
Lemma lines_of_single (text : string) :
  single_line text = true -> lines_of text = [text].
Proof.
  induction text as [|c rest IH]; [reflexivity|].
  cbn [single_line lines_of]. destruct (Ascii.eqb c "010"); [discriminate|].
  cbn [negb andb]. intros Hrest. now rewrite (IH Hrest).
Qed.

Lemma stdout_lines_single (out : list string) :
  Forall (fun text => single_line text = true) out -> stdout_lines out = out.
Proof.
  unfold stdout_lines. induction 1 as [|text out Htext _ IH]; [reflexivity|].
  cbn [flat_map]. now rewrite (lines_of_single _ Htext), IH.
Qed.

(** X13. With [--format ids], [list stories] calls [console.log] once
    for each selected story, in the order of the files, with the
    identifier of the story as the text, and makes no other call; when
    no identifier holds a line break, the lines of the standard output
    are the identifiers. When the directory holds no YAML file the only
    call has the sentence that says so. *)
Theorem X13_ids_format_logs_the_selected_story_ids :
  forall `{YamlLoader} `{Collator} `{CaseMapping} `{JsonStringifier}
         (fs : node) (docsDir : path) (options : ListCmd.storyOptions),
    ListCmd.s_format options = "ids" ->
    (findYamlFiles fs (join docsDir "user-stories") <> [] ->
     ListOutput.listStories fs docsDir options
     = (Process.Value tt,
        map StoryData.story_id
            (filter (story_selected options) (story_records fs docsDir)))
     /\ (Forall (fun s => single_line (StoryData.story_id s) = true)
                (filter (story_selected options) (story_records fs docsDir)) ->
         stdout_lines (snd (ListOutput.listStories fs docsDir options))
         = map StoryData.story_id
               (filter (story_selected options) (story_records fs docsDir))))
    /\ (findYamlFiles fs (join docsDir "user-stories") = [] ->
        ListOutput.listStories fs docsDir options
        = (Process.Value tt,
           ["No story files found in "
            ++ Path.to_string (join docsDir "user-stories")])).
Proof.
  intros L C M J fs docsDir options Hfmt. split; intros Hfiles.
  - destruct (listStories_shows fs docsDir options Hfiles) as (_ & Hids & _).
    rewrite (Hids Hfmt). split; [reflexivity|].
    intros Hsingle. cbn [snd]. apply stdout_lines_single.
    apply Forall_map. exact Hsingle.
  - unfold ListOutput.listStories. lazy zeta. rewrite Hfiles. reflexivity.
Qed.

Lemma X13_ids_witness :
  ListOutput.listStories (H := Demo.loader) (H2 := Demo.json)
    Demo.disk_dangling Demo.docsDir
    {| ListCmd.s_showAll := false; ListCmd.s_format := "ids";
       ListCmd.s_filterStatus := ""; ListCmd.s_filterFeature := "" |}
  = (Process.Value tt, ["US-102"]).
Proof.
  destruct (X13_ids_format_logs_the_selected_story_ids
              (H := Demo.loader) (H0 := Demo.collator) (H1 := Demo.cases)
              (H2 := Demo.json) Demo.disk_dangling Demo.docsDir
              {| ListCmd.s_showAll := false; ListCmd.s_format := "ids";
                 ListCmd.s_filterStatus := ""; ListCmd.s_filterFeature := "" |}
              eq_refl)
    as [Hids _].
  destruct Hids as [Hcalls _]; [discriminate|].
  rewrite Hcalls. vm_compute. reflexivity.
Defined.

Section Apis.
Context `{YamlLoader} `{Collator} `{CaseMapping} `{JsonStringifier}
        `{NumberText}.

Lemma mapO_throws {A B} (f : A -> outcome B) (l : list A) (x : A) (e : exn) :
  (forall y e', f y = Throw e' -> e' = e) ->
  In x l -> f x = Throw e -> Js.mapO f l = Throw e.
Proof.
  intros Honly Hin Hx. induction l as [|y l IH]; [contradiction|].
  cbn [Js.mapO]. destruct (f y) as [b|e'] eqn:Hy.
  - destruct Hin as [-> | Hin]; [congruence|].
    cbn [Js.obind]. now rewrite (IH Hin).
  - cbn [Js.obind]. f_equal. exact (Honly _ _ Hy).
Qed.

Lemma get_returns obj key :
  nullish obj = false -> exists x, Js.get obj key = Ret x.
Proof.
  destruct obj; try discriminate; intros _; simpl; eauto.
  - destruct (String.eqb key "length"); [eauto|].
    destruct (Js.array_index key); [|eauto].
    destruct (nth_error (Js.chars s) n); eauto.
  - destruct (String.eqb key "length"); [eauto|].
    destruct (Js.array_index key); eauto.
  - destruct (Js.assoc key props); eauto.
Qed.

Lemma getString_throws obj key e :
  getString obj key = Throw e -> e = TypeError.
Proof.
  unfold getString. destruct (nullish obj) eqn:Hnull.
  - destruct obj; try discriminate; now intros [= <-].
  - destruct (get_returns obj key Hnull) as [x ->]. cbn [Js.obind].
    destruct x; discriminate.
Qed.

Lemma entries_throws v e : JsText.entries v = Throw e -> e = TypeError.
Proof. destruct v; simpl; congruence. Qed.

Lemma endpointOf_throws path entry e :
  ListOutput.endpointOf path entry = Throw e -> e = TypeError.
Proof.
  unfold ListOutput.endpointOf. destruct entry as [method details].
  destruct (getString details "summary") as [s|e'] eqn:Hs; cbn [Js.obind];
    [discriminate|].
  intros [= <-]. exact (getString_throws _ _ _ Hs).
Qed.

Lemma mapO_only_throws {A B} (f : A -> outcome B) (l : list A) (e e0 : exn) :
  (forall y e', f y = Throw e' -> e' = e0) ->
  Js.mapO f l = Throw e -> e = e0.
Proof.
  intros Honly. induction l as [|y l IH]; [discriminate|].
  cbn [Js.mapO]. destruct (f y) as [b|e'] eqn:Hy; cbn [Js.obind].
  - destruct (Js.mapO f l); cbn [Js.obind]; [discriminate|].
    intros [= <-]. now apply IH.
  - intros [= <-]. exact (Honly _ _ Hy).
Qed.

Lemma endpointsOf_throws entry e :
  ListOutput.endpointsOf entry = Throw e -> e = TypeError.
Proof.
  unfold ListOutput.endpointsOf. destruct entry as [path methods].
  destruct (JsText.entries methods) as [es|e'] eqn:He; cbn [Js.obind].
  - apply mapO_only_throws. apply endpointOf_throws.
  - intros [= <-]. exact (entries_throws _ _ He).
Qed.

(** A document whose [paths] is a mapping is a mapping itself. *)
Lemma paths_of_a_mapping data props :
  Js.get data "paths" = Ret (VObj props) -> Js.falsy data = false.
Proof.
  destruct data; cbn [Js.get]; try discriminate; reflexivity.
Qed.

Lemma loaded_file_exists fs file :
  Js.falsy (loadYaml fs file) = false -> existsSync fs file = true.
Proof.
  unfold loadYaml, readFileSync, existsSync.
  now destruct (lookup fs file) as [[c|es]|].
Qed.
End Apis.

Section ApiOutcomes.
Context `{YamlLoader} `{Collator} `{CaseMapping} `{JsonStringifier}
        `{NumberText}.

Lemma in_indexed (x : value) (items : list value) :
  In x items <-> exists key, In (key, x) (JsText.indexed items).
Proof.
  unfold JsText.indexed.
  assert (Hgen : forall (keys : list string),
             List.length keys = List.length items ->
             (In x items <-> exists key, In (key, x) (combine keys items))).
  { induction items as [|y items IH]; intros keys Hlen.
    - split; [contradiction|]. intros [key Hin]. now destruct keys.
    - destruct keys as [|k keys]; [discriminate|]. injection Hlen as Hlen.
      cbn [combine In]. rewrite (IH keys Hlen). split.
      + intros [-> | [key Hin]]; eauto.
      + intros [key [[= _ ->] | Hin]]; eauto. }
  apply Hgen. now rewrite length_map, length_seq.
Qed.

Lemma nullish_entries v :
  nullish v = false -> exists es, JsText.entries v = Ret es.
Proof. destruct v; try discriminate; simpl; eauto. Qed.

Lemma mapO_returns_in {A B} (f : A -> outcome B) (l : list A) :
  (forall x, In x l -> exists b, f x = Ret b) -> exists bs, Js.mapO f l = Ret bs.
Proof.
  induction l as [|x l IH]; intros Hf; simpl; [eauto|].
  destruct (Hf x) as [b ->]; [now left|].
  destruct IH as [bs ->]; [intros y Hy; apply Hf; now right|].
  simpl. eauto.
Qed.

Lemma endpointOf_returns path method details :
  nullish details = false ->
  exists ep, ListOutput.endpointOf path (method, details) = Ret ep.
Proof.
  intros Hd. unfold ListOutput.endpointOf, getString.
  destruct (get_returns details "summary" Hd) as [x ->]. cbn [Js.obind].
  destruct x; eexists; reflexivity.
Qed.

(** The operations of an entry that is not hollow all say something. *)
Lemma solid_operations entry es method details :
  hollow_entry entry = false ->
  JsText.entries (snd entry) = Ret es ->
  In (method, details) es -> nullish details = false.
Proof.
  unfold hollow_entry. intros Hsolid Hes Hin.
  apply orb_false_elim in Hsolid. destruct Hsolid as [_ Hops].
  destruct (snd entry) as [| | b | n | s | items | operations];
    try discriminate; cbn [JsText.entries] in Hes; injection Hes as <-.
  - contradiction.
  - contradiction.
  - unfold JsText.indexed in Hin. apply in_combine_r in Hin.
    apply in_map_iff in Hin. now destruct Hin as (c & <- & _).
  - destruct (nullish details) eqn:Hd; [|reflexivity].
    assert (Hitem : In details items) by (apply in_indexed; eauto).
    assert (Htrue : existsb nullish items = true)
      by (apply existsb_exists; eauto).
    congruence.
  - destruct (nullish details) eqn:Hd; [|reflexivity].
    assert (Htrue : existsb (fun op => nullish (snd op)) operations = true)
      by (apply existsb_exists; exists (method, details); auto).
    congruence.
Qed.

Lemma endpointsOf_solid entry :
  hollow_entry entry = false ->
  exists eps, ListOutput.endpointsOf entry = Ret eps.
Proof.
  intros Hsolid. pose proof Hsolid as Hnull. unfold hollow_entry in Hnull.
  apply orb_false_elim in Hnull. destruct Hnull as [Hnull _].
  destruct (nullish_entries _ Hnull) as [es Hes].
  destruct entry as [path methods]. cbn [snd] in *.
  unfold ListOutput.endpointsOf. rewrite Hes. cbn [Js.obind].
  apply mapO_returns_in. intros [method details] Hin.
  apply endpointOf_returns.
  exact (solid_operations (path, methods) es method details Hsolid Hes Hin).
Qed.

Lemma endpointOf_nullish path method details :
  nullish details = true ->
  ListOutput.endpointOf path (method, details) = Throw TypeError.
Proof. now destruct details. Qed.

Lemma endpointsOf_hollow entry :
  hollow_entry entry = true -> ListOutput.endpointsOf entry = Throw TypeError.
Proof.
  destruct entry as [path methods]. unfold hollow_entry. cbn [snd].
  intros Hhollow. apply orb_prop in Hhollow.
  destruct Hhollow as [Hnull | Hop]; [now destruct methods|].
  unfold ListOutput.endpointsOf.
  destruct methods as [| | | | |items|operations]; try discriminate;
    cbn [JsText.entries Js.obind];
    apply existsb_exists in Hop.
  - destruct Hop as (details & Hin & Hnull).
    apply in_indexed in Hin. destruct Hin as [key Hin].
    apply (mapO_throws _ _ (key, details));
      [apply endpointOf_throws | exact Hin | now apply endpointOf_nullish].
  - destruct Hop as ([method details] & Hin & Hnull). cbn [snd] in Hnull.
    apply (mapO_throws _ _ (method, details));
      [apply endpointOf_throws | exact Hin | now apply endpointOf_nullish].
Qed.

Lemma parseApiEndpoints_outcome data paths :
  Js.get data "paths" = Ret paths ->
  if hollow paths then ListOutput.parseApiEndpoints data = Throw TypeError
  else exists eps, ListOutput.parseApiEndpoints data = Ret eps.
Proof.
  intros Hpaths. unfold ListOutput.parseApiEndpoints, hollow.
  rewrite Hpaths. cbn [Js.obind].
  destruct (Js.falsy paths) eqn:Hf; cbn [negb andb]; [eauto|].
  assert (Hnull : nullish paths = false) by (now destruct paths).
  destruct (nullish_entries _ Hnull) as [es ->]. cbn [Js.obind].
  destruct (existsb hollow_entry es) eqn:Hhollow.
  - apply existsb_exists in Hhollow. destruct Hhollow as (entry & Hin & He).
    now rewrite (mapO_throws ListOutput.endpointsOf es entry TypeError
                   endpointsOf_throws Hin (endpointsOf_hollow entry He)).
  - destruct (mapO_returns_in ListOutput.endpointsOf es) as [groups ->];
      [|cbn [Js.obind]; eauto].
    intros entry Hin. apply endpointsOf_solid.
    destruct (hollow_entry entry) eqn:He; [|reflexivity].
    assert (existsb hollow_entry es = true)
      by (apply existsb_exists; eauto).
    congruence.
Qed.

Lemma hollow_has_keys paths :
  hollow paths = true -> exists n, Js.keys_length paths = Ret (S n).
Proof.
  unfold hollow. intros Hhollow. apply andb_prop in Hhollow.
  destruct Hhollow as [_ Hentries].
  destruct paths as [| | b | n | s | items | props];
    cbn [JsText.entries Js.keys_length existsb] in *; try discriminate.
  - apply existsb_exists in Hentries.
    destruct Hentries as ([key v] & Hin & Hv).
    unfold JsText.indexed in Hin. apply in_combine_r in Hin.
    apply in_map_iff in Hin. destruct Hin as (c & <- & _).
    cbv in Hv. discriminate Hv.
  - destruct items as [|item items]; [discriminate | simpl; eauto].
  - destruct props as [|prop props]; [discriminate | simpl; eauto].
Qed.

Lemma listApis_outcome fs docsDir options paths :
  Js.get (loadYaml fs (join docsDir "api-contracts.yaml")) "paths"
  = Ret paths ->
  Js.falsy (loadYaml fs (join docsDir "api-contracts.yaml")) = false ->
  if hollow paths
  then ListOutput.listApis fs docsDir options = (Process.Raise TypeError, [])
  else completes (ListOutput.listApis fs docsDir options).
Proof.
  intros Hpaths Hdata.
  pose proof (parseApiEndpoints_outcome _ _ Hpaths) as Hparse.
  unfold ListOutput.listApis. lazy zeta. rewrite Hdata.
  destruct (get_truthy _ "info" Hdata) as [info ->].
  rewrite bind_lift_ret.
  assert (Htitle : exists t, (if Js.truthy info then getString info "title"
                              else Ret "API") = Ret t).
  { destruct (Js.truthy info) eqn:Ht; [|eauto].
    apply getString_truthy. now apply truthy_falsy. }
  assert (Hversion : exists v, (if Js.truthy info
                                then getString info "version"
                                else Ret "1.0.0") = Ret v).
  { destruct (Js.truthy info) eqn:Ht; [|eauto].
    apply getString_truthy. now apply truthy_falsy. }
  destruct Htitle as [t ->]. rewrite bind_lift_ret.
  destruct Hversion as [v ->]. rewrite bind_lift_ret.
  destruct (hollow paths).
  - now rewrite Hparse.
  - destruct Hparse as [eps ->]. rewrite bind_lift_ret.
    repeat completes_step.
Qed.
End ApiOutcomes.

(** X14. [list apis] throws exactly on a hollow contract. When the
    contract loads and no entry of its [paths] is hollow, the command
    returns, whatever the options; when a path lists no operation, or
    an operation says nothing (a key with nothing after the colon), it
    ends with an uncaught [TypeError] before it prints anything, while
    [check] counts the same contract as one more passed check, with no
    warning and no error. *)
Theorem X14_list_apis_throws_exactly_on_a_hollow_contract :
  forall `{YamlLoader} `{Collator} `{CaseMapping} `{JsonStringifier}
         (fs : node) (docsDir : path) (paths : value),
    Js.get (loadYaml fs (join docsDir "api-contracts.yaml")) "paths"
    = Ret paths ->
    Js.falsy (loadYaml fs (join docsDir "api-contracts.yaml")) = false ->
    (hollow paths = false ->
     forall options, completes (ListOutput.listApis fs docsDir options))
    /\ (hollow paths = true ->
        (forall options,
            ListOutput.listApis fs docsDir options
            = (Process.Raise TypeError, []))
        /\ (forall verbose r,
              exists out,
                checkApiContracts fs docsDir verbose r
                = (Ret tt, incrChecks r, out))).
Proof.
  intros L C M J fs docsDir paths Hpaths Hdata. split; intros Hhollow.
  - intros options.
    pose proof (listApis_outcome fs docsDir options paths Hpaths Hdata) as Hrun.
    now rewrite Hhollow in Hrun.
  - split.
    + intros options.
      pose proof (listApis_outcome fs docsDir options paths Hpaths Hdata)
        as Hrun.
      now rewrite Hhollow in Hrun.
    + intros verbose r. unfold checkApiContracts, checkFileExists. lazy zeta.
      rewrite (loaded_file_exists _ _ Hdata).
      destruct (hollow_has_keys paths Hhollow) as [n Hkeys].
      assert (Htruthy : Js.truthy paths = true).
      { unfold hollow in Hhollow. apply andb_prop in Hhollow.
        exact (proj1 Hhollow). }
      unfold Js.truthy at 1. rewrite Hdata, Hpaths. cbn [negb].
      unfold bind at 1. unfold console_log at 1.
      unfold bind, console_log, logCheck, logPass, logInfo, modify, when, lift,
        ret.
      rewrite Htruthy, Hkeys. cbn [Nat.eqb].
      destruct verbose; eexists; reflexivity.
Qed.

Lemma X14_list_apis_witness :
  Process.status
    (ListOutput.listApis (H := Demo.loader) (H1 := Demo.cases)
       (H2 := Demo.json) Demo.disk Demo.docsDir Demo.api_defaults) = 0
  /\ ListOutput.listApis (H := Demo.loader2) (H1 := Demo.cases)
       (H2 := Demo.json) Demo.disk_hollow_api Demo.docsDir Demo.api_defaults
     = (Process.Raise TypeError, [])
  /\ fst (check (H := Demo.loader2) Demo.disk_hollow_api Demo.docsDir
            Demo.quiet result0)
     = (Ret 0, {| totalChecks := 7; totalErrors := 0; totalWarnings := 0 |}).
Proof.
  destruct (X14_list_apis_throws_exactly_on_a_hollow_contract
              (H := Demo.loader) (H0 := Demo.collator) (H1 := Demo.cases)
              (H2 := Demo.json) Demo.disk Demo.docsDir
              (VObj [("/login",
                      VObj [("post", VObj [("summary", VStr "Log in")])])])
              eq_refl eq_refl)
    as [Hsolid _].
  destruct (X14_list_apis_throws_exactly_on_a_hollow_contract
              (H := Demo.loader2) (H0 := Demo.collator) (H1 := Demo.cases)
              (H2 := Demo.json) Demo.disk_hollow_api Demo.docsDir
              (VObj [("/login",
                      VObj [("post", VObj [("summary", VStr "Log in")])]);
                     ("/logout", VNull)])
              eq_refl eq_refl)
    as [_ Hhollow].
  split; [|split; [|vm_compute; reflexivity]].
  - destruct (Hsolid eq_refl Demo.api_defaults) as (a & out & ->).
    reflexivity.
  - destruct (Hhollow eq_refl) as [Hthrows _]. apply Hthrows.
Defined.

(* ===================================================================== *)
(** * info *)
(* ===================================================================== *)

Section Info.
Context `{YamlLoader}.

Lemma completes_statusStep fs file c : completes (InfoCmd.statusStep fs file c).
Proof. unfold InfoCmd.statusStep. repeat completes_step. Qed.

Lemma completes_tallyBlock fs dir heading :
  completes (InfoCmd.tallyBlock fs dir heading).
Proof.
  unfold InfoCmd.tallyBlock. repeat completes_step.
  apply completes_statusStep.
Qed.

Lemma folded_count_status status c :
  folded (InfoCmd.count_status status c)
  = CheckCmd.count_status status (folded c).
Proof.
  unfold InfoCmd.count_status, CheckCmd.count_status, folded.
  destruct (String.eqb status "complete"); [reflexivity|].
  destruct (String.eqb status "in-progress"); cbn [fst snd];
    f_equal; cbn [InfoCmd.completeCount InfoCmd.inProgressCount
                  InfoCmd.incompleteCount]; lia.
Qed.

Lemma total_count_status status c :
  InfoCmd.completeCount (InfoCmd.count_status status c)
  + InfoCmd.inProgressCount (InfoCmd.count_status status c)
  + InfoCmd.incompleteCount (InfoCmd.count_status status c)
  = S (InfoCmd.completeCount c + InfoCmd.inProgressCount c
       + InfoCmd.incompleteCount c).
Proof.
  unfold InfoCmd.count_status.
  destruct (String.eqb status "complete"); [simpl; lia|].
  destruct (String.eqb status "in-progress"); simpl; lia.
Qed.

(** One file, seen by the three tallying loops. *)
Lemma tally_step fs file c :
  exists c',
    InfoCmd.statusStep fs file c = (Process.Value c', [])
    /\ InfoCmd.completeCount c' + InfoCmd.inProgressCount c'
       + InfoCmd.incompleteCount c'
       = (if loads fs file then 1 else 0)
         + (InfoCmd.completeCount c + InfoCmd.inProgressCount c
            + InfoCmd.incompleteCount c)
    /\ (forall r, exists r' out,
          featureStep fs file (folded c) r = (Ret (folded c'), r', out))
    /\ (forall r, exists r' out,
          storyStep fs file (folded c) r = (Ret (folded c'), r', out)).
Proof.
  unfold InfoCmd.statusStep, featureStep, storyStep, loads, Js.truthy.
  lazy zeta.
  destruct (Js.falsy (loadYaml fs file)) eqn:Hf; cbn [negb].
  - exists c. repeat split; unfold ret; eauto.
  - destruct (getString_truthy _ "status" Hf) as [status Hstatus].
    destruct (getString_truthy _ "feature_id" Hf) as [featureId HfeatureId].
    destruct (getString_truthy _ "story_id" Hf) as [storyId HstoryId].
    destruct (getNestedString_truthy _ "user_story" "as_a" Hf) as [asA HasA].
    exists (InfoCmd.count_status status c).
    rewrite Hstatus, HfeatureId, HstoryId, HasA.
    split; [reflexivity|]. split; [now rewrite total_count_status|].
    rewrite folded_count_status. split; intros r.
    + unfold bind at 1. unfold lift at 1. unfold bind at 1. unfold lift at 1.
      cbn [app].
      destruct (returns_checkYamlField fs file "summary"
                  ("Feature " ++ featureId) r) as (b & r' & out & Hrun).
      unfold bind. rewrite Hrun. unfold ret. eauto.
    + unfold bind, lift, when, ret.
      destruct (_ || _); unfold logWarn, bind, modify, console_log; eauto.
Qed.

Lemma tally_loops fs files c :
  exists c',
    Process.forEachAcc (InfoCmd.statusStep fs) files c = (Process.Value c', [])
    /\ InfoCmd.completeCount c' + InfoCmd.inProgressCount c'
       + InfoCmd.incompleteCount c'
       = List.length (filter (loads fs) files)
         + (InfoCmd.completeCount c + InfoCmd.inProgressCount c
            + InfoCmd.incompleteCount c)
    /\ (forall r, exists r' out,
          forEachAcc (featureStep fs) files (folded c) r
          = (Ret (folded c'), r', out))
    /\ (forall r, exists r' out,
          forEachAcc (storyStep fs) files (folded c) r
          = (Ret (folded c'), r', out)).
Proof.
  revert c. induction files as [|file files IH]; intros c.
  - exists c. cbn [Process.forEachAcc forEachAcc filter List.length].
    repeat split; intros; unfold ret; eauto.
  - destruct (tally_step fs file c) as (c1 & Hstep & Hsum1 & Hf1 & Hs1).
    destruct (IH c1) as (c2 & Hloop & Hsum2 & Hf2 & Hs2).
    exists c2. cbn [Process.forEachAcc forEachAcc filter].
    rewrite Hstep. unfold Process.bind. rewrite Hloop.
    split; [reflexivity|]. split.
    + rewrite Hsum2, Hsum1. destruct (loads fs file); simpl; lia.
    + split; intros r.
      * destruct (Hf1 r) as (r1 & o1 & Hrun1).
        destruct (Hf2 r1) as (r2 & o2 & Hrun2).
        unfold bind. rewrite Hrun1, Hrun2. eauto.
      * destruct (Hs1 r) as (r1 & o1 & Hrun1).
        destruct (Hs2 r1) as (r2 & o2 & Hrun2).
        unfold bind. rewrite Hrun1, Hrun2. eauto.
Qed.
End Info.

(** X15. [info] and [check] tally the same files the same way. Over
    any list of files the three counts of [info] add up to the number
    of files that load; its complete count is the one [check] reports
    for feature specs and for stories, and what [check] calls
    incomplete is the sum of the in-progress and incomplete counts of
    [info]. *)
Theorem X15_info_and_check_tally_the_same_way :
  forall `{YamlLoader} (fs : node) (files : list path),
    exists c,
      Process.forEachAcc (InfoCmd.statusStep fs) files InfoCmd.zero
      = (Process.Value c, [])
      /\ InfoCmd.completeCount c + InfoCmd.inProgressCount c
         + InfoCmd.incompleteCount c
         = List.length (filter (loads fs) files)
      /\ (forall r, exists r' out,
            forEachAcc (featureStep fs) files (0, 0) r
            = (Ret (InfoCmd.completeCount c,
                    InfoCmd.inProgressCount c + InfoCmd.incompleteCount c),
               r', out))
      /\ (forall r, exists r' out,
            forEachAcc (storyStep fs) files (0, 0) r
            = (Ret (InfoCmd.completeCount c,
                    InfoCmd.inProgressCount c + InfoCmd.incompleteCount c),
               r', out)).
Proof.
  intros L fs files.
  destruct (tally_loops fs files InfoCmd.zero) as (c & Hloop & Hsum & Hf & Hs).
  exists c. split; [exact Hloop|]. split; [simpl in Hsum; lia|].
  split; assumption.
Qed.

(** X16. [info] fails only for want of the root: when the directory
    exists it returns, whatever the files hold; when it does not, it
    prints the banner and one line and ends with status 1. *)
Theorem X16_info_fails_only_for_want_of_the_root :
  forall `{YamlLoader} (fs : node) (docsDir : path),
    (existsSync fs docsDir = true -> completes (InfoCmd.info fs docsDir))
    /\ (existsSync fs docsDir = false ->
        InfoCmd.info fs docsDir
        = (Process.Exit 1,
           [CheckCmd.rule; "Project Documentation Info"; CheckCmd.rule; "";
            "✗ Documentation directory not found: "
            ++ Path.to_string docsDir])).
Proof.
  intros L fs docsDir. split; intros Hroot; unfold InfoCmd.info;
    rewrite Hroot; cbn [negb]; [|reflexivity].
  pose proof (completes_tallyBlock fs) as Hblock.
  repeat first [apply Hblock | completes_step].
Qed.

Lemma X16_info_witness :
  Process.status (InfoCmd.info (H := Demo.loader) Demo.disk Demo.docsDir) = 0
  /\ Process.status (InfoCmd.info (H := Demo.loader) Demo.disk
                       ["home"; "nowhere"]) = 1.
Proof.
  destruct (X16_info_fails_only_for_want_of_the_root (H := Demo.loader)
              Demo.disk Demo.docsDir) as [Hreturns _].
  destruct (X16_info_fails_only_for_want_of_the_root (H := Demo.loader)
              Demo.disk ["home"; "nowhere"]) as [_ Hexits].
  split.
  - destruct (Hreturns eq_refl) as (a & out & ->). reflexivity.
  - rewrite (Hexits eq_refl). reflexivity.
Defined.

(* ===================================================================== *)
(** * template *)
(* ===================================================================== *)

Section Template.

Lemma existsb_assoc {A} (key : string) (l : list (string * A)) :
  existsb (String.eqb key) (map fst l)
  = match Js.assoc key l with Some _ => true | None => false end.
Proof.
  induction l as [|[k v] l IH]; [reflexivity|].
  cbn [map fst existsb Js.assoc]. rewrite (String.eqb_sym key k).
  destruct (String.eqb k key); [reflexivity | exact IH].
Qed.

Lemma template_run templatesDir fs type :
  TemplateCmd.template templatesDir fs type
  = match Js.assoc type TemplateCmd.TEMPLATE_MAP with
    | None =>
        (Process.Exit 1,
         ("Error: Invalid template type '" ++ type ++ "'")
           :: TemplateCmd.usage)
    | Some fileName =>
        match readFileSync fs (join templatesDir fileName) with
        | Ret content => (Process.Value tt, [content])
        | Throw (ENOENT _) =>
            (Process.Exit 1,
             ["Error: Template file not found: "
              ++ Path.to_string (join templatesDir fileName);
              "This may indicate an installation issue."])
        | Throw error =>
            (Process.Exit 1,
             ["Error: Failed to read template file: " ++ Js.exn_text error])
        end
    end.
Proof.
  unfold TemplateCmd.template. lazy zeta. rewrite existsb_assoc.
  destruct (Js.assoc type TemplateCmd.TEMPLATE_MAP) as [fileName|];
    [|reflexivity].
  cbn [negb]. unfold Process.ret at 1. rewrite bind_value. cbn [fst snd app].
  rewrite bind_lift_ret.
  unfold readFileSync, existsSync.
  destruct (lookup fs (join templatesDir fileName)) as [[content|es]|];
    reflexivity.
Qed.
End Template.

(** X17. [template] prints the text of the file of a known type as its
    only output, and otherwise ends with status 1: for a type that is
    not one of the twelve keys it prints the list of types, without
    looking at the disk; it never throws. *)
Theorem X17_template_prints_the_file_or_ends_with_status_1 :
  forall (templatesDir : path) (fs : node) (type : string),
    (forall fileName content,
        Js.assoc type TemplateCmd.TEMPLATE_MAP = Some fileName ->
        readFileSync fs (join templatesDir fileName) = Ret content ->
        TemplateCmd.template templatesDir fs type
        = (Process.Value tt, [content]))
    /\ (Js.assoc type TemplateCmd.TEMPLATE_MAP = None ->
        TemplateCmd.template templatesDir fs type
        = (Process.Exit 1,
           ("Error: Invalid template type '" ++ type ++ "'")
             :: TemplateCmd.usage))
    /\ (Process.status (TemplateCmd.template templatesDir fs type) = 0
        <-> exists fileName content,
              Js.assoc type TemplateCmd.TEMPLATE_MAP = Some fileName
              /\ readFileSync fs (join templatesDir fileName) = Ret content)
    /\ Process.status (TemplateCmd.template templatesDir fs type) <= 1.
Proof.
  intros templatesDir fs type. rewrite template_run.
  split; [|split; [|split]].
  - intros fileName content -> ->. reflexivity.
  - intros ->. reflexivity.
  - destruct (Js.assoc type TemplateCmd.TEMPLATE_MAP) as [fileName|].
    + destruct (readFileSync fs (join templatesDir fileName)) as [content|e]
        eqn:Hread.
      * split; [|reflexivity].
        intros _. exists fileName, content. split; [reflexivity | exact Hread].
      * split; [destruct e; discriminate|].
        intros (f & c & [= <-] & Hc). congruence.
    + split; [discriminate|]. intros (f & c & Hf & _). discriminate.
  - destruct (Js.assoc type TemplateCmd.TEMPLATE_MAP) as [fileName|];
      [|unfold Process.status; simpl; lia].
    destruct (readFileSync fs (join templatesDir fileName)) as [content|e];
      [|destruct e]; unfold Process.status; simpl; lia.
Qed.

Lemma X17_template_witness :
  TemplateCmd.template Demo.templatesDir Demo.disk_templates "user-story"
  = (Process.Value tt, ["story_id: US-###"]).
Proof.
  destruct (X17_template_prints_the_file_or_ends_with_status_1
              Demo.templatesDir Demo.disk_templates "user-story")
    as (Hprints & _).
  apply (Hprints "user-story.yaml"); reflexivity.
Defined.

(** X18. Two of the hints [check] prints lead nowhere: when
    [api-contracts.yaml] or [data-plan.yaml] is missing the hint tells
    to run [pdocs template api-contracts] or [pdocs template
    data-plan], and [template] rejects both types with status 1
    whatever is installed. *)
Theorem X18_two_hints_of_check_name_no_template :
  forall `{YamlLoader} (fs : node) (docsDir : path) (verbose : bool)
         (r : CheckResult) (templatesDir : path) (fs' : node),
    (existsSync fs (join docsDir "api-contracts.yaml") = false ->
     In (hint_line "api-contracts")
        (snd (checkApiContracts fs docsDir verbose r)))
    /\ (existsSync fs (join docsDir "data-plan.yaml") = false ->
        In (hint_line "data-plan") (snd (checkDataPlan fs docsDir verbose r)))
    /\ Commands.status
         (Commands.templateCommand templatesDir "api-contracts" fs') = 1
    /\ Commands.status
         (Commands.templateCommand templatesDir "data-plan" fs') = 1.
Proof.
  intros L fs docsDir verbose r templatesDir fs'.
  split; [|split; [|split]].
  - intros Hmissing. unfold checkApiContracts, checkFileExists. lazy zeta.
    rewrite Hmissing. destruct verbose; simpl; tauto.
  - intros Hmissing. unfold checkDataPlan, checkFileExists. lazy zeta.
    rewrite Hmissing. destruct verbose; simpl; tauto.
  - unfold Commands.templateCommand. cbn [Commands.status].
    now rewrite template_run.
  - unfold Commands.templateCommand. cbn [Commands.status].
    now rewrite template_run.
Qed.

Lemma X18_hints_witness :
  In (hint_line "api-contracts")
     (snd (checkApiContracts (H := Demo.loader) Demo.disk_documented
             Demo.docsDir false result0))
  /\ Commands.status
       (Commands.templateCommand Demo.templatesDir "api-contracts"
          Demo.disk_templates) = 1.
Proof.
  destruct (X18_two_hints_of_check_name_no_template (H := Demo.loader)
              Demo.disk_documented Demo.docsDir false result0
              Demo.templatesDir Demo.disk_templates)
    as (Hapi & _ & Hrejected & _).
  split; [apply Hapi; reflexivity | exact Hrejected].
Defined.

(* ===================================================================== *)
(** * The list command *)
(* ===================================================================== *)

(** X19. [pdocs list] rejects a type that is none of the four only
    after it has found the root and installed [CLAUDE.md]: with the
    file absent and the template readable, the run ends with status 1,
    prints the confirmation of the install before the two lines of the
    error, and leaves [docs/CLAUDE.md] on the disk with the text of the
    template. *)
Theorem X19_list_installs_before_it_rejects_the_type :
  forall `{YamlLoader} `{Collator} `{CaseMapping} `{JsonStringifier}
         `{NumberText}
         (templatePath cwd : path) (type : string) (options : ListArgs.t)
         (fs : node) (docsDir : path) (content : string),
    findDocsDir fs cwd = Some docsDir ->
    existsb (String.eqb type) Commands.validTypes = false ->
    existsSync fs (join docsDir "CLAUDE.md") = false ->
    readFileSync fs templatePath = Ret content ->
    Commands.status (Commands.listCommand templatePath cwd type options fs) = 1
    /\ Commands.stdout (Commands.listCommand templatePath cwd type options fs)
       = ["✓ Installed CLAUDE.md in docs/ directory";
          "Error: Invalid list type '" ++ type ++ "'";
          "Valid types: features, apis, stories, flows"]
    /\ readFileSync
         (Commands.disk (Commands.listCommand templatePath cwd type options fs))
         (join docsDir "CLAUDE.md")
       = Ret content.
Proof.
  intros L C M J N templatePath cwd type options fs docsDir content
    Hfind Htype Hnew Hread.
  assert (Hdir : isDirectory fs docsDir = true).
  { destruct (findDocsDir_sound fs cwd docsDir Hfind)
      as (d & rest & _ & _ & -> & Hdocs & _). exact Hdocs. }
  destruct (ensureClaudeDoc_writes templatePath fs docsDir content
              Hnew Hread Hdir) as (fs' & Hw & Hrun).
  unfold Commands.listCommand, Commands.underDocs.
  rewrite Hfind, Hrun, Htype. cbn [negb].
  split; [reflexivity|]. split; [reflexivity|].
  cbn [Commands.disk]. unfold readFileSync.
  now rewrite (lookup_after_write _ _ _ _ Hw).
Qed.

Lemma X19_list_installs_witness :
  Commands.status
    (Commands.listCommand (H := Demo.loader) (H0 := Demo.collator)
       (H1 := Demo.cases) (H2 := Demo.json) (H3 := Demo.numbers)
       Demo.templatePath Demo.cwd "feature" Demo.no_args Demo.disk) = 1
  /\ readFileSync
       (Commands.disk
          (Commands.listCommand (H := Demo.loader) (H0 := Demo.collator)
             (H1 := Demo.cases) (H2 := Demo.json) (H3 := Demo.numbers)
             Demo.templatePath Demo.cwd "feature" Demo.no_args Demo.disk))
       (join Demo.docsDir "CLAUDE.md")
     = Ret "# Quick reference".
Proof.
  destruct (X19_list_installs_before_it_rejects_the_type
              (H := Demo.loader) (H0 := Demo.collator) (H1 := Demo.cases)
              (H2 := Demo.json) (H3 := Demo.numbers) Demo.templatePath Demo.cwd "feature"
              Demo.no_args Demo.disk Demo.docsDir "# Quick reference"
              eq_refl eq_refl eq_refl eq_refl)
    as (Hstatus & _ & Hdisk).
  split; assumption.
Defined.

(* ===================================================================== *)
(** * The check command, end to end *)
(* ===================================================================== *)

Section WholeCommand.
Context `{YamlLoader}.

(** Installing [CLAUDE.md] makes none of the required places appear or
    disappear. *)
Lemma missing_places_after_install templatePath fs docsDir :
  missing_places (fst (ensureClaudeDoc templatePath fs docsDir)) docsDir
  = missing_places fs docsDir.
Proof.
  destruct (ensureClaudeDoc_cases templatePath fs docsDir)
    as [-> | (_ & content & Hw)]; [reflexivity|].
  unfold missing_places. apply filter_ext_in. intros place Hplace.
  f_equal. unfold existsSync, join.
  rewrite (lookup_write_sibling docsDir "CLAUDE.md" place [] _ _ _ Hw);
    [reflexivity|].
  simpl in Hplace.
  repeat (destruct Hplace as [<- | Hplace]; [discriminate|]).
  contradiction.
Qed.

Lemma root_after_install templatePath fs docsDir :
  existsSync fs docsDir = true ->
  existsSync (fst (ensureClaudeDoc templatePath fs docsDir)) docsDir = true.
Proof.
  intros Hroot.
  destruct (ensureClaudeDoc_cases templatePath fs docsDir)
    as [-> | (_ & content & Hw)]; [exact Hroot|].
  exact (proj2 (exists_write_parent _ _ _ _ _ Hw)).
Qed.

Lemma found_root_exists fs cwd docsDir :
  findDocsDir fs cwd = Some docsDir -> existsSync fs docsDir = true.
Proof.
  intros Hfind.
  destruct (findDocsDir_sound fs cwd docsDir Hfind)
    as (d & rest & _ & _ & -> & Hdocs & _).
  unfold has_docs, isDirectory in Hdocs. unfold existsSync.
  now destruct (lookup fs (join d "docs")).
Qed.
End WholeCommand.

(** X20. The [check] command ends with status 0 exactly when a root is
    found from the working directory and none of the eight required
    places is missing under it, whatever the options, whatever the
    files hold, and whether or not [CLAUDE.md] gets installed on the
    way. *)
Theorem X20_check_command_passes_exactly_on_a_complete_tree :
  forall `{YamlLoader} (templatePath cwd : path) (opts : CheckCmd.options)
         (fs : node),
    Cli.exitCode (Cli.checkCommand templatePath cwd opts fs) = 0
    <-> exists docsDir,
          findDocsDir fs cwd = Some docsDir
          /\ missing_places fs docsDir = [].
Proof.
  intros L templatePath cwd opts fs.
  destruct (findDocsDir fs cwd) as [docsDir|] eqn:Hfind.
  - destruct (checkCommand_found templatePath cwd opts fs docsDir Hfind)
      as (_ & _ & ->).
    pose proof (root_after_install templatePath fs docsDir
                  (found_root_exists fs cwd docsDir Hfind)) as Hroot.
    destruct (adds_check _ docsDir opts Hroot result0)
      as (code & r' & out & Hrun & He).
    destruct (check_exit (fst (ensureClaudeDoc templatePath fs docsDir))
                docsDir opts result0)
      as (code' & r'' & out' & Hrun' & Hiff).
    rewrite Hrun in Hrun'. injection Hrun' as <- <- <-.
    rewrite Hrun. cbn [fst]. rewrite Hiff, He.
    rewrite missing_places_after_install. cbn [totalErrors result0].
    split.
    + intros Hzero. exists docsDir. split; [reflexivity|].
      destruct (missing_places fs docsDir); [reflexivity | discriminate].
    + intros (d & [= <-] & ->). reflexivity.
  - unfold Cli.checkCommand. rewrite Hfind. cbn [Cli.exitCode].
    split; [discriminate|]. intros (d & Hd & _). discriminate.
Qed.

(* ===================================================================== *)
(** * What info prints *)
(* ===================================================================== *)

Section Silence.
Import Process.
Context `{YamlLoader}.
Variable line : string.

Lemma silent_ret {A} (a : A) : silent_about line (ret a).
Proof. intros []. Qed.

Lemma silent_bind {A B} (m : P A) (k : A -> P B) :
  silent_about line m -> (forall a, silent_about line (k a)) ->
  silent_about line (bind m k).
Proof.
  unfold silent_about, bind. intros Hm Hk.
  destruct m as [[a|code|e] out1]; try exact Hm.
  specialize (Hk a). destruct (k a) as [s out2]. cbn [snd] in *.
  intros Hin. apply in_app_or in Hin. tauto.
Qed.

Lemma silent_console_log other :
  other <> line -> silent_about line (console_log other).
Proof. intros Hne [Heq | []]. contradiction. Qed.

Lemma silent_exit {A} code : silent_about line (@exit A code).
Proof. intros []. Qed.

Lemma silent_lift {A} (o : outcome A) : silent_about line (lift o).
Proof. destruct o; intros []. Qed.

Lemma silent_forEachAcc {A S} (cb : A -> S -> P S) (l : list A) (s : S) :
  (forall x s', silent_about line (cb x s')) ->
  silent_about line (forEachAcc cb l s).
Proof.
  intros Hcb. revert s. induction l as [|x l IH]; intros s; simpl.
  - apply silent_ret.
  - apply silent_bind; [apply Hcb | intros s'; apply IH].
Qed.

(** What a computation that returns has printed stays printed. *)
Lemma In_after {A B} (m : P A) (k : A -> P B) :
  completes m -> (forall a, In line (snd (k a))) ->
  In line (snd (bind m k)).
Proof.
  intros (a & out & ->) Hk. unfold bind. specialize (Hk a).
  destruct (k a) as [s out2]. cbn [snd] in *. apply in_or_app. now right.
Qed.

Lemma In_before {A B} (m : P A) (k : A -> P B) :
  In line (snd m) -> In line (snd (bind m k)).
Proof.
  unfold bind. destruct m as [[a|code|e] out1]; cbn [snd]; try tauto.
  intros Hin. destruct (k a) as [s out2]. cbn [snd]. apply in_or_app.
  now left.
Qed.
End Silence.

(** One step of a proof that a line is never printed. *)
Ltac silent_step :=
  lazy zeta;
  match goal with
  | |- silent_about _ (Process.bind _ _) => apply silent_bind; [|intros]
  | |- silent_about _ (Process.ret _) => apply silent_ret
  | |- silent_about _ (Process.exit _) => apply silent_exit
  | |- silent_about _ (Process.lift _) => apply silent_lift
  | |- silent_about _ (Process.console_log _) =>
      apply silent_console_log;
      let Heq := fresh in
      intros Heq; first [discriminate Heq | cbv in Heq; discriminate Heq]
  | |- silent_about _ (Process.forEachAcc _ _ _) =>
      apply silent_forEachAcc; intros
  | |- silent_about _ (if ?c then _ else _) => destruct c eqn:?
  end.

(** X21. [info] counts API contracts in a directory that [check] never
    asks for: under an existing root it prints its block on API
    contracts exactly when [docs/api-contracts] exists, whatever
    [docs/api-contracts.yaml], the file [check] requires and [list
    apis] reads, may hold. *)
Theorem X21_info_counts_api_contracts_in_a_directory :
  forall `{YamlLoader} (fs : node) (docsDir : path),
    existsSync fs docsDir = true ->
    (In "API Contracts:" (snd (InfoCmd.info fs docsDir))
     <-> existsSync fs (join docsDir "api-contracts") = true).
Proof.
  intros L fs docsDir Hroot. split.
  - intros Hin.
    destruct (existsSync fs (join docsDir "api-contracts")) eqn:Hdir;
      [reflexivity|].
    exfalso. revert Hin. change (silent_about "API Contracts:"
                                   (InfoCmd.info fs docsDir)).
    unfold InfoCmd.info, InfoCmd.tallyBlock, InfoCmd.statusStep.
    rewrite Hdir. repeat silent_step.
  - intros Hdir. unfold InfoCmd.info. rewrite Hroot, Hdir. cbn [negb].
    pose proof (completes_tallyBlock fs) as Hblock.
    do 11 (apply In_after;
           [repeat first [apply Hblock | completes_step] | intros _]).
    apply In_before. simpl. tauto.
Qed.

Lemma X21_info_witness :
  existsSync Demo.disk (join Demo.docsDir "api-contracts.yaml") = true
  /\ ~ In "API Contracts:"
         (snd (InfoCmd.info (H := Demo.loader) Demo.disk Demo.docsDir)).
Proof.
  split; [reflexivity|]. intros Hin.
  apply (X21_info_counts_api_contracts_in_a_directory (H := Demo.loader)
           Demo.disk Demo.docsDir eq_refl) in Hin.
  discriminate Hin.
Defined.

(* ===================================================================== *)
(** * How many checks a run performs *)
(* ===================================================================== *)

Section Checks.
Context `{YamlLoader}.
Local Open Scope check_scope.

Lemma checks_logCheck message verbose :
  adds totalChecks 1 (logCheck message verbose).
Proof.
  intros r. unfold logCheck, bind, modify, when, console_log, ret.
  destruct verbose; do 3 eexists; split; reflexivity.
Qed.

Lemma checks_checkFileExists fs file label verbose templateType :
  adds totalChecks 1 (checkFileExists fs file label verbose templateType).
Proof.
  unfold checkFileExists.
  apply (adds_bind _ 1 0); [apply checks_logCheck | intros _]. keeps_tac.
Qed.

Lemma checks_checkYamlField fs file field label :
  adds totalChecks 0 (checkYamlField fs file field label).
Proof. unfold checkYamlField. keeps_tac. Qed.

(** The shape shared by the single-file categories. *)
Lemma checks_single_file {A} fs file label verbose templateType header
    (rest : M A) (none : M A) :
  adds totalChecks 0 rest -> adds totalChecks 0 none ->
  adds totalChecks 1
    (console_log header ;;
     found <- checkFileExists fs file label verbose templateType ;;
     if negb found then none else rest).
Proof.
  intros Hrest Hnone.
  apply (adds_bind _ 0 1); [apply adds_console_log | intros _].
  apply (adds_bind _ 1 0); [apply checks_checkFileExists|].
  intros found. now destruct found.
Qed.

Lemma checks_checkPrd fs docsDir verbose :
  adds totalChecks 1 (checkPrd fs docsDir verbose).
Proof.
  pose proof checks_checkYamlField.
  unfold checkPrd. apply checks_single_file; keeps_tac.
Qed.

Lemma checks_checkSystemDesign fs docsDir verbose :
  adds totalChecks 1 (checkSystemDesign fs docsDir verbose).
Proof.
  pose proof checks_checkYamlField.
  unfold checkSystemDesign. apply checks_single_file; keeps_tac.
Qed.

Lemma checks_checkApiContracts fs docsDir verbose :
  adds totalChecks 1 (checkApiContracts fs docsDir verbose).
Proof. unfold checkApiContracts. apply checks_single_file; keeps_tac. Qed.

Lemma checks_checkDataPlan fs docsDir verbose :
  adds totalChecks 1 (checkDataPlan fs docsDir verbose).
Proof. unfold checkDataPlan. apply checks_single_file; keeps_tac. Qed.

Lemma checks_checkDesignSpec fs docsDir verbose :
  adds totalChecks 1 (checkDesignSpec fs docsDir verbose).
Proof.
  pose proof checks_checkYamlField.
  unfold checkDesignSpec. apply checks_single_file; keeps_tac.
Qed.

Lemma checks_forEach {A} (cb : A -> M unit) (l : list A) :
  (forall x, adds totalChecks 1 (cb x)) ->
  adds totalChecks (List.length l) (forEach cb l).
Proof.
  intros Hcb. induction l as [|x l IH]; simpl.
  - apply adds_ret.
  - apply (adds_bind _ 1 (List.length l)); [apply Hcb | intros _; exact IH].
Qed.

Lemma checks_flowStep fs verbose flowFile :
  adds totalChecks 1 (flowStep fs verbose flowFile).
Proof.
  unfold flowStep.
  apply (adds_bind _ 1 0); [apply checks_logCheck | intros _]. keeps_tac.
Qed.

Lemma checks_checkUserFlows fs docsDir verbose :
  adds totalChecks
       (List.length (findYamlFiles fs (join docsDir "user-flows")))
       (checkUserFlows fs docsDir verbose).
Proof.
  unfold checkUserFlows. lazy zeta.
  apply (adds_bind _ 0); [apply adds_console_log | intros _].
  destruct (existsSync fs (join docsDir "user-flows")) eqn:Hex; cbn [negb].
  - apply (adds_bind _ 0); [apply adds_logInfo | intros _].
    destruct (findYamlFiles fs (join docsDir "user-flows")) as [|file files]
      eqn:Hfiles.
    + cbn [List.length Nat.eqb]. keeps_tac.
    + change (Nat.eqb (List.length (file :: files)) 0) with false. cbv iota.
      apply (checks_forEach (flowStep fs verbose) (file :: files)).
      intros x. apply checks_flowStep.
  - rewrite (findYamlFiles_missing _ _ Hex). keeps_tac.
Qed.

Lemma checks_checkUserStories fs docsDir verbose :
  adds totalChecks 0 (checkUserStories fs docsDir verbose).
Proof. unfold checkUserStories, storyStep. keeps_tac. Qed.

Lemma checks_checkFeatureSpecs fs docsDir verbose :
  adds totalChecks 0 (checkFeatureSpecs fs docsDir verbose).
Proof.
  pose proof checks_checkYamlField.
  unfold checkFeatureSpecs, featureStep. keeps_tac.
Qed.

Lemma after_specs_checks fs docsDir featureIds r :
  totalChecks (after_specs fs docsDir featureIds r)
  = (if existsSync fs (join docsDir "feature-specs")
     then List.length featureIds else 0) + totalChecks r.
Proof.
  unfold after_specs.
  destruct (existsSync fs (join docsDir "feature-specs")); [|reflexivity].
  revert r. induction featureIds as [|featureId ids IH]; intros r; simpl.
  - reflexivity.
  - rewrite IH. destruct (has_specification fs docsDir featureId); simpl; lia.
Qed.

Lemma prd_feature_ids_falsy fs docsDir :
  Js.falsy (loadYaml fs (join docsDir "product-requirements.yaml")) = true ->
  prd_feature_ids fs docsDir = [].
Proof.
  unfold prd_feature_ids, getArray.
  destruct (loadYaml fs (join docsDir "product-requirements.yaml"));
    try discriminate; reflexivity.
Qed.

Lemma checks_checkCrossReferences fs docsDir checkLinks verbose :
  adds totalChecks (crossref_checks fs docsDir checkLinks)
       (checkCrossReferences fs docsDir checkLinks verbose).
Proof.
  unfold crossref_checks. destruct checkLinks; cbn [andb];
    [|unfold checkCrossReferences; cbn [negb]; apply adds_ret].
  destruct (Js.falsy (loadYaml fs (join docsDir "product-requirements.yaml")))
    eqn:Hprd.
  - rewrite (prd_feature_ids_falsy _ _ Hprd).
    replace (if existsSync fs (join docsDir "feature-specs")
             then List.length (@nil string) else 0) with 0
      by (now destruct (existsSync fs (join docsDir "feature-specs"))).
    unfold checkCrossReferences. cbn [negb]. lazy zeta. rewrite Hprd.
    keeps_tac.
  - destruct (prd_feature_ids fs docsDir) as [|id0 ids] eqn:Hids.
    + replace (if existsSync fs (join docsDir "feature-specs")
               then List.length (@nil string) else 0) with 0
        by (now destruct (existsSync fs (join docsDir "feature-specs"))).
      intros r. revert Hids. unfold prd_feature_ids, checkCrossReferences.
      cbn [negb]. lazy zeta. rewrite Hprd.
      destruct (getArray_truthy _ "features" Hprd) as [features Hfeat].
      destruct (mapO_returns featureIdOf features featureIdOf_returns)
        as [found Hmap].
      rewrite Hfeat, Hmap. intros Hids.
      rewrite bind_console_run, bind_lift_run, Hmap, bind_lift_run.
      rewrite Hids. do 3 eexists. split; reflexivity.
    + intros r.
      assert (Hne : prd_feature_ids fs docsDir <> [])
        by (rewrite Hids; discriminate).
      rewrite (checkCrossReferences_run fs docsDir verbose r Hprd Hne).
      do 3 eexists. split; [reflexivity|].
      cbn [totalChecks add_warnings]. rewrite after_specs_checks.
      now rewrite Hids.
Qed.

Lemma checks_check fs docsDir opts :
  existsSync fs docsDir = true ->
  adds totalChecks
       (1 + (List.length (findYamlFiles fs (join docsDir "user-flows"))
             + (0 + (0 + (1 + (1 + (1 + (1
                + (crossref_checks fs docsDir (CheckCmd.checkLinks opts)
                   + 0)))))))))
       (check fs docsDir opts).
Proof.
  intros Hroot. unfold check. rewrite Hroot. cbn [negb].
  set (flows := List.length (findYamlFiles fs (join docsDir "user-flows"))).
  set (links := crossref_checks fs docsDir (CheckCmd.checkLinks opts)).
  do 5 (apply (adds_bind _ 0); [apply adds_console_log | intros _]).
  apply (adds_bind _ 1 (flows + (0 + (0 + (1 + (1 + (1 + (1 + (links + 0)))))))));
    [apply checks_checkPrd | intros _].
  apply (adds_bind _ flows (0 + (0 + (1 + (1 + (1 + (1 + (links + 0))))))));
    [apply checks_checkUserFlows | intros _].
  apply (adds_bind _ 0 (0 + (1 + (1 + (1 + (1 + (links + 0)))))));
    [apply checks_checkUserStories | intros _].
  apply (adds_bind _ 0 (1 + (1 + (1 + (1 + (links + 0))))));
    [apply checks_checkFeatureSpecs | intros _].
  apply (adds_bind _ 1 (1 + (1 + (1 + (links + 0)))));
    [apply checks_checkSystemDesign | intros _].
  apply (adds_bind _ 1 (1 + (1 + (links + 0))));
    [apply checks_checkApiContracts | intros _].
  apply (adds_bind _ 1 (1 + (links + 0)));
    [apply checks_checkDataPlan | intros _].
  apply (adds_bind _ 1 (links + 0));
    [apply checks_checkDesignSpec | intros _].
  apply (adds_bind _ links 0);
    [apply checks_checkCrossReferences | intros _].
  apply adds_generateSummary.
Qed.
End Checks.

(** X22. The number of checks a run reports. When the root exists
    [check] returns, and its count of checks has grown by five, one
    for each of the single-file categories, plus one for each YAML
    file of [user-flows], plus, when the cross-reference pass runs and
    [feature-specs] exists, one for each feature identifier of the PRD.
    The files of [user-stories] and of [feature-specs] and the three
    directories themselves are not counted. *)
Theorem X22_checks_performed :
  forall `{YamlLoader} (fs : node) (docsDir : path) (opts : CheckCmd.options)
         (r : CheckResult),
    existsSync fs docsDir = true ->
    exists code r' out,
      check fs docsDir opts r = (Ret code, r', out)
      /\ totalChecks r'
         = totalChecks r + 5
           + List.length (findYamlFiles fs (join docsDir "user-flows"))
           + crossref_checks fs docsDir (CheckCmd.checkLinks opts).
Proof.
  intros L fs docsDir opts r Hroot.
  destruct (checks_check fs docsDir opts Hroot r)
    as (code & r' & out & Hrun & Hchecks).
  exists code, r', out. split; [exact Hrun | lia].
Qed.

Lemma X22_checks_witness :
  existsSync Demo.disk Demo.docsDir = true
  /\ totalChecks (snd (fst (check (H := Demo.loader) Demo.disk Demo.docsDir
                              Demo.quiet result0))) = 8.
Proof.
  split; [reflexivity|].
  destruct (X22_checks_performed (H := Demo.loader) Demo.disk Demo.docsDir
              Demo.quiet result0 eq_refl)
    as (code & r' & out & Hrun & Hchecks).
  rewrite Hrun. cbn [fst snd]. rewrite Hchecks. reflexivity.
Defined.
